(** * LIBERO [BDDLBaseDomain]: goal-progress reward shaping and placement planning

    A shallow embedding of the reward and placement logic of
    [libero/libero/envs/bddl_base_domain.py].

    Modelling conventions.
    - Python floats are modelled by exact rationals ([Q]); rounding,
      infinities and NaN are outside the model.  The scene at which the
      reward scale is examined uses small dyadic rationals only, so that
      evaluation is exact in IEEE double arithmetic as well.
    - Python dicts are [gmap]s; a failed subscript raises [KeyError].
    - [self] is an explicit record threaded through the methods; a method
      that can raise returns a [result].
    - Collaborators that live outside this file ([eval_predicate_fn], the
      [x ** 0.5] power, [_check_success] of the task subclass,
      [rectangle2xyrange], the [sample] method of a placement sampler) are
      section variables.
    - The composite samplers are lists of their members in append order;
      [append_sampler] and the composites' [sample] follow the library
      classes: a composite refuses a second sampler for an object, and the
      exception of a member that cannot place its object ends the reset. *)

From Stdlib Require Import QArith Qabs Lqa Lia List String Ascii Bool Sorted.
From stdpp Require Import base gmap strings.
Import ListNotations.

Local Open Scope Q_scope.

(** ** Exceptions and the error monad *)

Inductive exn : Type :=
| KeyError (key : string)
| IndexError
| ValueError
| AttributeError
| NotImplementedError
| AssertionError
| UnboundLocalError (variable : string)
| FileNotFoundError.

Inductive result (A : Type) : Type :=
| Ok (a : A)
| Raise (e : exn).
Arguments Ok {A} a.
Arguments Raise {A} e.

#[global] Instance result_ret : MRet result := fun A a => Ok a.

#[global] Instance result_bind : MBind result := fun A B k m =>
  match m with
  | Ok a => k a
  | Raise e => Raise e
  end.

(** [d[k]] on a dict. *)
Definition getitem {V : Type} (d : gmap string V) (k : string) : result V :=
  match d !! k with
  | Some v => Ok v
  | None => Raise (KeyError k)
  end.

(** [k in d] on a dict. *)
Definition contains {V : Type} (d : gmap string V) (k : string) : bool :=
  match d !! k with
  | Some _ => true
  | None => false
  end.

(** [l[i]] on a list. *)
Definition index {A : Type} (l : list A) (i : nat) : result A :=
  match nth_error l i with
  | Some a => Ok a
  | None => Raise IndexError
  end.

(** ** Numeric builtins *)

Definition Qltb (x y : Q) : bool :=
  if Qlt_le_dec x y then true else false.

(** Python's two-argument [max(a, b)]: [b] only when it is strictly larger. *)
Definition py_max2 (a b : Q) : Q := if Qltb a b then b else a.

(** Python's [max] / [min] over a list; [ValueError] on the empty list. *)
Definition py_max (l : list Q) : result Q :=
  match l with
  | [] => Raise ValueError
  | x :: xs => Ok (fold_left py_max2 xs x)
  end.

Definition py_min2 (a b : Q) : Q := if Qltb b a then b else a.

Definition py_min (l : list Q) : result Q :=
  match l with
  | [] => Raise ValueError
  | x :: xs => Ok (fold_left py_min2 xs x)
  end.

(** [np.clip(x, lo, hi) = minimum(maximum(x, lo), hi)]. *)
Definition np_clip (x lo hi : Q) : Q :=
  let m := if Qltb x lo then lo else x in
  if Qltb hi m then hi else m.

Definition np_abs (x : Q) : Q := Qabs x.

(** [str.lower()] on ASCII letters. *)
Definition lower_ascii (c : ascii) : ascii :=
  let n := nat_of_ascii c in
  if (Nat.leb 65 n && Nat.leb n 90)%bool then ascii_of_nat (n + 32) else c.

Fixpoint lower (s : string) : string :=
  match s with
  | EmptyString => EmptyString
  | String c s' => String (lower_ascii c) (lower s')
  end.

(** ** Data model *)

(** The state wrapper of one named entity ([ObjectState] or
    [SiteObjectState] of [libero.libero.envs.object_states]); only what the
    domain class reads is kept. *)
Record ObjectStateView : Type := {
  is_ObjectState : bool;          (* isinstance(obj_state, ObjectState) *)
  has_set_joint : bool;           (* hasattr(obj_state, "set_joint") *)
  geom_pos : Q * Q * Q;           (* get_geom_state()["pos"] *)
  joint_state : list Q            (* get_joint_state() *)
}.

(** A MuJoCo object, fixture or site object. *)
Record MujocoObject : Type := {
  name : string;
  category_name : string;
  is_ArticulatedObject : bool;    (* isinstance(obj, ArticulatedObject) *)
  object_properties : option (gmap string (gmap string (list Q)));
  rotation : Q * Q;
  rotation_axis : string;
  size : list Q
}.

Record Region : Type := {
  target : string;
  ranges : list (list Q);
  yaw_rotation : Q * Q
}.

Record ParsedProblem : Type := {
  problem_name : string;
  fixtures : list (string * list string);
  objects : list (string * list string);
  regions : gmap string Region;
  initial_state : list (list string);
  goal_state : list (list string)
}.

(** Sampler classes instantiated by [_add_placement_initializer]. *)
Inductive SamplerClass : Type :=
| MultiRegionRandomSampler
| RegionSampler (problem category : string)   (* get_region_samplers(problem, category) *)
| SiteRegionRandomSampler
| ObjectBasedSampler
| InSiteRegionRandomSampler.

Record Sampler : Type := {
  s_class : SamplerClass;
  s_name : string;
  s_mujoco_objects : MujocoObject;
  s_x_ranges : option (list (list Q));
  s_y_ranges : option (list (list Q));
  s_rotation : Q * Q;
  s_rotation_axis : string;
  s_z_offset : option Q;
  s_ensure_object_boundary_in_range : option bool;
  s_ensure_valid_placement : option bool;
  s_reference_pos : option (Q * Q * Q)
}.

(** The keyword arguments stored next to a sampler by [append_sampler]. *)
Record SampleArgs : Type := {
  reference : string;
  site_name : option string
}.

Inductive PropertySamplerClass : Type :=
| OpenCloseSampler
| TurnOnOffSampler
| OtherSampler.

Record PropertySampler : Type := {
  p_class : PropertySamplerClass;
  p_name : string;
  p_state_type : string;
  p_joint_ranges : list Q
}.

(** [append_sampler] of the composite samplers ([SequentialCompositeSampler]
    of robosuite and the site composite derived from it; the classes are not
    part of the sources embedded here).  The composite asserts that the
    object of the new sampler has no sampler in it yet, and keeps the
    samplers, each with its arguments, in the order in which they were
    appended.  Objects are told apart by their [name]; samplers of different
    objects are taken to carry different names, so that the dict of the
    composite, keyed by sampler name, never overwrites.  [sampler_of] reads
    the sampler of an entry. *)
Definition append_sampler {E : Type} (sampler_of : E -> Sampler)
    (composite : list E) (entry : E) : result (list E) :=
  if existsb
       (fun member =>
          String.eqb (name (s_mujoco_objects (sampler_of member)))
            (name (s_mujoco_objects (sampler_of entry))))
       composite
  then Raise AssertionError
  else Ok (composite ++ [entry]).

(** An entry of [object_placements]: position, quaternion and the object. *)
Definition Placement : Type := (Q * Q * Q) * (Q * Q * Q * Q) * MujocoObject.

(** [object_placements]: a dict keyed by object name, in insertion order. *)
Definition Placements : Type := list (string * Placement).

(** [d[k] = v] on such a dict. *)
Fixpoint dict_set (d : Placements) (k : string) (v : Placement) : Placements :=
  match d with
  | [] => [(k, v)]
  | (k', v') :: rest =>
    if String.eqb k' k then (k', v) :: rest else (k', v') :: dict_set rest k v
  end.

(** [d.update(new)]. *)
Definition dict_update (d new : Placements) : Placements :=
  fold_left (fun d kv => dict_set d (fst kv) (snd kv)) new d.

(** The fields of [self] that the embedded methods read or write.
    [previous_distance = None] stands for the attribute being absent
    ([hasattr] false). *)
Record Env : Type := {
  reward_scale : option Q;
  reward_shaping : bool;
  workspace_offset : Q * Q * Q;
  z_offset : Q;
  parsed_problem : ParsedProblem;
  objects_dict : gmap string MujocoObject;
  fixtures_dict : gmap string MujocoObject;
  object_sites_dict : gmap string MujocoObject;
  object_states_dict : gmap string ObjectStateView;
  previous_distance : option Q;
  placement_initializer : list Sampler;
  conditional_placement_initializer : list (Sampler * SampleArgs);
  conditional_placement_on_objects_initializer : list (Sampler * SampleArgs);
  object_property_initializers : list PropertySampler;
  deterministic_reset : bool
}.

(** Attribute assignments [self.f = v]. *)
Definition set_object_states_dict (self : Env) (v : gmap string ObjectStateView) : Env :=
  {| reward_scale := reward_scale self;
     reward_shaping := reward_shaping self;
     workspace_offset := workspace_offset self;
     z_offset := z_offset self;
     parsed_problem := parsed_problem self;
     objects_dict := objects_dict self;
     fixtures_dict := fixtures_dict self;
     object_sites_dict := object_sites_dict self;
     object_states_dict := v;
     previous_distance := previous_distance self;
     placement_initializer := placement_initializer self;
     conditional_placement_initializer := conditional_placement_initializer self;
     conditional_placement_on_objects_initializer := conditional_placement_on_objects_initializer self;
     object_property_initializers := object_property_initializers self;
     deterministic_reset := deterministic_reset self |}.

Definition set_previous_distance (self : Env) (v : option Q) : Env :=
  {| reward_scale := reward_scale self;
     reward_shaping := reward_shaping self;
     workspace_offset := workspace_offset self;
     z_offset := z_offset self;
     parsed_problem := parsed_problem self;
     objects_dict := objects_dict self;
     fixtures_dict := fixtures_dict self;
     object_sites_dict := object_sites_dict self;
     object_states_dict := object_states_dict self;
     previous_distance := v;
     placement_initializer := placement_initializer self;
     conditional_placement_initializer := conditional_placement_initializer self;
     conditional_placement_on_objects_initializer := conditional_placement_on_objects_initializer self;
     object_property_initializers := object_property_initializers self;
     deterministic_reset := deterministic_reset self |}.

Definition set_placement_initializer (self : Env) (v : list Sampler) : Env :=
  {| reward_scale := reward_scale self;
     reward_shaping := reward_shaping self;
     workspace_offset := workspace_offset self;
     z_offset := z_offset self;
     parsed_problem := parsed_problem self;
     objects_dict := objects_dict self;
     fixtures_dict := fixtures_dict self;
     object_sites_dict := object_sites_dict self;
     object_states_dict := object_states_dict self;
     previous_distance := previous_distance self;
     placement_initializer := v;
     conditional_placement_initializer := conditional_placement_initializer self;
     conditional_placement_on_objects_initializer := conditional_placement_on_objects_initializer self;
     object_property_initializers := object_property_initializers self;
     deterministic_reset := deterministic_reset self |}.

Definition set_conditional_placement_initializer (self : Env) (v : list (Sampler * SampleArgs)) : Env :=
  {| reward_scale := reward_scale self;
     reward_shaping := reward_shaping self;
     workspace_offset := workspace_offset self;
     z_offset := z_offset self;
     parsed_problem := parsed_problem self;
     objects_dict := objects_dict self;
     fixtures_dict := fixtures_dict self;
     object_sites_dict := object_sites_dict self;
     object_states_dict := object_states_dict self;
     previous_distance := previous_distance self;
     placement_initializer := placement_initializer self;
     conditional_placement_initializer := v;
     conditional_placement_on_objects_initializer := conditional_placement_on_objects_initializer self;
     object_property_initializers := object_property_initializers self;
     deterministic_reset := deterministic_reset self |}.

Definition set_conditional_placement_on_objects_initializer (self : Env) (v : list (Sampler * SampleArgs)) : Env :=
  {| reward_scale := reward_scale self;
     reward_shaping := reward_shaping self;
     workspace_offset := workspace_offset self;
     z_offset := z_offset self;
     parsed_problem := parsed_problem self;
     objects_dict := objects_dict self;
     fixtures_dict := fixtures_dict self;
     object_sites_dict := object_sites_dict self;
     object_states_dict := object_states_dict self;
     previous_distance := previous_distance self;
     placement_initializer := placement_initializer self;
     conditional_placement_initializer := conditional_placement_initializer self;
     conditional_placement_on_objects_initializer := v;
     object_property_initializers := object_property_initializers self;
     deterministic_reset := deterministic_reset self |}.

Definition set_object_property_initializers (self : Env) (v : list PropertySampler) : Env :=
  {| reward_scale := reward_scale self;
     reward_shaping := reward_shaping self;
     workspace_offset := workspace_offset self;
     z_offset := z_offset self;
     parsed_problem := parsed_problem self;
     objects_dict := objects_dict self;
     fixtures_dict := fixtures_dict self;
     object_sites_dict := object_sites_dict self;
     object_states_dict := object_states_dict self;
     previous_distance := previous_distance self;
     placement_initializer := placement_initializer self;
     conditional_placement_initializer := conditional_placement_initializer self;
     conditional_placement_on_objects_initializer := conditional_placement_on_objects_initializer self;
     object_property_initializers := v;
     deterministic_reset := deterministic_reset self |}.

(** [get_object]: first hit among fixtures, objects and sites; falls off the
    end (returns [None]) when the name is unknown. *)
Definition get_object (self : Env) (object_name : string) : option MujocoObject :=
  if contains (fixtures_dict self) object_name then fixtures_dict self !! object_name
  else if contains (objects_dict self) object_name then objects_dict self !! object_name
  else if contains (object_sites_dict self) object_name
       then object_sites_dict self !! object_name
  else None.

(** ** The methods of [BDDLBaseDomain] *)

Section Domain.

(** [eval_predicate_fn(name, *object_states)] of
    [libero.libero.envs.predicates]. *)
Variable eval_predicate_fn : string -> list ObjectStateView -> bool.

(** [x ** 0.5]. *)
Variable pow_half : Q -> Q.

(** [_check_success] as overridden by the task subclass (the base class
    returns [False]). *)
Variable _check_success : Env -> bool.

(** [rectangle2xyrange] of [libero.libero.envs.utils]. *)
Variable rectangle2xyrange : list (list Q) -> list (list Q) * list (list Q).

(** [sampler.sample(...)] of a member of a composite, called with the
    placements made so far and the arguments stored next to the sampler
    ([None] when [append_sampler] was given none): the placements of the
    sampler's objects, or the exception it raises (an object that is already
    placed, a reference that is not placed yet, no valid placement within the
    retry budget).  The poses are random; the variable stands for the draws
    of one reset. *)
Variable sample : Sampler -> option SampleArgs -> Placements -> result Placements.

(** *** Progress toward one predicate *)

(** The joint-range progress shared, line for line, by the [open]/[close]
    branch and the [turnon]/[turnoff] branch; [opposite_ranges_key_suffix]
    is the only expression in which the two branches differ. *)
Definition joint_range_progress (self : Env) (obj_state : ObjectStateView)
    (object_name predicate_fn_name_lower opposite_ranges_key_suffix : string)
    : result Q :=
  let obj := get_object self object_name in
  match obj with
  | None => Ok 0
  | Some obj =>
    if negb (is_ObjectState obj_state) || negb (is_ArticulatedObject obj)
    then Ok 0
    else
      match joint_state obj_state with
      | [] => Ok 0
      | q_curr :: _ =>
        match object_properties obj with
        | None => Ok 0
        | Some props =>
          match props !! "articulation" with
          | None => Ok 0
          | Some art_props =>
            let target_ranges_key_suffix := predicate_fn_name_lower +:+ "_ranges" in
            let default_target_ranges_key := "default_" +:+ target_ranges_key_suffix in
            let default_opposite_ranges_key :=
              "default_" +:+ opposite_ranges_key_suffix in
            match art_props !! default_target_ranges_key,
                  art_props !! default_opposite_ranges_key with
            | Some target_ranges, Some opposite_ranges =>
              q_target_min_val ← py_min target_ranges;
              q_target_max_val ← py_max target_ranges;
              q_opp_min_val ← py_min opposite_ranges;
              q_opp_max_val ← py_max opposite_ranges;
              let current_progress :=
                if Qltb q_target_max_val q_opp_min_val then
                  let q_target_entry := q_target_max_val in
                  let q_opposite_extreme := q_opp_max_val in
                  let denominator := q_opposite_extreme - q_target_entry in
                  if Qltb (1 # 1000000) denominator
                  then (q_opposite_extreme - q_curr) / denominator
                  else 0
                else if Qltb q_opp_max_val q_target_min_val then
                  let q_target_entry := q_target_min_val in
                  let q_opposite_extreme := q_opp_max_val in
                  let denominator := q_target_entry - q_opposite_extreme in
                  if Qltb (1 # 1000000) denominator
                  then (q_curr - q_opposite_extreme) / denominator
                  else 0
                else 0 in
              Ok (np_clip current_progress 0 1)
            | _, _ => Ok 0
            end
          end
        end
      end
  end.

Definition _get_predicate_progress (self : Env) (state : list string) : result Q :=
  match state with
  | [predicate_fn_name; object_1_name; object_2_name] =>
    obj1 ← getitem (object_states_dict self) object_1_name;
    obj2 ← getitem (object_states_dict self) object_2_name;
    if eval_predicate_fn predicate_fn_name [obj1; obj2] then Ok 1
    else if String.eqb (lower predicate_fn_name) "on" then
      let '(x1, y1, _) := geom_pos obj1 in
      let '(x2, y2, _) := geom_pos obj2 in
      let horizontal_dist := pow_half ((x1 - x2) ^ 2 + (y1 - y2) ^ 2) in
      let max_horizontal_dist := 1 in
      let normalized_horiz :=
        py_max2 0 (1 - horizontal_dist / max_horizontal_dist) in
      Ok normalized_horiz
    else if String.eqb (lower predicate_fn_name) "in" then
      let '(x1, y1, z1) := geom_pos obj1 in
      let '(x2, y2, z2) := geom_pos obj2 in
      let dist := pow_half ((x1 - x2) ^ 2 + (y1 - y2) ^ 2 + (z1 - z2) ^ 2) in
      let max_dist := 1 in
      let normalized_dist := py_max2 0 (1 - dist / max_dist) in
      Ok normalized_dist
    else Raise NotImplementedError
  | [predicate_fn_name_orig_case; object_name] =>
    let predicate_fn_name_lower := lower predicate_fn_name_orig_case in
    obj_state ← getitem (object_states_dict self) object_name;
    if eval_predicate_fn predicate_fn_name_orig_case [obj_state] then Ok 1
    else if String.eqb predicate_fn_name_lower "open"
            || String.eqb predicate_fn_name_lower "close" then
      joint_range_progress self obj_state object_name predicate_fn_name_lower
        (if String.eqb predicate_fn_name_lower "open"
         then "close_ranges" else "open_ranges")
    else if String.eqb predicate_fn_name_lower "turnon"
            || String.eqb predicate_fn_name_lower "turnoff" then
      joint_range_progress self obj_state object_name predicate_fn_name_lower
        (if String.eqb predicate_fn_name_lower "turnon"
         then "turnoff_ranges" else "turnon_ranges")
    else Raise NotImplementedError
  | [] => Raise IndexError      (* state[0] in the error message *)
  | _ => Raise NotImplementedError
  end.

(** *** Dense reward *)

(** The loop [for state in goal_state: ... distances.append(distance)]. *)
Fixpoint goal_distances (self : Env) (goal_state : list (list string))
    : result (list Q) :=
  match goal_state with
  | [] => Ok []
  | state :: rest =>
    progress ← _get_predicate_progress self state;
    let distance := 1 - progress in
    distances ← goal_distances self rest;
    Ok (distance :: distances)
  end.

(** [reward *= self.reward_scale / 1.0] under [if self.reward_scale is not None]. *)
Definition apply_reward_scale (self : Env) (reward : Q) : Q :=
  match reward_scale self with
  | Some scale => reward * (scale / 1)
  | None => reward
  end.

(** Lines 205-215: the bottleneck distance over the goal conditions. *)
Definition current_distance (self : Env) (goal_state : list (list string))
    : result Q :=
  distances ← goal_distances self goal_state;
  match distances with
  | [] => Ok 1
  | _ :: _ => py_max distances
  end.

(** Lines 233-236: [np.clip] to [[0, 1]], then values below [1e-3] become
    [0.0]. *)
Definition clip_and_denoise (reward : Q) : Q :=
  let reward := np_clip reward 0 1 in
  if Qltb (np_abs reward) (1 # 1000) then 0 else reward.

Definition _compute_dense_reward (self : Env) : result (Q * Env) :=
  let goal_state := goal_state (parsed_problem self) in
  match goal_state with
  | [] => Ok (0, self)
  | _ :: _ =>
    current_distance ← current_distance self goal_state;
    match previous_distance self with
    | None =>
      Ok (0, set_previous_distance self (Some current_distance))
    | Some previous =>
      let distance_diff := previous - current_distance in
      let reward := distance_diff in
      let self := set_previous_distance self (Some current_distance) in
      let reward := apply_reward_scale self reward in
      Ok (clip_and_denoise reward, self)
    end
  end.

Definition reward (self : Env) : result (Q * Env) :=
  let reward := 0 in
  '(reward, self) ←
    (if _check_success self then Ok (1, self)
     else if reward_shaping self then _compute_dense_reward self
     else Ok (reward, self));
  let reward := apply_reward_scale self reward in
  Ok (reward, self).

(** *** Placement planning at scene-build time *)

(** [mapping_inv]: object or fixture name to its category. *)
Definition invert_categories (m : gmap string string)
    (d : list (string * list string)) : gmap string string :=
  fold_left (fun m kv => fold_left (fun m v => <[v := fst kv]> m) (snd kv) m) d m.

Definition mapping_inv (self : Env) : gmap string string :=
  invert_categories
    (invert_categories ∅ (fixtures (parsed_problem self)))
    (objects (parsed_problem self)).

Definition is_fixture (self : Env) (object_name : string) : bool :=
  contains (fixtures_dict self) object_name.

(** [state[0] == p and state[2] in d], with Python's short-circuit [and]. *)
Definition binary_atom_into {V : Type} (state : list string) (p : string)
    (d : gmap string V) : result bool :=
  s0 ← index state 0;
  if String.eqb s0 p then s2 ← index state 2; Ok (contains d s2) else Ok false.

(** The three local lists of [_add_placement_initializer] together with
    [self]. *)
Record Plan : Type := {
  plan_self : Env;
  conditioned_initial_place_state_on_sites : list (list string);
  conditioned_initial_place_state_on_objects : list (list string);
  conditioned_initial_place_state_in_objects : list (list string)
}.

(** [obj.object_properties["articulation"][key]] on the result of
    [get_object]. *)
Definition articulation_ranges (obj : option MujocoObject) (key : string)
    : result (list Q) :=
  match obj with
  | None => Raise AttributeError
  | Some obj =>
    match object_properties obj with
    | None => Raise AttributeError
    | Some props =>
      art_props ← getitem props "articulation";
      getitem art_props key
    end
  end.

(** The tail of the first loop body: the [open]/[close] and
    [turnon]/[turnoff] joint samplers. *)
Definition add_property_initializer (self : Env) (state : list string)
    : result Env :=
  s0 ← index state 0;
  let register (cls : PropertySamplerClass) (key : string) : result Env :=
    s1 ← index state 1;
    match object_states_dict self !! s1 with
    | Some obj_state =>
      if has_set_joint obj_state then
        let obj := get_object self s1 in
        joint_ranges ← articulation_ranges obj key;
        match obj with
        | None => Raise AttributeError
        | Some o =>
          let property_initializer :=
            {| p_class := cls; p_name := name o; p_state_type := s0;
               p_joint_ranges := joint_ranges |} in
          Ok (set_object_property_initializers self
                (object_property_initializers self ++ [property_initializer]))
        end
      else Ok self
    | None => Ok self
    end in
  if String.eqb s0 "open" || String.eqb s0 "close" then
    register OpenCloseSampler
      (if String.eqb s0 "open" then "default_open_ranges" else "default_close_ranges")
  else if String.eqb s0 "turnon" || String.eqb s0 "turnoff" then
    register TurnOnOffSampler
      (if String.eqb s0 "turnon" then "default_turnon_ranges"
       else "default_turnoff_ranges")
  else Ok self.

(** One iteration of [for state in initial_state]. *)
Definition classify_state (plan : Plan) (state : list string) : result Plan :=
  let self := plan_self plan in
  let regions := regions (parsed_problem self) in
  on_object ← binary_atom_into state "on" (objects_dict self);
  if (on_object : bool) then
    Ok {| plan_self := self;
          conditioned_initial_place_state_on_sites :=
            conditioned_initial_place_state_on_sites plan;
          conditioned_initial_place_state_on_objects :=
            conditioned_initial_place_state_on_objects plan ++ [state];
          conditioned_initial_place_state_in_objects :=
            conditioned_initial_place_state_in_objects plan |}
  else
  in_region ← binary_atom_into state "in" regions;
  if (in_region : bool) then
    Ok {| plan_self := self;
          conditioned_initial_place_state_on_sites :=
            conditioned_initial_place_state_on_sites plan;
          conditioned_initial_place_state_on_objects :=
            conditioned_initial_place_state_on_objects plan;
          conditioned_initial_place_state_in_objects :=
            conditioned_initial_place_state_in_objects plan ++ [state] |}
  else
  on_region ← binary_atom_into state "on" regions;
  let finish (self : Env) : result Plan :=
    self ← add_property_initializer self state;
    Ok {| plan_self := self;
          conditioned_initial_place_state_on_sites :=
            conditioned_initial_place_state_on_sites plan;
          conditioned_initial_place_state_on_objects :=
            conditioned_initial_place_state_on_objects plan;
          conditioned_initial_place_state_in_objects :=
            conditioned_initial_place_state_in_objects plan |} in
  if (on_region : bool) then
    object_name ← index state 1;
    region_name ← index state 2;
    region ← getitem regions region_name;
    let target_name := target region in
    let '(x_ranges, y_ranges) := rectangle2xyrange (ranges region) in
    let yaw_rotation := yaw_rotation region in
    if contains (objects_dict self) target_name
       || contains (fixtures_dict self) target_name then
      Ok {| plan_self := self;
            conditioned_initial_place_state_on_sites :=
              conditioned_initial_place_state_on_sites plan ++ [state];
            conditioned_initial_place_state_on_objects :=
              conditioned_initial_place_state_on_objects plan;
            conditioned_initial_place_state_in_objects :=
              conditioned_initial_place_state_in_objects plan |}
    else if is_fixture self object_name then
      fixture ← getitem (fixtures_dict self) object_name;
      let fixture_sampler :=
        {| s_class := MultiRegionRandomSampler;
           s_name := object_name +:+ "_sampler";
           s_mujoco_objects := fixture;
           s_x_ranges := Some x_ranges;
           s_y_ranges := Some y_ranges;
           s_rotation := yaw_rotation;
           s_rotation_axis := "z";
           s_z_offset := Some (z_offset self);
           s_ensure_object_boundary_in_range := Some false;
           s_ensure_valid_placement := Some false;
           s_reference_pos := Some (workspace_offset self) |} in
      samplers ← append_sampler id (placement_initializer self) fixture_sampler;
      finish (set_placement_initializer self samplers)
    else
      category ← getitem (mapping_inv self) target_name;
      obj ← getitem (objects_dict self) object_name;
      let region_sampler :=
        {| s_class := RegionSampler (problem_name (parsed_problem self)) category;
           s_name := object_name;
           s_mujoco_objects := obj;
           s_x_ranges := Some x_ranges;
           s_y_ranges := Some y_ranges;
           s_rotation := rotation obj;
           s_rotation_axis := rotation_axis obj;
           s_z_offset := None;
           s_ensure_object_boundary_in_range := None;
           s_ensure_valid_placement := None;
           s_reference_pos := Some (workspace_offset self) |} in
      samplers ← append_sampler id (placement_initializer self) region_sampler;
      finish (set_placement_initializer self samplers)
  else finish self.

Fixpoint classify_states (plan : Plan) (initial_state : list (list string))
    : result Plan :=
  match initial_state with
  | [] => Ok plan
  | state :: rest =>
    plan ← classify_state plan state;
    classify_states plan rest
  end.

(** [for state in conditioned_initial_place_state_on_sites]. *)
Fixpoint place_on_sites (self : Env) (states : list (list string)) : result Env :=
  match states with
  | [] => Ok self
  | state :: rest =>
    object_name ← index state 1;
    region_name ← index state 2;
    region ← getitem (regions (parsed_problem self)) region_name;
    let target_name := target region in
    site ← getitem (object_sites_dict self) region_name;
    let site_xy_size := firstn 2 (size site) in
    obj ← getitem (objects_dict self) object_name;
    sx ← index site_xy_size 0;
    sy ← index site_xy_size 1;
    let sampler :=
      {| s_class := SiteRegionRandomSampler;
         s_name := object_name +:+ "_sampler";
         s_mujoco_objects := obj;
         s_x_ranges := Some [[- sx / 2; sx / 2]];
         s_y_ranges := Some [[- sy / 2; sy / 2]];
         s_rotation := rotation obj;
         s_rotation_axis := rotation_axis obj;
         s_z_offset := None;
         s_ensure_object_boundary_in_range := Some true;
         s_ensure_valid_placement := Some true;
         s_reference_pos := None |} in
    samplers ← append_sampler fst (conditional_placement_initializer self)
                  (sampler, {| reference := target_name;
                               site_name := Some region_name |});
    place_on_sites (set_conditional_placement_initializer self samplers) rest
  end.

(** [for state in conditioned_initial_place_state_on_objects]. *)
Fixpoint place_on_objects (self : Env) (states : list (list string)) : result Env :=
  match states with
  | [] => Ok self
  | state :: rest =>
    object_name ← index state 1;
    other_object_name ← index state 2;
    obj ← getitem (objects_dict self) object_name;
    let sampler :=
      {| s_class := ObjectBasedSampler;
         s_name := object_name +:+ "_sampler";
         s_mujoco_objects := obj;
         s_x_ranges := Some [[0; 0]];
         s_y_ranges := Some [[0; 0]];
         s_rotation := rotation obj;
         s_rotation_axis := rotation_axis obj;
         s_z_offset := None;
         s_ensure_object_boundary_in_range := Some false;
         s_ensure_valid_placement := Some false;
         s_reference_pos := None |} in
    samplers ← append_sampler fst
                  (conditional_placement_on_objects_initializer self)
                  (sampler, {| reference := other_object_name;
                               site_name := None |});
    place_on_objects
      (set_conditional_placement_on_objects_initializer self samplers) rest
  end.

(** [for state in conditioned_initial_place_state_in_objects]. *)
Fixpoint place_in_objects (self : Env) (states : list (list string)) : result Env :=
  match states with
  | [] => Ok self
  | state :: rest =>
    object_name ← index state 1;
    region_name ← index state 2;
    region ← getitem (regions (parsed_problem self)) region_name;
    let target_name := target region in
    site ← getitem (object_sites_dict self) region_name;
    obj ← getitem (objects_dict self) object_name;
    let sampler :=
      {| s_class := InSiteRegionRandomSampler;
         s_name := object_name +:+ "_sampler";
         s_mujoco_objects := obj;
         s_x_ranges := None;
         s_y_ranges := None;
         s_rotation := rotation obj;
         s_rotation_axis := rotation_axis obj;
         s_z_offset := None;
         s_ensure_object_boundary_in_range := Some true;
         s_ensure_valid_placement := Some true;
         s_reference_pos := None |} in
    samplers ← append_sampler fst (conditional_placement_initializer self)
                  (sampler, {| reference := target_name;
                               site_name := Some region_name |});
    place_in_objects (set_conditional_placement_initializer self samplers) rest
  end.

Definition _add_placement_initializer (self : Env) : result Env :=
  let initial_state := initial_state (parsed_problem self) in
  plan ← classify_states
            {| plan_self := self;
               conditioned_initial_place_state_on_sites := [];
               conditioned_initial_place_state_on_objects := [];
               conditioned_initial_place_state_in_objects := [] |}
            initial_state;
  self ← place_on_sites (plan_self plan)
            (conditioned_initial_place_state_on_sites plan);
  self ← place_on_objects self (conditioned_initial_place_state_on_objects plan);
  place_in_objects self (conditioned_initial_place_state_in_objects plan).

(** The three composite samplers start empty and are then filled. *)
Definition _setup_placement_initializer (self : Env) : result Env :=
  let self := set_placement_initializer self [] in
  let self := set_conditional_placement_initializer self [] in
  let self := set_conditional_placement_on_objects_initializer self [] in
  _add_placement_initializer self.

(** *** Episode reset *)

(** What [_reset_internal] does to the simulation, in program order.  The
    values drawn by the joint samplers are random and are not part of the
    event. *)
Inductive Event : Type :=
| SuperResetInternal
| PropertySample (p : PropertySampler)          (* object_property_initializer.sample() *)
| SetJoint (object_name : string)               (* object_states_dict[name].set_joint(..) *)
| PrintWarning
| MjStep1
| PlacementSample (s : Sampler)                  (* a member of placement_initializer *)
| ConditionalSample (s : Sampler) (a : SampleArgs)
| OnObjectsSample (s : Sampler) (a : SampleArgs)
| SetJointQpos (object_name : string)           (* movable object resetting *)
| SetBodyPose (object_name : string).           (* fixture resetting *)

(** [for object_property_initializer in self.object_property_initializers]. *)
Fixpoint sample_properties (self : Env) (l : list PropertySampler)
    : result (list Event) :=
  match l with
  | [] => Ok []
  | p :: rest =>
    evs ←
      match p_class p return result (list Event) with
      | OpenCloseSampler | TurnOnOffSampler =>
        obj_state ← getitem (object_states_dict self) (p_name p);
        if has_set_joint obj_state
        then Ok [PropertySample p; SetJoint (p_name p)]
        else Raise AttributeError
      | OtherSampler => Ok [PrintWarning]
      end;
    more ← sample_properties self rest;
    Ok (evs ++ more)
  end.

(** [for obj_pos, obj_quat, obj in object_placements.values()]. *)
Definition apply_placement (self : Env) (obj : MujocoObject) : Event :=
  if negb (contains (fixtures_dict self) (name obj))
  then SetJointQpos (name obj)
  else SetBodyPose (name obj).

(** Modelled from the spec: [sample] of a composite sampler, whose class is
    not part of the sources.  The members draw in the order in which they
    were appended, each seeing the placements made so far
    ([fixtures=placed_objects]); what a member draws is recorded by
    [placed_objects.update(new_placements)], and the exception of a member
    that fails ends the reset. *)
Fixpoint composite_sample {E : Type} (sampler_of : E -> Sampler)
    (args_of : E -> option SampleArgs) (members : list E)
    (placed_objects : Placements) : result Placements :=
  match members with
  | [] => Ok placed_objects
  | member :: rest =>
    new_placements ← sample (sampler_of member) (args_of member) placed_objects;
    composite_sample sampler_of args_of rest
      (dict_update placed_objects new_placements)
  end.

(** The three [sample] calls of [_reset_internal]: the unconditioned
    composite starts from no placement, the other two from the placements
    made before them. *)
Definition sample_placements (self : Env) : result Placements :=
  object_placements ←
    composite_sample id (fun _ => None) (placement_initializer self) [];
  object_placements ←
    composite_sample fst (fun sa => Some (snd sa))
      (conditional_placement_initializer self) object_placements;
  composite_sample fst (fun sa => Some (snd sa))
    (conditional_placement_on_objects_initializer self) object_placements.

(** The trace of a reset that returns lists the sampler events in program
    order; the last loop applies one placement per entry of
    [object_placements]. *)
Definition _reset_internal (self : Env) : result (Env * list Event) :=
  let self := set_previous_distance self None in
  if negb (deterministic_reset self) then
    joint_events ← sample_properties self (object_property_initializers self);
    object_placements ← sample_placements self;
    Ok (self,
        ([SuperResetInternal] ++ joint_events ++ [MjStep1]
        ++ map PlacementSample (placement_initializer self)
        ++ map (fun sa => ConditionalSample (fst sa) (snd sa))
               (conditional_placement_initializer self)
        ++ map (fun sa => OnObjectsSample (fst sa) (snd sa))
               (conditional_placement_on_objects_initializer self)
        ++ map (fun placement => apply_placement self (snd (snd placement)))
               object_placements)%list)
  else Ok (self, [SuperResetInternal]).

End Domain.

(** ** Concrete scenes used to exercise the definitions *)

Module Examples.

(** An evaluator under which a joint counts as satisfied from [q = 1] on. *)
Definition eval_threshold (predicate : string) (args : list ObjectStateView)
    : bool :=
  match args with
  | [o] =>
    match joint_state o with
    | q :: _ => Qle_bool 1 q
    | [] => false
    end
  | _ => false
  end.

(** A rational square root, rounded down on the numerator. *)
Definition sqrt_floor (x : Q) : Q :=
  Z.sqrt (Qnum x * Zpos (Qden x)) # Qden x.

Definition never_success (self : Env) : bool := false.

Definition always_success (self : Env) : bool := true.

Definition xy_of_rectangles (rect_ranges : list (list Q))
    : list (list Q) * list (list Q) :=
  (map (fun r => [nth 0 r 0; nth 2 r 0]) rect_ranges,
   map (fun r => [nth 1 r 0; nth 3 r 0]) rect_ranges).

(** A cabinet whose door is closed at [q = 0] and open on [[1, 2]]. *)
Definition cabinet : MujocoObject :=
  {| name := "cabinet";
     category_name := "short_cabinet";
     is_ArticulatedObject := true;
     object_properties :=
       Some {[ "articulation" :=
                 {[ "default_open_ranges" := [1; 2];
                    "default_close_ranges" := [0; 0] ]} ]};
     rotation := (0, 0);
     rotation_axis := "z";
     size := [] |}.

Definition door_state (q : Q) : ObjectStateView :=
  {| is_ObjectState := true;
     has_set_joint := true;
     geom_pos := (0, 0, 0);
     joint_state := [q] |}.

Definition cabinet_problem : ParsedProblem :=
  {| problem_name := "libero_kitchen_tabletop_manipulation";
     fixtures := [("short_cabinet", ["cabinet"])];
     objects := [];
     regions := ∅;
     initial_state := [["close"; "cabinet"]];
     goal_state := [["open"; "cabinet"]] |}.

(** The cabinet scene with the door at [q]. *)
Definition cabinet_env (scale : option Q) (shaping : bool)
    (previous : option Q) (q : Q) : Env :=
  {| reward_scale := scale;
     reward_shaping := shaping;
     workspace_offset := (0, 0, 0);
     z_offset := 0;
     parsed_problem := cabinet_problem;
     objects_dict := ∅;
     fixtures_dict := {[ "cabinet" := cabinet ]};
     object_sites_dict := ∅;
     object_states_dict := {[ "cabinet" := door_state q ]};
     previous_distance := previous;
     placement_initializer := [];
     conditional_placement_initializer := [];
     conditional_placement_on_objects_initializer := [];
     object_property_initializers := [];
     deterministic_reset := false |}.

(** A kitchen scene: the cabinet, and a plate, a bowl and a mug on the
    table.  [main_table] is a parsed fixture that is not loaded into
    [fixtures_dict]. *)
Definition rigid (n category : string) : MujocoObject :=
  {| name := n;
     category_name := category;
     is_ArticulatedObject := false;
     object_properties := None;
     rotation := (0, 0);
     rotation_axis := "z";
     size := [] |}.

Definition cabinet_top_site : MujocoObject :=
  {| name := "cabinet_top";
     category_name := "site";
     is_ArticulatedObject := false;
     object_properties := None;
     rotation := (0, 0);
     rotation_axis := "z";
     size := [1 # 2; 1 # 4; 1 # 100] |}.

Definition rigid_state (x y z : Q) : ObjectStateView :=
  {| is_ObjectState := true;
     has_set_joint := false;
     geom_pos := (x, y, z);
     joint_state := [] |}.

Definition kitchen_problem (initial goal : list (list string)) : ParsedProblem :=
  {| problem_name := "libero_kitchen_tabletop_manipulation";
     fixtures := [("table", ["main_table"]); ("short_cabinet", ["cabinet"])];
     objects := [("plate", ["plate"]); ("bowl", ["bowl"]); ("mug", ["mug"])];
     regions :=
       {[ "plate_region" :=
            {| target := "main_table";
               ranges := [[- (1 # 4); - (1 # 4); 1 # 4; 1 # 4]];
               yaw_rotation := (0, 0) |};
          "cabinet_top" :=
            {| target := "cabinet";
               ranges := [[0; 0; 0; 0]];
               yaw_rotation := (0, 0) |} ]};
     initial_state := initial;
     goal_state := goal |}.

Definition kitchen_env (initial goal : list (list string)) : Env :=
  {| reward_scale := Some 1;
     reward_shaping := true;
     workspace_offset := (0, 0, 0);
     z_offset := 0;
     parsed_problem := kitchen_problem initial goal;
     objects_dict :=
       {[ "plate" := rigid "plate" "plate";
          "bowl" := rigid "bowl" "bowl";
          "mug" := rigid "mug" "mug" ]};
     fixtures_dict := {[ "cabinet" := cabinet ]};
     object_sites_dict := {[ "cabinet_top" := cabinet_top_site ]};
     object_states_dict :=
       {[ "cabinet" := door_state 0;
          "plate" := rigid_state (3 # 10) (4 # 10) 0;
          "bowl" := rigid_state 0 0 0;
          "mug" := rigid_state 1 1 0 ]};
     previous_distance := None;
     placement_initializer := [];
     conditional_placement_initializer := [];
     conditional_placement_on_objects_initializer := [];
     object_property_initializers := [];
     deterministic_reset := false |}.

(** A run of the samplers that puts every object at the origin.  Like the
    samplers of the library it refuses an object that is already placed, and
    an object-conditioned sampler whose reference is not placed yet. *)
Definition sample_at_origin (sampler : Sampler) (args : option SampleArgs)
    (placed_objects : Placements) : result Placements :=
  let obj := s_mujoco_objects sampler in
  let placed (n : string) :=
    existsb (fun kv => String.eqb (fst kv) n) placed_objects in
  let here : Placements := [(name obj, ((0, 0, 0), (0, 0, 0, 1), obj))] in
  if placed (name obj) then Raise AssertionError
  else
    match s_class sampler, args with
    | ObjectBasedSampler, Some a =>
      if placed (reference a) then Ok here else Raise AssertionError
    | _, _ => Ok here
    end.

(** One atom of every placement category. *)
Definition staged_initial_state : list (list string) :=
  [["on"; "bowl"; "plate"];
   ["on"; "mug"; "cabinet_top"];
   ["on"; "plate"; "plate_region"];
   ["close"; "cabinet"]].

(** Two [on] atoms that reference each other. *)
Definition circular_initial_state : list (list string) :=
  [["on"; "bowl"; "plate"]; ["on"; "plate"; "bowl"]].

End Examples.

(** ** Vocabulary of the properties *)

(** The verdict of the evaluator on an atom, obtained the way
    [_get_predicate_progress] obtains it: the names are resolved in
    [object_states_dict] and the states are passed on. *)
Definition evaluator_reports
    (eval_predicate_fn : string -> list ObjectStateView -> bool)
    (self : Env) (state : list string) : bool :=
  match state with
  | [predicate; n1; n2] =>
    match object_states_dict self !! n1, object_states_dict self !! n2 with
    | Some o1, Some o2 => eval_predicate_fn predicate [o1; o2]
    | _, _ => false
    end
  | [predicate; n] =>
    match object_states_dict self !! n with
    | Some o => eval_predicate_fn predicate [o]
    | None => false
    end
  | _ => false
  end.

(** The atoms for which a progress rule exists. *)
Definition supported_atom (state : list string) : bool :=
  match state with
  | [predicate; _; _] =>
    String.eqb (lower predicate) "on" || String.eqb (lower predicate) "in"
  | [predicate; _] =>
    String.eqb (lower predicate) "open" || String.eqb (lower predicate) "close"
    || String.eqb (lower predicate) "turnon"
    || String.eqb (lower predicate) "turnoff"
  | _ => false
  end.

(** Every argument of the atom names a tracked object state. *)
Definition names_resolve (self : Env) (state : list string) : bool :=
  forallb (contains (object_states_dict self)) (tail state).

(** No table of an articulation dictionary is empty. *)
Definition tables_nonempty (art_props : gmap string (list Q)) : bool :=
  forallb (fun kv => match snd kv with [] => false | _ :: _ => true end)
    (map_to_list art_props).

(** The objects named by the atom carry no empty joint-range table. *)
Definition range_tables_nonempty (self : Env) (state : list string) : bool :=
  forallb
    (fun n =>
       match get_object self n with
       | Some obj =>
         match object_properties obj with
         | Some props =>
           match props !! "articulation" with
           | Some art_props => tables_nonempty art_props
           | None => true
           end
         | None => true
         end
       | None => true
       end)
    (tail state).

(** The object state [os] with its first joint position replaced by [q]. *)
Definition with_first_joint (os : ObjectStateView) (q : Q) : ObjectStateView :=
  {| is_ObjectState := is_ObjectState os;
     has_set_joint := has_set_joint os;
     geom_pos := geom_pos os;
     joint_state := q :: tail (joint_state os) |}.

(** The scene [self] after the first joint of [object_name] moved to [q]. *)
Definition move_joint (self : Env) (object_name : string) (q : Q) : Env :=
  match object_states_dict self !! object_name with
  | Some os =>
    set_object_states_dict self
      (<[object_name := with_first_joint os q]> (object_states_dict self))
  | None => self
  end.

(** The stage of the reset at which a sampler of a given class belongs:
    unconditioned placements (1), site-conditioned and in-region placements
    (2), object-conditioned placements (3); joint samplers are stage 0. *)
Definition sampler_phase (c : SamplerClass) : nat :=
  match c with
  | MultiRegionRandomSampler | RegionSampler _ _ => 1
  | SiteRegionRandomSampler | InSiteRegionRandomSampler => 2
  | ObjectBasedSampler => 3
  end.





(** [self] after the first loop of [_add_placement_initializer] appended
    [added] to the unconditioned samplers and left [props] as the joint
    samplers. *)
Definition extend_plan (self : Env) (added : list Sampler)
    (props : list PropertySampler) : Env :=
  set_object_property_initializers
    (set_placement_initializer self (placement_initializer self ++ added))
    props.

(** The first test of the classification loop: [on(obj, other)] with
    [other] a movable object. *)
Definition is_on_object_atom (self : Env) (state : list string) : bool :=
  match binary_atom_into state "on" (objects_dict self) with
  | Ok b => b
  | Raise _ => false
  end.

(** Two [on] atoms that reference each other. *)
Definition circular_on_atoms (initial_state : list (list string))
    (a b : string) : Prop :=
  In ["on"; a; b] initial_state /\ In ["on"; b; a] initial_state.

(** [entry] is the object-conditioned sampler of the atom [state]: a sampler
    of class [ObjectBasedSampler] for the object named by the first argument,
    stored with the second argument as its reference. *)
Definition on_object_entry (self : Env) (state : list string)
    (entry : Sampler * SampleArgs) : Prop :=
  exists a b o,
    index state 1 = Ok a
    /\ index state 2 = Ok b
    /\ objects_dict self !! a = Some o
    /\ snd entry = {| reference := b; site_name := None |}
    /\ s_class (fst entry) = ObjectBasedSampler
    /\ s_mujoco_objects (fst entry) = o.

(** The entry [e] is an object-conditioned sampler for [obj] placed on
    [other]. *)
Definition places_on (e : Sampler * SampleArgs) (obj : MujocoObject)
    (other : string) : Prop :=
  snd e = {| reference := other; site_name := None |}
  /\ s_class (fst e) = ObjectBasedSampler
  /\ s_mujoco_objects (fst e) = obj.

(** ** Further vocabulary *)

(** A run of dense computations: the stored distance left by one call is
    carried into the scene of the next. *)
Fixpoint dense_run
    (eval_predicate_fn : string -> list ObjectStateView -> bool)
    (pow_half : Q -> Q) (previous : option Q) (scenes : list Env)
    : result (list Q) :=
  match scenes with
  | [] => Ok []
  | scene :: rest =>
    '(r, self) ← _compute_dense_reward eval_predicate_fn pow_half
                   (set_previous_distance scene previous);
    rs ← dense_run eval_predicate_fn pow_half (previous_distance self) rest;
    Ok (r :: rs)
  end.

(** The sum of a list of rewards. *)
Definition total (rewards : list Q) : Q := fold_right Qplus 0 rewards.

(** Consecutive distances never grow. *)
Fixpoint non_increasing (d : Q) (ds : list Q) : Prop :=
  match ds with
  | [] => True
  | d' :: rest => d' <= d /\ non_increasing d' rest
  end.

(** The last distance of a run that starts at [d]. *)
Definition final_distance (d : Q) (ds : list Q) : Q := List.last ds d.

(** A scene on which the dense value is unscaled and the goal is not
    empty. *)
Definition unit_scaled (scene : Env) : Prop :=
  (reward_scale scene = Some 1 \/ reward_scale scene = None)
  /\ goal_state (parsed_problem scene) <> [].

(** The current distance of a scene to its own goal. *)
Definition has_distance
    (eval_predicate_fn : string -> list ObjectStateView -> bool)
    (pow_half : Q -> Q) (scene : Env) (d : Q) : Prop :=
  current_distance eval_predicate_fn pow_half scene
    (goal_state (parsed_problem scene)) = Ok d.

(** No step of the run lowers the distance by 1e-3 or more. *)
Fixpoint small_steps (d : Q) (ds : list Q) : Prop :=
  match ds with
  | [] => True
  | d' :: rest => d - d' < 1 # 1000 /\ small_steps d' rest
  end.

(** ** Further concrete scenes *)

Module Scenes.

(** An evaluator that never reports satisfaction. *)
Definition eval_never (predicate : string) (args : list ObjectStateView)
    : bool := false.

(** The kitchen with the bowl lifted half a metre. *)
Definition kitchen_bowl_lifted : Env :=
  set_object_states_dict (Examples.kitchen_env [] [])
    (<["bowl" := Examples.rigid_state 0 0 (1 # 2)]>
       (object_states_dict (Examples.kitchen_env [] []))).

(** The cabinet scene at unit scale with the door at [q]. *)
Definition door_at (q : Q) : Env :=
  Examples.cabinet_env (Some 1) true None q.

End Scenes.

(** A joint sampler as [_add_placement_initializer] registers it: for an
    object state that is tracked under some name and has [set_joint], the
    sampler carrying the [name] attribute of the object found under that
    name. *)
Definition registered_for (self : Env) (p : PropertySampler) : Prop :=
  p_class p <> OtherSampler
  /\ exists s1 os o,
      object_states_dict self !! s1 = Some os
      /\ has_set_joint os = true
      /\ get_object self s1 = Some o
      /\ p_name p = name o.



(** The number of samplers of all kinds held by [self]. *)
Definition sampler_count (self : Env) : nat :=
  length (placement_initializer self)
  + length (conditional_placement_initializer self)
  + length (conditional_placement_on_objects_initializer self)
  + length (object_property_initializers self).



(** An initial-state atom for which the planner has no rule: an [on] or
    [in] atom whose second argument is neither a movable object nor a region
    (for [in]: not a region), an [open], [close], [turnon] or [turnoff] atom
    whose object state is untracked or lacks [set_joint], or an atom with
    any other head. *)
Definition no_placement_rule (self : Env) (state : list string) : Prop :=
  match state with
  | [] => False
  | s0 :: _ =>
    (s0 = "on"
     /\ exists b, index state 2 = Ok b
                  /\ objects_dict self !! b = None
                  /\ regions (parsed_problem self) !! b = None)
    \/ (s0 = "in"
        /\ exists b, index state 2 = Ok b
                     /\ regions (parsed_problem self) !! b = None)
    \/ (In s0 ["open"; "close"; "turnon"; "turnoff"]
        /\ exists n, index state 1 = Ok n
                     /\ (object_states_dict self !! n = None
                         \/ exists os, object_states_dict self !! n = Some os
                                       /\ has_set_joint os = false))
    \/ ~ In s0 ["on"; "in"; "open"; "close"; "turnon"; "turnoff"]
  end.

(** The plan [plan] with the joint samplers of its [self] replaced. *)
Definition plan_with_props (l : list PropertySampler) (plan : Plan) : Plan :=
  {| plan_self := set_object_property_initializers (plan_self plan) l;
     conditioned_initial_place_state_on_sites :=
       conditioned_initial_place_state_on_sites plan;
     conditioned_initial_place_state_on_objects :=
       conditioned_initial_place_state_on_objects plan;
     conditioned_initial_place_state_in_objects :=
       conditioned_initial_place_state_in_objects plan |}.

(** ** Further initial states for the kitchen *)

Module Plans.

(** A container atom declared before a site atom. *)
Definition container_first : list (list string) :=
  [["in"; "mug"; "cabinet_top"]; ["on"; "bowl"; "cabinet_top"]].

End Plans.

(** ** The problem registry and the problem-name assertion *)

(** A problem class: its [__name__] and the module that defines it. *)
Record ProblemClass : Type := {
  class_name : string;
  class_module : string
}.

(** [register_problem]: [TASK_MAPPING[target_class.__name__.lower()] =
    target_class]. *)
Definition register_problem (TASK_MAPPING : gmap string ProblemClass)
    (target_class : ProblemClass) : gmap string ProblemClass :=
  <[lower (class_name target_class) := target_class]> TASK_MAPPING.

(** [TASK_MAPPING] after the classes of a list are registered in order,
    starting from the empty dict of the module. *)
Definition registry (classes : list ProblemClass) : gmap string ProblemClass :=
  fold_left register_problem classes ∅.

(** [_assert_problem_name] of an instance of [cls]. *)
Definition _assert_problem_name (cls : ProblemClass) (self : Env)
    : result unit :=
  if String.eqb (problem_name (parsed_problem self)) (lower (class_name cls))
  then Ok tt
  else Raise AssertionError.

(** ** The action conversion of [step] *)

(** [action[-1:]]. *)
Definition last_slice {A : Type} (l : list A) : list A :=
  skipn (length l - 1) l.

Section Step.

Variables Obs Info : Type.

(** [super().step(action)]. *)
Variable super_step : Env -> list Q -> result (Obs * Q * bool * Info * Env).

Variable _check_success : Env -> bool.

(** The first statement of [step]: an action longer than four entries is cut
    down to its first three and its last entry when [action_dim] is 4. *)
Definition convert_action (action_dim : nat) (action : list Q) : list Q :=
  if Nat.eqb action_dim 4 && Nat.ltb 4 (length action)
  then firstn 3 action ++ last_slice action
  else action.

Definition step (action_dim : nat) (self : Env) (action : list Q)
    : result (Obs * Q * bool * Info * Env) :=
  let action := convert_action action_dim action in
  '(obs, reward, done, info, self) ← super_step self action;
  let done := _check_success self in
  Ok (obs, reward, done, info, self).

End Step.

(** [get_libero_dummy_action] of [examples/dense_reward_example.py]. *)
Definition get_libero_dummy_action : list Q := [0; 0; 0; 0; 0; 0; -1].

(** ** Classes for the registry *)

Module Classes.

Definition kitchen_class : ProblemClass :=
  {| class_name := "Libero_Kitchen_Tabletop_Manipulation";
     class_module := "libero.libero.envs.problems.libero_kitchen_tabletop_manipulation" |}.

(** A second class whose name differs from the first in case only. *)
Definition kitchen_clone : ProblemClass :=
  {| class_name := "LIBERO_Kitchen_Tabletop_Manipulation";
     class_module := "user.problems" |}.

Definition floor_class : ProblemClass :=
  {| class_name := "Libero_Floor_Manipulation";
     class_module := "libero.libero.envs.problems.libero_floor_manipulation" |}.

End Classes.

(** ** The object-state wrappers *)

(** [name in skip_object_names]. *)
Definition in_names (n : string) (names : list string) : bool :=
  existsb (String.eqb n) names.

(** The default value of [skip_object_names]. *)
Definition default_skip_object_names : list string :=
  ["main_table"; "floor"; "countertop"; "coffee_table"].

Section StateWrapper.

(** [ObjectState(self, object_name)] and
    [ObjectState(self, object_name, is_fixture=True)] of
    [libero.libero.envs.object_states]; the last argument is the keyword as
    passed, [None] when it is left out. *)
Variable new_ObjectState : Env -> string -> option bool -> ObjectStateView.

(** [SiteObjectState(self, object_name, parent_name=...)]. *)
Variable new_SiteObjectState : Env -> string -> string -> ObjectStateView.

(** The [parent_name] attribute of a site object. *)
Variable parent_name : MujocoObject -> string.

(** [category in VISUAL_CHANGE_OBJECTS_DICT]. *)
Variable VISUAL_CHANGE_OBJECTS_DICT : string -> bool.

(** The loop over [objects_dict] and the loop over [fixtures_dict]; they
    differ in the [is_fixture] keyword only.  The dict is walked in the
    order of [map_to_list], which is not the insertion order of the Python
    dict; the resulting dict does not depend on it, the order of the
    tracking list does. *)
Definition wrap_bodies (self : Env) (skip_object_names : list string)
    (is_fixture : option bool) (d : gmap string MujocoObject)
    (acc : gmap string ObjectStateView * list ObjectStateView)
    : gmap string ObjectStateView * list ObjectStateView :=
  fold_left
    (fun acc kv =>
       let object_name := fst kv in
       if in_names object_name skip_object_names then acc
       else
         let state := new_ObjectState self object_name is_fixture in
         (<[object_name := state]> (fst acc),
          if VISUAL_CHANGE_OBJECTS_DICT (category_name (snd kv))
          then snd acc ++ [state] else snd acc))
    (map_to_list d) acc.

(** The loop over [object_sites_dict]. *)
Definition wrap_sites (self : Env) (skip_object_names : list string)
    (d : gmap string MujocoObject)
    (object_states_dict : gmap string ObjectStateView)
    : gmap string ObjectStateView :=
  fold_left
    (fun acc kv =>
       let object_name := fst kv in
       if in_names object_name skip_object_names then acc
       else
         <[object_name :=
             new_SiteObjectState self object_name (parent_name (snd kv))]> acc)
    (map_to_list d) object_states_dict.

(** [_generate_object_state_wrapper]; the second component is
    [self.tracking_object_states_change]. *)
Definition _generate_object_state_wrapper (self : Env)
    (skip_object_names : list string) : Env * list ObjectStateView :=
  let acc := wrap_bodies self skip_object_names None (objects_dict self) (∅, []) in
  let acc := wrap_bodies self skip_object_names (Some true) (fixtures_dict self) acc in
  let object_states_dict :=
    wrap_sites self skip_object_names (object_sites_dict self) (fst acc) in
  (set_object_states_dict self object_states_dict, snd acc).

End StateWrapper.

(** ** Wrappers for the examples *)

Module Wrappers.

Definition object_state_of (self : Env) (object_name : string)
    (is_fixture : option bool) : ObjectStateView :=
  {| is_ObjectState := true;
     has_set_joint := match is_fixture with Some b => b | None => false end;
     geom_pos := (0, 0, 0);
     joint_state := [] |}.

Definition site_state_of (self : Env) (object_name parent : string)
    : ObjectStateView :=
  {| is_ObjectState := false;
     has_set_joint := false;
     geom_pos := (0, 0, 1);
     joint_state := [] |}.

Definition parent_of (site : MujocoObject) : string := "cabinet".

Definition changes_visually (category : string) : bool :=
  String.eqb category "cabinet".

End Wrappers.

(** ** A driver for [step] *)

Module Drivers.

(** A base class that reports the action it was given as its observation. *)
Definition echo_step (self : Env) (action : list Q)
    : result (list Q * Q * bool * unit * Env) :=
  Ok (action, 0, false, tt, self).

End Drivers.

(** ** Observables *)

(** The sensor functions that [_setup_observables] and [_create_obj_sensors]
    define, and those the base class brings. *)
Inductive Sensor : Type :=
| world_pose_in_gripper
| obj_pos (obj_name : string)
| obj_quat (obj_name : string)
| obj_to_eef_pos (obj_name : string)
| obj_to_eef_quat (obj_name : string)
| inherited (label : string).

(** An [Observable]; [None] in [enabled] or [_active] stands for the default
    of the constructor, which the module does not fix. *)
Record Observable : Type := {
  o_name : string;
  o_sensor : Sensor;
  sampling_rate : Q;
  enabled : option bool;
  _active : option bool
}.

(** [_create_obj_sensors]; [pf] is [self.robots[0].robot_model.naming_prefix]. *)
Definition _create_obj_sensors (pf obj_name : string)
    : list Sensor * list string :=
  let sensors :=
    [obj_pos obj_name; obj_quat obj_name; obj_to_eef_pos obj_name;
     obj_to_eef_quat obj_name] in
  let names :=
    [obj_name +:+ "_pos";
     obj_name +:+ "_quat";
     obj_name +:+ "_to_" +:+ pf +:+ "eef_pos";
     obj_name +:+ "_to_" +:+ pf +:+ "eef_quat"] in
  (sensors, names).

(** The body of the loops [for name, s in zip(names, sensors)]; the first
    loop passes no [enabled] and no [active]. *)
Definition observe (control_freq : Q) (flagged : bool)
    (observables : gmap string Observable) (ns : string * Sensor)
    : gmap string Observable :=
  let '(name, s) := ns in
  if flagged && String.eqb name "world_pose_in_gripper" then
    <[name := {| o_name := name; o_sensor := s; sampling_rate := control_freq;
                 enabled := Some true; _active := Some false |}]> observables
  else
    <[name := {| o_name := name; o_sensor := s; sampling_rate := control_freq;
                 enabled := None; _active := None |}]> observables.

(** The loop [for (i, obj) in enumerate(self.objects)]. *)
Definition extend_sensors (pf : string) (objects : list MujocoObject)
    (acc : list Sensor * list string) : list Sensor * list string :=
  fold_left
    (fun acc obj =>
       let obj_sensors := fst (_create_obj_sensors pf (name obj)) in
       let obj_sensor_names := snd (_create_obj_sensors pf (name obj)) in
       (fst acc ++ obj_sensors, snd acc ++ obj_sensor_names))
    objects acc.

(** [_setup_observables].  [observables] is what the base class returned,
    [objects] is [self.objects].  The locals [sensors] and [names] are bound
    in the branch of [use_object_obs] only: [None] is the unbound state.  The
    insertion order of the returned dict is not modelled. *)
Definition _setup_observables (pf : string) (control_freq : Q)
    (use_object_obs : bool) (objects : list MujocoObject)
    (observables : gmap string Observable)
    : result (gmap string Observable) :=
  observables ←
    match observables !! "robot0_joint_pos" with
    | Some o =>
      Ok (<["robot0_joint_pos" :=
                  {| o_name := o_name o; o_sensor := o_sensor o;
                     sampling_rate := sampling_rate o; enabled := enabled o;
                     _active := Some true |}]> observables)
    | None => Raise (KeyError "robot0_joint_pos")
    end;
  let locals : option (list Sensor * list string) :=
    if use_object_obs then Some ([], []) else None in
  let observables :=
    match locals with
    | Some (sensors, names) =>
      fold_left (observe control_freq false) (zip names sensors) observables
    | None => observables
    end in
  match locals with
  | None => Raise (UnboundLocalError "sensors")
  | Some (sensors, names) =>
    let sensors := sensors ++ [world_pose_in_gripper] in
    let names := names ++ ["world_pose_in_gripper"] in
    let acc := extend_sensors pf objects (sensors, names) in
    Ok (fold_left (observe control_freq true)
              (zip (snd acc) (fst acc)) observables)
  end.

(** ** Observables of the examples *)

Module Robots.

Definition joint_pos : Observable :=
  {| o_name := "robot0_joint_pos"; o_sensor := inherited "joint_pos";
     sampling_rate := 20; enabled := Some true; _active := Some false |}.

Definition base_observables : gmap string Observable :=
  {[ "robot0_joint_pos" := joint_pos ]}.

End Robots.

(** ** Paths, the config file and the environment of a task
    ([libero/libero/__init__.py]) *)

Definition starts_with_slash (s : string) : bool :=
  match s with
  | String c _ => Ascii.eqb c "/"
  | EmptyString => false
  end.

Fixpoint ends_with_slash (s : string) : bool :=
  match s with
  | EmptyString => false
  | String c EmptyString => Ascii.eqb c "/"
  | String _ rest => ends_with_slash rest
  end.

(** [os.path.join(a, *p)] on POSIX: an absolute component restarts the path,
    a separator is added unless the path so far is empty or ends in one. *)
Definition path_join (a : string) (p : list string) : string :=
  fold_left
    (fun path b =>
       if starts_with_slash b then b
       else if String.eqb path "" || ends_with_slash path then path +:+ b
       else path +:+ "/" +:+ b)
    p a.

(** [get_default_path_dict]; [module_dir] is
    [os.path.dirname(os.path.abspath(__file__))]. *)
Definition get_default_path_dict (module_dir : string)
    (custom_location : option string) : gmap string string :=
  let benchmark_root_path :=
    match custom_location with
    | None => module_dir
    | Some location => location
    end in
  let bddl_files_default_path := path_join benchmark_root_path ["./bddl_files"] in
  let init_states_default_path := path_join benchmark_root_path ["./init_files"] in
  let dataset_default_path := path_join benchmark_root_path ["../datasets"] in
  let assets_default_path := path_join benchmark_root_path ["./assets"] in
  {[ "benchmark_root" := benchmark_root_path;
     "bddl_files" := bddl_files_default_path;
     "init_states" := init_states_default_path;
     "datasets" := dataset_default_path;
     "assets" := assets_default_path ]}.

(** The config file: [None] when it does not exist, else the mapping it
    holds.  The YAML text is not modelled: what [yaml.dump] wrote is what
    [yaml.load] reads. *)
Definition ConfigFile : Type := option (gmap string string).

(** [get_libero_path]; the warnings it prints are left out. *)
Definition get_libero_path (config_file : ConfigFile) (query_key : string)
    : result string :=
  match config_file with
  | None => Raise FileNotFoundError
  | Some config =>
    match config !! query_key with
    | Some path => Ok path
    | None => Raise AssertionError
    end
  end.

(** [set_libero_default_path]: the config file it leaves.  [None] for
    [custom_location] is the default of the parameter, [module_dir]. *)
Definition set_libero_default_path (module_dir : string)
    (custom_location : option string) : ConfigFile :=
  let custom_location :=
    match custom_location with
    | None => module_dir
    | Some location => location
    end in
  let new_config := get_default_path_dict module_dir (Some custom_location) in
  Some new_config.

(** A value of a keyword argument. *)
Inductive value : Type :=
| Str (s : string)
| Int (z : Z)
| Flag (b : bool)
| NoneValue.

(** The folders [get_env_from_task] looks into, in order. *)
Definition benchmark_folders : list string :=
  ["libero_10"; "libero_90"; "libero_spatial"; "libero_object"; "libero_goal"].

Section EnvFromTask.

(** [os.path.exists]. *)
Variable path_exists : string -> bool.

(** [get_benchmark(benchmark)().get_task(i=task_id)], giving the
    [problem_folder] and the [bddl_file] of the task. *)
Variable get_task : string -> Z -> result (string * string).

(** The [for benchmark_folder in ...] loop up to its [break]; [None] when
    the loop runs to its end. *)
Fixpoint search_folders (config_file : ConfigFile) (task : string)
    (folders : list string) : result (option string) :=
  match folders with
  | [] => Ok None
  | benchmark_folder :: rest =>
    bddl_files ← get_libero_path config_file "bddl_files";
    let potential_path :=
      path_join bddl_files [benchmark_folder; task +:+ ".bddl"] in
    if path_exists potential_path then Ok (Some potential_path)
    else search_folders config_file task rest
  end.

(** [get_env_from_task], up to the arguments it passes to
    [OffScreenRenderEnv]. *)
Definition get_env_from_task (config_file : ConfigFile) (task : string)
    (task_id : option Z) (benchmark : option string)
    (kwargs : gmap string value) : result (gmap string value) :=
  bddl_file_path ←
    match benchmark, task_id with
    | Some benchmark, Some task_id =>
      task_obj ← get_task benchmark task_id;
      bddl_files ← get_libero_path config_file "bddl_files";
      Ok (path_join bddl_files [fst task_obj; snd task_obj])
    | _, _ =>
      found ← search_folders config_file task benchmark_folders;
      match found with
      | Some potential_path => Ok potential_path
      | None =>
        bddl_files ← get_libero_path config_file "bddl_files";
        let bddl_file_path := path_join bddl_files [task +:+ ".bddl"] in
        if negb (path_exists bddl_file_path) then Raise FileNotFoundError
        else Ok bddl_file_path
      end
    end;
  let env_args : gmap string value :=
    kwargs ∪ {[ "bddl_file_name" := Str bddl_file_path;
                "camera_heights" := Int 128;
                "camera_widths" := Int 128 ]} in
  Ok env_args.

End EnvFromTask.

(** The paths tried for a task name, in the order they are tried. *)
Definition candidate_paths (bddl_files task : string) : list string :=
  map (fun folder => path_join bddl_files [folder; task +:+ ".bddl"])
    benchmark_folders
  ++ [path_join bddl_files [task +:+ ".bddl"]].

(** The arguments passed when the BDDL file is [bddl_file_path]. *)
Definition env_args_for (bddl_file_path : string) (kwargs : gmap string value)
    : gmap string value :=
  kwargs ∪ {[ "bddl_file_name" := Str bddl_file_path;
              "camera_heights" := Int 128;
              "camera_widths" := Int 128 ]}.

(** ** A disk for the examples *)

Module Files.

Definition config_file : ConfigFile := set_libero_default_path "/opt/libero" (Some "/data").

(** The task file exists in two benchmark folders. *)
Definition disk (path : string) : bool :=
  String.eqb path "/data/./bddl_files/libero_90/open_the_cabinet.bddl"
  || String.eqb path "/data/./bddl_files/libero_goal/open_the_cabinet.bddl".

Definition no_benchmark (benchmark : string) (task_id : Z)
    : result (string * string) :=
  Raise (KeyError benchmark).

Definition one_benchmark (benchmark : string) (task_id : Z)
    : result (string * string) :=
  Ok (benchmark, "task_" +:+ (if Z.eqb task_id 0 then "0" else "n") +:+ ".bddl").

End Files.

(** ** Properties *)

(** *** Numeric builtins *)

Lemma Qltb_true (x y : Q) : Qltb x y = true <-> x < y.
Proof.
  unfold Qltb. destruct (Qlt_le_dec x y) as [H | H]; split; intros; try easy.
  lra.
Qed.

Lemma Qltb_false (x y : Q) : Qltb x y = false <-> y <= x.
Proof.
  unfold Qltb. destruct (Qlt_le_dec x y) as [H | H]; split; intros; try easy.
  lra.
Qed.

(** Case analysis on an innermost comparison of the goal. *)
Ltac case_Qltb :=
  match goal with
  | |- context [Qltb ?x ?y] =>
    lazymatch x with context [Qltb _ _] => fail | _ => idtac end;
    lazymatch y with context [Qltb _ _] => fail | _ => idtac end;
    let H := fresh "Hlt" in
    destruct (Qltb x y) eqn:H;
    [apply Qltb_true in H | apply Qltb_false in H]
  end.

Lemma np_clip_unit (x : Q) : 0 <= np_clip x 0 1 <= 1.
Proof.
  unfold np_clip. repeat case_Qltb; lra.
Qed.

Lemma np_clip_mono (x y : Q) : x <= y -> np_clip x 0 1 <= np_clip y 0 1.
Proof.
  intros Hxy. unfold np_clip. repeat case_Qltb; lra.
Qed.

Lemma Qdiv_one (d : Q) : d / 1 == d.
Proof. field. Qed.

Lemma py_max2_unit (d : Q) : 0 <= d -> 0 <= py_max2 0 (1 - d / 1) <= 1.
Proof.
  intros Hd. unfold py_max2. pose proof (Qdiv_one d) as E.
  revert E. generalize (d / 1). intros d1 E. case_Qltb; lra.
Qed.

(** *** The progress function *)

Section Properties.

Variable eval_predicate_fn : string -> list ObjectStateView -> bool.
Variable pow_half : Q -> Q.
Variable _check_success : Env -> bool.
Variable rectangle2xyrange : list (list Q) -> list (list Q) * list (list Q).
Variable sample : Sampler -> option SampleArgs -> Placements -> result Placements.

Local Abbreviation progress := (_get_predicate_progress eval_predicate_fn pow_half).

(** C3. Whenever the evaluator reports an atom of arity 1 or 2 as
    satisfied, the progress function returns exactly 1.0; the positions,
    the joints and the range tables are not consulted. *)
Theorem progress_one_when_satisfied (self : Env) (state : list string) :
  evaluator_reports eval_predicate_fn self state = true ->
  progress self state = Ok 1.
Proof.
  unfold evaluator_reports, _get_predicate_progress, getitem.
  destruct state as [| p [| n1 [| n2 [| x rest]]]]; try discriminate.
  - destruct (object_states_dict self !! n1) as [o |]; [| discriminate].
    cbn. now intros ->.
  - destruct (object_states_dict self !! n1) as [o1 |]; [| discriminate].
    destruct (object_states_dict self !! n2) as [o2 |]; [| discriminate].
    cbn. now intros ->.
Qed.

Lemma joint_range_progress_unit (self : Env) (obj_state : ObjectStateView)
    (object_name p opp : string) (v : Q) :
  joint_range_progress self obj_state object_name p opp = Ok v ->
  0 <= v <= 1.
Proof.
  unfold joint_range_progress, mbind, result_bind.
  repeat match goal with
         | |- context [match ?x with _ => _ end] =>
           lazymatch x with
           | context [Qltb _ _] => fail
           | _ => destruct x
           end
         end;
    intros [= <-]; try apply np_clip_unit; lra.
Qed.

Lemma tables_nonempty_lookup (art : gmap string (list Q)) (key : string)
    (table : list Q) :
  tables_nonempty art = true -> art !! key = Some table -> table <> [].
Proof.
  unfold tables_nonempty. intros Hall Hkey.
  apply elem_of_map_to_list, list_elem_of_In in Hkey.
  rewrite forallb_forall in Hall. specialize (Hall _ Hkey). cbn in Hall.
  now destruct table.
Qed.

Lemma joint_range_progress_returns (self : Env) (obj_state : ObjectStateView)
    (object_name p opp : string) :
  range_tables_nonempty self [p; object_name] = true ->
  exists v, joint_range_progress self obj_state object_name p opp = Ok v.
Proof.
  unfold range_tables_nonempty, joint_range_progress. cbn [tail forallb].
  rewrite andb_true_r.
  destruct (get_object self object_name) as [obj |]; [| eauto].
  destruct (negb _ || negb _); [eauto |].
  destruct (joint_state obj_state) as [| q_curr qs]; [eauto |].
  destruct (object_properties obj) as [props |]; [| eauto].
  destruct (props !! "articulation") as [art |]; [| eauto]. intros Hne.
  destruct (art !! _) as [t |] eqn:Ht; [| eauto].
  destruct (art !! _) as [o |] eqn:Ho in |- *; [| eauto].
  pose proof (tables_nonempty_lookup _ _ _ Hne Ht) as Ht'.
  pose proof (tables_nonempty_lookup _ _ _ Hne Ho) as Ho'.
  destruct t as [| t0 ts]; [easy |]. destruct o as [| o0 os]; [easy |].
  cbn. eauto.
Qed.

Lemma sum_squares_nonneg2 (a b : Q) : 0 <= a ^ 2 + b ^ 2.
Proof. simpl. nra. Qed.

Lemma sum_squares_nonneg3 (a b c : Q) : 0 <= a ^ 2 + b ^ 2 + c ^ 2.
Proof. simpl. nra. Qed.

(** C4. For every supported atom and every scene, a value returned by the
    progress function lies in [[0, 1]] (joint positions at the edges of the
    range tables included); and the function does return a value once the
    atom's names are tracked and no range table is empty. *)
Theorem progress_in_unit_interval (self : Env) (state : list string) :
  (forall x, 0 <= x -> 0 <= pow_half x) ->
  supported_atom state = true ->
  (forall v, progress self state = Ok v -> 0 <= v <= 1)
  /\ (names_resolve self state = true ->
      range_tables_nonempty self state = true ->
      exists v, progress self state = Ok v).
Proof.
  intros Hpow Hsup.
  destruct state as [| p [| n1 [| n2 [| x rest]]]]; try discriminate.
  - (* unary *)
    unfold supported_atom in Hsup. unfold _get_predicate_progress, getitem, names_resolve.
    split.
    + intros v. destruct (object_states_dict self !! n1) as [o |]; [| easy].
      cbn. destruct (eval_predicate_fn p [o]).
      { intros [= <-]. lra. }
      destruct (String.eqb (lower p) "open" || String.eqb (lower p) "close");
        [apply joint_range_progress_unit |].
      destruct (String.eqb (lower p) "turnon" || String.eqb (lower p) "turnoff");
        [apply joint_range_progress_unit | easy].
    + intros Hres Hne. cbn in Hres. rewrite andb_true_r in Hres.
      unfold contains in Hres.
      destruct (object_states_dict self !! n1) as [o |]; [| discriminate].
      cbn. destruct (eval_predicate_fn p [o]); [eauto |].
      destruct (String.eqb (lower p) "open" || String.eqb (lower p) "close")
        eqn:E1; [now apply joint_range_progress_returns |].
      destruct (String.eqb (lower p) "turnon" || String.eqb (lower p) "turnoff")
        eqn:E2; [now apply joint_range_progress_returns |].
      cbn in Hsup. rewrite E2 in Hsup. discriminate.
  - (* binary *)
    cbn in Hsup. unfold _get_predicate_progress, getitem, names_resolve.
    split.
    + intros v. destruct (object_states_dict self !! n1) as [o1 |]; [| easy].
      destruct (object_states_dict self !! n2) as [o2 |]; [| easy].
      cbn. destruct (eval_predicate_fn p [o1; o2]).
      { intros [= <-]. lra. }
      destruct (geom_pos o1) as [[x1 y1] z1], (geom_pos o2) as [[x2 y2] z2].
      destruct (String.eqb (lower p) "on").
      { intros [= <-]. apply py_max2_unit, Hpow, sum_squares_nonneg2. }
      destruct (String.eqb (lower p) "in"); [| easy].
      intros [= <-]. apply py_max2_unit, Hpow, sum_squares_nonneg3.
    + intros Hres _. cbn in Hres. rewrite andb_true_r in Hres.
      unfold contains in Hres.
      destruct (object_states_dict self !! n1) as [o1 |]; [| discriminate].
      destruct (object_states_dict self !! n2) as [o2 |]; [| discriminate].
      cbn. destruct (eval_predicate_fn p [o1; o2]); [eauto |].
      destruct (geom_pos o1) as [[x1 y1] z1], (geom_pos o2) as [[x2 y2] z2].
      destruct (String.eqb (lower p) "on"); [eauto |].
      destruct (String.eqb (lower p) "in"); [eauto | discriminate].
Qed.

Lemma fold_py_max2_ge (xs : list Q) (x : Q) : x <= fold_left py_max2 xs x.
Proof.
  revert x. induction xs as [| y ys IH]; intros x; cbn; [lra |].
  specialize (IH (py_max2 x y)). unfold py_max2 in *.
  revert IH. case_Qltb; intros; lra.
Qed.

Lemma fold_py_min2_le (xs : list Q) (x : Q) : fold_left py_min2 xs x <= x.
Proof.
  revert x. induction xs as [| y ys IH]; intros x; cbn; [lra |].
  specialize (IH (py_min2 x y)). unfold py_min2 in *.
  revert IH. case_Qltb; intros; lra.
Qed.

Lemma py_min_le_py_max (l : list Q) (a b : Q) :
  py_min l = Ok a -> py_max l = Ok b -> a <= b.
Proof.
  destruct l as [| x xs]; [discriminate |]. cbn. intros [= <-] [= <-].
  pose proof (fold_py_max2_ge xs x). pose proof (fold_py_min2_le xs x). lra.
Qed.

Lemma Qdiv_le_mono (a b d : Q) : a <= b -> 0 < d -> a / d <= b / d.
Proof.
  intros Hab Hd. unfold Qdiv. apply Qmult_le_compat_r; [exact Hab |].
  apply Qlt_le_weak, Qinv_lt_0_compat, Hd.
Qed.

(** The joint-range rule is monotone along a move toward the target
    range, whichever of the two orientations the tables have. *)
Lemma joint_range_progress_mono (self : Env) (os : ObjectStateView)
    (object_name p opp : string) (obj : MujocoObject)
    (props : gmap string (gmap string (list Q)))
    (art : gmap string (list Q)) (target opposite : list Q)
    (tmin tmax omin omax q1 q2 : Q) :
  get_object self object_name = Some obj ->
  object_properties obj = Some props ->
  props !! "articulation" = Some art ->
  art !! ("default_" +:+ (p +:+ "_ranges")) = Some target ->
  art !! ("default_" +:+ opp) = Some opposite ->
  py_min target = Ok tmin -> py_max target = Ok tmax ->
  py_min opposite = Ok omin -> py_max opposite = Ok omax ->
  (tmax < omin /\ q2 <= q1) \/ (omax < tmin /\ q1 <= q2) ->
  exists v1 v2,
    joint_range_progress self (with_first_joint os q1) object_name p opp = Ok v1
    /\ joint_range_progress self (with_first_joint os q2) object_name p opp = Ok v2
    /\ v1 <= v2.
Proof.
  intros Hobj Hprops Hart Ht Ho Htmin Htmax Homin Homax Hdir.
  unfold joint_range_progress. rewrite Hobj. cbn [with_first_joint is_ObjectState
    joint_state]. destruct (negb _ || negb _).
  { exists 0, 0. repeat split; lra. }
  rewrite Hprops, Hart, Ht, Ho, Htmin, Htmax, Homin, Homax.
  cbn [mbind result_bind]. do 2 eexists. split; [reflexivity |].
  split; [reflexivity |]. apply np_clip_mono.
  destruct Hdir as [[Hlt Hq] | [Hlt Hq]].
  - apply Qltb_true in Hlt as Hlt'. rewrite Hlt'.
    case_Qltb; [| lra]. apply Qdiv_le_mono; lra.
  - pose proof (py_min_le_py_max _ _ _ Htmin Htmax).
    pose proof (py_min_le_py_max _ _ _ Homin Homax).
    assert (Hge : Qltb tmax omin = false) by (apply Qltb_false; lra).
    apply Qltb_true in Hlt as Hlt'. rewrite Hge, Hlt'.
    case_Qltb; [| lra]. apply Qdiv_le_mono; lra.
Qed.

Lemma progress_unary_after_move (self : Env) (p object_name : string)
    (os : ObjectStateView) (q : Q) :
  object_states_dict self !! object_name = Some os ->
  lower p = "open" ->
  progress (move_joint self object_name q) [p; object_name]
  = if eval_predicate_fn p [with_first_joint os q] then Ok 1
    else joint_range_progress self (with_first_joint os q) object_name
           "open" "close_ranges".
Proof.
  intros Hos Hp. unfold move_joint. rewrite Hos.
  unfold _get_predicate_progress, getitem.
  cbn [object_states_dict set_object_states_dict].
  rewrite lookup_insert_eq, Hp. reflexivity.
Qed.

(** C8. For [open] on an object whose open and close range tables are
    disjoint, progress does not decrease when the first joint moves from
    [q1] to a position [q2] that lies further toward the open range
    (downward when the open range is the lower one, upward when it is the
    upper one), the evaluator not withdrawing a verdict of satisfaction
    along the move. *)
Theorem open_progress_monotone (self : Env) (p object_name : string)
    (os : ObjectStateView) (obj : MujocoObject)
    (props : gmap string (gmap string (list Q)))
    (art : gmap string (list Q)) (target opposite : list Q)
    (tmin tmax omin omax q1 q2 : Q) :
  lower p = "open" ->
  object_states_dict self !! object_name = Some os ->
  get_object self object_name = Some obj ->
  object_properties obj = Some props ->
  props !! "articulation" = Some art ->
  art !! "default_open_ranges" = Some target ->
  art !! "default_close_ranges" = Some opposite ->
  py_min target = Ok tmin -> py_max target = Ok tmax ->
  py_min opposite = Ok omin -> py_max opposite = Ok omax ->
  (tmax < omin /\ q2 <= q1) \/ (omax < tmin /\ q1 <= q2) ->
  (eval_predicate_fn p [with_first_joint os q1] = true ->
   eval_predicate_fn p [with_first_joint os q2] = true) ->
  exists v1 v2,
    progress (move_joint self object_name q1) [p; object_name] = Ok v1
    /\ progress (move_joint self object_name q2) [p; object_name] = Ok v2
    /\ v1 <= v2.
Proof.
  intros Hp Hos Hobj Hprops Hart Ht Ho Htmin Htmax Homin Homax Hdir Heval.
  rewrite !(progress_unary_after_move _ _ _ _ _ Hos Hp).
  destruct (joint_range_progress_mono self os object_name "open" "close_ranges"
              obj props art target opposite tmin tmax omin omax q1 q2)
    as (v1 & v2 & E1 & E2 & Hle); try assumption.
  destruct (eval_predicate_fn p [with_first_joint os q2]) eqn:Ev2.
  - destruct (eval_predicate_fn p [with_first_joint os q1]).
    + exists 1, 1. repeat split; lra.
    + exists v1, 1. repeat split; [exact E1 |].
      apply joint_range_progress_unit in E1. lra.
  - destruct (eval_predicate_fn p [with_first_joint os q1]).
    + discriminate Heval. reflexivity.
    + exists v1, v2. auto.
Qed.

(** *** The dense reward *)

Local Abbreviation distances_of := (goal_distances eval_predicate_fn pow_half).
Local Abbreviation distance_now := (current_distance eval_predicate_fn pow_half).
Local Abbreviation dense := (_compute_dense_reward eval_predicate_fn pow_half).
Local Abbreviation reward_of :=
  (reward eval_predicate_fn pow_half _check_success).

(** Progress does not read [previous_distance]. *)
Lemma progress_frame (self : Env) (d : option Q) (state : list string) :
  progress (set_previous_distance self d) state = progress self state.
Proof. reflexivity. Qed.

Lemma goal_distances_frame (self : Env) (d : option Q)
    (goal_state : list (list string)) :
  distances_of (set_previous_distance self d) goal_state
  = distances_of self goal_state.
Proof.
  induction goal_state as [| state rest IH]; [reflexivity |].
  cbn [goal_distances]. now rewrite progress_frame, IH.
Qed.

Lemma current_distance_frame (self : Env) (d : option Q)
    (goal_state : list (list string)) :
  distance_now (set_previous_distance self d) goal_state
  = distance_now self goal_state.
Proof. unfold current_distance. now rewrite goal_distances_frame. Qed.

Lemma clip_and_denoise_small (x : Q) : x < 1 # 1000 -> clip_and_denoise x = 0.
Proof.
  intros Hx. unfold clip_and_denoise, np_clip, np_abs.
  repeat case_Qltb; try reflexivity; try lra.
  exfalso. rewrite Qabs_pos in Hlt1; lra.
Qed.

Lemma clip_and_denoise_unit (x : Q) : 0 <= clip_and_denoise x <= 1.
Proof.
  unfold clip_and_denoise. case_Qltb; [lra | apply np_clip_unit].
Qed.

(** What one call of the dense computation does, by cases on the goal list
    and on the stored distance. *)
Lemma dense_unfold (self : Env) :
  dense self =
  match goal_state (parsed_problem self) with
  | [] => Ok (0, self)
  | _ :: _ =>
    match distance_now self (goal_state (parsed_problem self)) with
    | Raise e => Raise e
    | Ok cur =>
      match previous_distance self with
      | None => Ok (0, set_previous_distance self (Some cur))
      | Some previous =>
        Ok (clip_and_denoise (apply_reward_scale self (previous - cur)),
            set_previous_distance self (Some cur))
      end
    end
  end.
Proof.
  unfold _compute_dense_reward. destruct (goal_state (parsed_problem self));
    [reflexivity |].
  cbn [mbind result_bind].
  destruct (distance_now self (l :: l0)); reflexivity.
Qed.

Lemma reset_clears_previous_distance (self after_reset : Env)
    (events : list Event) :
  _reset_internal sample self = Ok (after_reset, events) ->
  after_reset = set_previous_distance self None.
Proof.
  unfold _reset_internal.
  cbn [deterministic_reset set_previous_distance object_property_initializers].
  destruct (negb (deterministic_reset self)); [| now intros [= <- _]].
  destruct (sample_properties _ _); [| discriminate].
  cbn [mbind result_bind].
  destruct (sample_placements _ _); [| discriminate].
  now intros [= <- _].
Qed.

(** C5. After a reset the stored distance is absent, and the first dense
    computation that follows returns exactly 0.0 whatever the evaluator says
    about the goal: with a non-empty goal list it stores the current
    distance and returns 0, with an empty one it returns 0 at once.  [first]
    is the scene at that first call; it may differ from the scene left by
    the reset in everything but the stored distance. *)
Theorem first_dense_reward_after_reset (self after_reset first : Env)
    (events : list Event) :
  _reset_internal sample self = Ok (after_reset, events) ->
  previous_distance first = previous_distance after_reset ->
  previous_distance after_reset = None
  /\ (forall r first', dense first = Ok (r, first') -> r = 0)
  /\ (forall cur,
        goal_state (parsed_problem first) <> [] ->
        distance_now first (goal_state (parsed_problem first)) = Ok cur ->
        dense first = Ok (0, set_previous_distance first (Some cur)))
  /\ (goal_state (parsed_problem first) = [] -> dense first = Ok (0, first)).
Proof.
  intros Hreset Hprev. apply reset_clears_previous_distance in Hreset.
  subst after_reset. cbn [previous_distance set_previous_distance] in Hprev.
  split; [reflexivity |]. rewrite dense_unfold, Hprev.
  repeat split.
  - intros r first'. destruct (goal_state (parsed_problem first)).
    + now intros [= <- _].
    + destruct (distance_now first (l :: l0)); [| discriminate].
      now intros [= <- _].
  - intros cur Hne Hcur. destruct (goal_state (parsed_problem first)); [easy |].
    now rewrite Hcur.
  - now intros ->.
Qed.

(** C6. Two dense computations in a row on an unchanged scene: the second
    returns exactly 0.0 and leaves the state as the first left it, for every
    scene, every goal list and every reward scale. *)
Theorem dense_reward_twice_unchanged (self self1 : Env) (r1 : Q) :
  dense self = Ok (r1, self1) ->
  dense self1 = Ok (0, self1).
Proof.
  rewrite !dense_unfold.
  destruct (goal_state (parsed_problem self)) as [| g gs] eqn:Hgoal.
  - intros [= _ <-]. now rewrite Hgoal.
  - destruct (distance_now self (g :: gs)) as [cur |] eqn:Hcur; [| discriminate].
    assert (Hsecond :
      match distance_now (set_previous_distance self (Some cur)) (g :: gs) with
      | Ok cur0 =>
        Ok (clip_and_denoise
              (apply_reward_scale (set_previous_distance self (Some cur))
                 (cur - cur0)),
            set_previous_distance (set_previous_distance self (Some cur))
              (Some cur0))
      | Raise e => Raise e
      end = Ok (0, set_previous_distance self (Some cur))).
    { rewrite current_distance_frame, Hcur. f_equal. f_equal.
      apply clip_and_denoise_small. unfold apply_reward_scale.
      destruct (reward_scale _) as [s |].
      - assert (E : (cur - cur) * (s / 1) == 0) by (unfold Qdiv; ring).
        rewrite E. reflexivity.
      - assert (E : cur - cur == 0) by ring. rewrite E. reflexivity. }
    destruct (previous_distance self); intros [= _ <-];
      cbn [parsed_problem set_previous_distance previous_distance];
      rewrite Hgoal; exact Hsecond.
Qed.

(** C10. When the success check holds, or reward shaping is off, [reward]
    returns without running the dense computation: it hands back [self]
    untouched, so the stored distance is the one left by the last step on
    which the dense branch ran.  The next dense computation (on a scene
    [next] that carries that stored distance) therefore measures the change
    from that earlier distance [d0]. *)
Theorem reward_skips_dense_branch (self : Env) :
  _check_success self = true \/ reward_shaping self = false ->
  (exists r, reward_of self = Ok (r, self)
             /\ r == (if _check_success self
                      then apply_reward_scale self 1 else 0))
  /\ (forall r self' next d0 cur,
        reward_of self = Ok (r, self') ->
        previous_distance self = Some d0 ->
        previous_distance next = previous_distance self' ->
        goal_state (parsed_problem next) <> [] ->
        distance_now next (goal_state (parsed_problem next)) = Ok cur ->
        dense next
        = Ok (clip_and_denoise (apply_reward_scale next (d0 - cur)),
              set_previous_distance next (Some cur))).
Proof.
  intros Hskip.
  assert (Hret : exists r, reward_of self = Ok (r, self)
             /\ r == (if _check_success self
                      then apply_reward_scale self 1 else 0)).
  { unfold reward. destruct (_check_success self) eqn:Hs.
    - cbn [mbind result_bind]. eexists. split; reflexivity.
    - destruct Hskip as [Hskip | Hskip]; [discriminate |]. rewrite Hskip.
      cbn [mbind result_bind]. eexists. split; [reflexivity |].
      unfold apply_reward_scale. destruct (reward_scale self); [| reflexivity].
      unfold Qdiv. ring. }
  split; [exact Hret |].
  intros r self' next d0 cur Hr Hd0 Hnext Hgoal Hcur.
  destruct Hret as (r0 & Hr0 & _). rewrite Hr0 in Hr. injection Hr as _ <-.
  rewrite dense_unfold, Hnext, Hd0.
  destruct (goal_state (parsed_problem next)); [easy |]. now rewrite Hcur.
Qed.

(** The value [reward] hands out on the dense branch: the scale enters
    once inside [_compute_dense_reward], before clipping, and once more in
    [reward]. *)
Lemma reward_dense_branch_value (self : Env) (d0 cur : Q) :
  _check_success self = false ->
  reward_shaping self = true ->
  goal_state (parsed_problem self) <> [] ->
  distance_now self (goal_state (parsed_problem self)) = Ok cur ->
  previous_distance self = Some d0 ->
  reward_of self
  = Ok (apply_reward_scale self
          (clip_and_denoise (apply_reward_scale self (d0 - cur))),
        set_previous_distance self (Some cur)).
Proof.
  intros Hs Hshape Hgoal Hcur Hprev. unfold reward.
  rewrite Hs, Hshape, dense_unfold, Hprev.
  destruct (goal_state (parsed_problem self)); [easy |]. now rewrite Hcur.
Qed.

(** Whatever the scale, a value returned by the dense computation lies in
    [[0, 1]]; in particular it is never negative. *)
Lemma dense_reward_unit (self self' : Env) (r : Q) :
  dense self = Ok (r, self') -> 0 <= r <= 1.
Proof.
  rewrite dense_unfold.
  destruct (goal_state (parsed_problem self)); [intros [= <- _]; lra |].
  destruct (distance_now self (l :: l0)); [| discriminate].
  destruct (previous_distance self); intros [= <- _];
    [apply clip_and_denoise_unit | lra].
Qed.

(** A regression (the distance grew) is worth 0.0 under any non-negative
    scale. *)
Lemma dense_regression_zero (self : Env) (d0 cur : Q) :
  (forall s, reward_scale self = Some s -> 0 <= s) ->
  d0 <= cur ->
  clip_and_denoise (apply_reward_scale self (d0 - cur)) = 0.
Proof.
  intros Hs Hreg. apply clip_and_denoise_small. unfold apply_reward_scale.
  destruct (reward_scale self) as [s |]; [| lra].
  specialize (Hs s eq_refl).
  assert (E : (d0 - cur) * (s / 1) == (d0 - cur) * s) by (unfold Qdiv; field).
  rewrite E. nra.
Qed.

(** With the default scale 1.0 (or none) the dense value is the clipped,
    denoised distance decrease. *)
Lemma dense_value_at_unit_scale (self : Env) (d0 cur : Q) :
  reward_scale self = Some 1 \/ reward_scale self = None ->
  clip_and_denoise (apply_reward_scale self (d0 - cur))
  == clip_and_denoise (d0 - cur).
Proof.
  unfold apply_reward_scale. intros [-> | ->]; [| reflexivity].
  assert (E : (d0 - cur) * (1 / 1) == d0 - cur) by (unfold Qdiv; field).
  unfold clip_and_denoise, np_clip, np_abs.
  repeat case_Qltb; try reflexivity; try lra;
    try (exfalso; rewrite ?E in *; lra).
Qed.

(** *** Placement planning *)

Local Abbreviation classify := (classify_state rectangle2xyrange).
Local Abbreviation classify_all := (classify_states rectangle2xyrange).
Local Abbreviation add_placement :=
  (_add_placement_initializer rectangle2xyrange).
Local Abbreviation setup_placement :=
  (_setup_placement_initializer rectangle2xyrange).

Lemma extend_plan_id (self : Env) :
  extend_plan self [] (object_property_initializers self) = self.
Proof.
  destruct self. unfold extend_plan. cbn. now rewrite app_nil_r.
Qed.

Lemma extend_plan_nil (self : Env) (props : list PropertySampler) :
  extend_plan self [] props = set_object_property_initializers self props.
Proof.
  destruct self. unfold extend_plan. cbn. now rewrite app_nil_r.
Qed.

Lemma extend_plan_twice (self : Env) (a1 a2 : list Sampler)
    (p1 p2 : list PropertySampler) :
  extend_plan (extend_plan self a1 p1) a2 p2 = extend_plan self (a1 ++ a2) p2.
Proof.
  unfold extend_plan. cbn. now rewrite <- app_assoc.
Qed.

(** Case analysis on every [match] and [if] of a hypothesis that computes a
    [result]. *)
Ltac split_result H :=
  repeat match type of H with
         | context [match ?m with _ => _ end] =>
           lazymatch m with
           | context [match _ with _ => _ end] => fail
           | _ => destruct m eqn:?; try discriminate H
           end
         end.

Lemma append_sampler_inv {E : Type} (sampler_of : E -> Sampler)
    (composite composite' : list E) (entry : E) :
  append_sampler sampler_of composite entry = Ok composite' ->
  composite' = composite ++ [entry].
Proof.
  unfold append_sampler. destruct (existsb _ composite); [discriminate |].
  now intros [= <-].
Qed.

(** Replaces the result of every [append_sampler] that returned by the
    composite it returned. *)
Ltac appended :=
  repeat match goal with
         | Ha : append_sampler _ _ _ = Ok _ |- _ =>
           apply append_sampler_inv in Ha; subst
         end.

Lemma add_property_initializer_shape (self self' : Env) (state : list string) :
  add_property_initializer self state = Ok self' ->
  exists props, self' = set_object_property_initializers self props.
Proof.
  unfold add_property_initializer, articulation_ranges, mbind, result_bind.
  intros H. split_result H; injection H as <-;
    solve [ eexists; reflexivity
          | exists (object_property_initializers self); now destruct self ].
Qed.

(** One iteration of the first loop: [self] gains unconditioned samplers and
    joint samplers only, and the atom joins the on-object list exactly when
    the first test accepts it. *)
Lemma classify_state_shape (plan plan' : Plan) (state : list string) :
  classify plan state = Ok plan' ->
  (exists added props,
      Forall (fun s => sampler_phase (s_class s) = 1%nat) added
      /\ plan_self plan' = extend_plan (plan_self plan) added props)
  /\ conditioned_initial_place_state_on_objects plan'
     = conditioned_initial_place_state_on_objects plan
       ++ (if is_on_object_atom (plan_self plan) state then [state] else []).
Proof.
  unfold classify_state, is_on_object_atom, mbind, result_bind.
  intros H. split_result H; injection H as <-; appended;
    cbn [plan_self conditioned_initial_place_state_on_objects];
    (split;
     [ first
         [ exists [], (object_property_initializers (plan_self plan));
           split; [constructor | now rewrite extend_plan_id]
         | match goal with
           | He : add_property_initializer _ _ = Ok _ |- _ =>
             apply add_property_initializer_shape in He as [props ->]
           end;
           first
             [ exists [], props;
               split; [constructor | now rewrite extend_plan_nil]
             | eexists [_], props;
               split; [| reflexivity]; now repeat constructor ] ]
     | now rewrite ?app_nil_r ]).
Qed.

Lemma classify_states_shape (initial_state : list (list string)) :
  forall plan plan',
    classify_all plan initial_state = Ok plan' ->
    (exists added props,
        Forall (fun s => sampler_phase (s_class s) = 1%nat) added
        /\ plan_self plan' = extend_plan (plan_self plan) added props)
    /\ conditioned_initial_place_state_on_objects plan'
       = conditioned_initial_place_state_on_objects plan
         ++ List.filter (is_on_object_atom (plan_self plan)) initial_state.
Proof.
  induction initial_state as [| state rest IH]; intros plan plan'.
  - intros [= <-]. split; [| now rewrite app_nil_r].
    exists [], (object_property_initializers (plan_self plan)).
    split; [constructor | now rewrite extend_plan_id].
  - cbn [classify_states mbind result_bind].
    destruct (classify plan state) as [plan1 |] eqn:H1; [| discriminate].
    intros Hrest. apply classify_state_shape in H1 as [(a1 & p1 & Ha1 & E1) L1].
    apply IH in Hrest as [(a2 & p2 & Ha2 & E2) L2].
    split.
    + exists (a1 ++ a2), p2. split; [now apply Forall_app |].
      now rewrite E2, E1, extend_plan_twice.
    + rewrite L2, L1, E1. cbn [List.filter].
      change (is_on_object_atom (extend_plan (plan_self plan) a1 p1))
        with (is_on_object_atom (plan_self plan)).
      destruct (is_on_object_atom (plan_self plan) state);
        now rewrite <- app_assoc.
Qed.

Lemma set_conditional_id (self : Env) :
  set_conditional_placement_initializer self
    (conditional_placement_initializer self ++ []) = self.
Proof. destruct self. cbn. now rewrite app_nil_r. Qed.

Lemma set_on_objects_id (self : Env) :
  set_conditional_placement_on_objects_initializer self
    (conditional_placement_on_objects_initializer self ++ []) = self.
Proof. destruct self. cbn. now rewrite app_nil_r. Qed.

Lemma place_on_sites_shape (states : list (list string)) :
  forall self self',
    place_on_sites self states = Ok self' ->
    exists added,
      Forall (fun sa => sampler_phase (s_class (fst sa)) = 2%nat) added
      /\ self' = set_conditional_placement_initializer self
                   (conditional_placement_initializer self ++ added).
Proof.
  induction states as [| state rest IH]; intros self self'.
  - intros [= <-]. exists []. split; [constructor |].
    now rewrite set_conditional_id.
  - cbn [place_on_sites]. unfold mbind, result_bind. intros H.
    split_result H. appended. apply IH in H as (added & Hall & ->).
    eexists (_ :: added). split; [| cbn; now rewrite <- app_assoc].
    constructor; [reflexivity | exact Hall].
Qed.

Lemma place_in_objects_shape (states : list (list string)) :
  forall self self',
    place_in_objects self states = Ok self' ->
    exists added,
      Forall (fun sa => sampler_phase (s_class (fst sa)) = 2%nat) added
      /\ self' = set_conditional_placement_initializer self
                   (conditional_placement_initializer self ++ added).
Proof.
  induction states as [| state rest IH]; intros self self'.
  - intros [= <-]. exists []. split; [constructor |].
    now rewrite set_conditional_id.
  - cbn [place_in_objects]. unfold mbind, result_bind. intros H.
    split_result H. appended. apply IH in H as (added & Hall & ->).
    eexists (_ :: added). split; [| cbn; now rewrite <- app_assoc].
    constructor; [reflexivity | exact Hall].
Qed.

(** The second loop registers one object-conditioned sampler per atom of
    its list, in the order of the list, each referring to the atom's second
    argument. *)
Lemma place_on_objects_shape (states : list (list string)) :
  forall self self',
    place_on_objects self states = Ok self' ->
    exists added,
      Forall (fun sa => sampler_phase (s_class (fst sa)) = 3%nat) added
      /\ self' = set_conditional_placement_on_objects_initializer self
                   (conditional_placement_on_objects_initializer self ++ added)
      /\ Forall2 (on_object_entry self) states added.
Proof.
  induction states as [| state rest IH]; intros self self'.
  - intros [= <-]. exists []. split; [constructor |].
    split; [now rewrite set_on_objects_id | constructor].
  - cbn [place_on_objects]. unfold mbind, result_bind. intros H.
    destruct (index state 1) as [object_name |] eqn:H1; [| discriminate].
    destruct (index state 2) as [other |] eqn:H2; [| discriminate].
    destruct (getitem (objects_dict self) object_name) as [obj |] eqn:Hobj;
      [| discriminate].
    destruct (append_sampler _ _ _) as [samplers |] eqn:Happend;
      [| discriminate].
    apply append_sampler_inv in Happend as ->.
    apply IH in H as (added & Hall & -> & Hreg).
    eexists (_ :: added). split; [| split; [cbn; now rewrite <- app_assoc |]].
    { constructor; [reflexivity | exact Hall]. }
    constructor; [| exact Hreg].
    exists object_name, other, obj. unfold getitem in Hobj.
    destruct (objects_dict self !! object_name); [| discriminate].
    injection Hobj as ->. now repeat split.
Qed.

(** What [_add_placement_initializer] leaves behind: each composite sampler
    is extended by samplers of its own stage, and every atom accepted by the
    on-object test has its object-conditioned sampler registered. *)
Lemma add_placement_shape (self self' : Env) :
  add_placement self = Ok self' ->
  exists added props cond on_obj,
    Forall (fun s => sampler_phase (s_class s) = 1%nat) added
    /\ Forall (fun sa => sampler_phase (s_class (fst sa)) = 2%nat) cond
    /\ Forall (fun sa => sampler_phase (s_class (fst sa)) = 3%nat) on_obj
    /\ placement_initializer self' = placement_initializer self ++ added
    /\ conditional_placement_initializer self'
       = conditional_placement_initializer self ++ cond
    /\ conditional_placement_on_objects_initializer self'
       = conditional_placement_on_objects_initializer self ++ on_obj
    /\ object_property_initializers self' = props
    /\ Forall2 (on_object_entry self)
         (List.filter (is_on_object_atom self)
            (initial_state (parsed_problem self)))
         on_obj.
Proof.
  unfold _add_placement_initializer, mbind, result_bind. intros H3.
  destruct (classify_all _ _) as [plan |] eqn:Hplan; [| discriminate].
  apply classify_states_shape in Hplan as [(added & props & Hadded & E) Hlist].
  cbn [plan_self conditioned_initial_place_state_on_objects app] in E, Hlist.
  destruct (place_on_sites _ _) as [self1 |] eqn:H1; [| discriminate].
  apply place_on_sites_shape in H1 as (c1 & Hc1 & ->).
  destruct (place_on_objects _ _) as [self2 |] eqn:H2; [| discriminate].
  apply place_on_objects_shape in H2 as (o1 & Ho1 & -> & Hreg).
  apply place_in_objects_shape in H3 as (c2 & Hc2 & ->).
  rewrite E in *. exists added, props, (c1 ++ c2), o1.
  repeat split; try assumption.
  - now apply Forall_app.
  - cbn. now rewrite <- app_assoc.
  - rewrite Hlist in Hreg. exact Hreg.
Qed.












Lemma on_atom_accepted (self : Env) (a b : string) (ob : MujocoObject) :
  objects_dict self !! b = Some ob ->
  is_on_object_atom self ["on"; a; b] = true.
Proof.
  intros Hb. unfold is_on_object_atom, binary_atom_into, contains.
  cbn. now rewrite Hb.
Qed.

Lemma classify_on_object (plan : Plan) (state : list string) :
  is_on_object_atom (plan_self plan) state = true ->
  classify plan state
  = Ok {| plan_self := plan_self plan;
          conditioned_initial_place_state_on_sites :=
            conditioned_initial_place_state_on_sites plan;
          conditioned_initial_place_state_on_objects :=
            conditioned_initial_place_state_on_objects plan ++ [state];
          conditioned_initial_place_state_in_objects :=
            conditioned_initial_place_state_in_objects plan |}.
Proof.
  unfold is_on_object_atom, classify_state.
  destruct (binary_atom_into state "on" (objects_dict (plan_self plan)))
    as [[|] |]; try discriminate. reflexivity.
Qed.

Lemma Forall2_split_left {A B : Type} (R : A -> B -> Prop) (l1 : list A)
    (x : A) (l2 : list A) (k : list B) :
  Forall2 R (l1 ++ x :: l2) k ->
  exists k1 y k2, k = k1 ++ y :: k2 /\ R x y /\ Forall2 R l2 k2.
Proof.
  revert k. induction l1 as [| a l1 IH]; intros k H.
  - inversion H as [| ? y ? k2 Hxy Hrest]; subst. now exists [], y, k2.
  - inversion H as [| ? b ? k' _ Hrest]; subst.
    destruct (IH _ Hrest) as (k1 & y & k2 & -> & Hxy & H2).
    now exists (b :: k1), y, k2.
Qed.

Lemma on_object_entry_inv (self : Env) (p a b : string) (o : MujocoObject)
    (e : Sampler * SampleArgs) :
  objects_dict self !! a = Some o ->
  on_object_entry self [p; a; b] e -> places_on e o b.
Proof.
  intros Ha (a' & b' & o' & [= <-] & [= <-] & Ho & Hargs & Hclass & Hobj).
  rewrite Ha in Ho. injection Ho as <-. now repeat split.
Qed.

(** C2, as the code has it.  The planner performs no dependency analysis:
    when two [on] atoms over movable objects reference each other, a
    completed [_setup_placement_initializer] has registered an
    object-conditioned sampler for each of them, each referring to the other
    object, in the order in which the atoms were declared; and on the initial
    state made of just these two atoms, over two distinct objects, it does
    complete and registers these two samplers and no other. *)
Theorem circular_on_atoms_both_registered (self : Env) (a b : string)
    (oa ob : MujocoObject) :
  objects_dict self !! a = Some oa ->
  objects_dict self !! b = Some ob ->
  (forall built pre mid post,
      initial_state (parsed_problem self)
      = pre ++ ["on"; a; b] :: mid ++ ["on"; b; a] :: post ->
      setup_placement self = Ok built ->
      exists before ea between eb after,
        conditional_placement_on_objects_initializer built
        = before ++ ea :: between ++ eb :: after
        /\ places_on ea oa b /\ places_on eb ob a)
  /\ (name oa <> name ob ->
      initial_state (parsed_problem self) = [["on"; a; b]; ["on"; b; a]] ->
      exists built ea eb,
        setup_placement self = Ok built
        /\ conditional_placement_on_objects_initializer built = [ea; eb]
        /\ places_on ea oa b /\ places_on eb ob a).
Proof.
  intros Ha Hb.
  assert (Hordered : forall built pre mid post,
    initial_state (parsed_problem self)
    = pre ++ ["on"; a; b] :: mid ++ ["on"; b; a] :: post ->
    setup_placement self = Ok built ->
    exists before ea between eb after,
      conditional_placement_on_objects_initializer built
      = before ++ ea :: between ++ eb :: after
      /\ places_on ea oa b /\ places_on eb ob a).
  { intros built pre mid post Hinit Hsetup.
    unfold _setup_placement_initializer in Hsetup.
    apply add_placement_shape in Hsetup
      as (added & props & cond & on_obj & _ & _ & _ & _ & _ & E & _ & Hreg).
    cbn [conditional_placement_on_objects_initializer
         set_conditional_placement_on_objects_initializer app] in E.
    cbn [parsed_problem set_conditional_placement_on_objects_initializer
         set_conditional_placement_initializer set_placement_initializer]
      in Hreg.
    rewrite Hinit, List.filter_app in Hreg. cbn [List.filter] in Hreg.
    change (is_on_object_atom _ ["on"; a; b])
      with (is_on_object_atom self ["on"; a; b]) in Hreg.
    rewrite (on_atom_accepted self a b ob Hb), List.filter_app in Hreg.
    cbn [List.filter] in Hreg.
    change (is_on_object_atom _ ["on"; b; a])
      with (is_on_object_atom self ["on"; b; a]) in Hreg.
    rewrite (on_atom_accepted self b a oa Ha) in Hreg.
    apply Forall2_split_left in Hreg as (before & ea & rest & -> & Hea & Hrest).
    apply Forall2_split_left in Hrest
      as (between & eb & after & -> & Heb & _).
    exists before, ea, between, eb, after. split; [exact E |].
    split; [exact (on_object_entry_inv _ "on" a b oa ea Ha Hea)
           | exact (on_object_entry_inv _ "on" b a ob eb Hb Heb)]. }
  split; [exact Hordered |].
  intros Hne Hinit.
  assert (Hbuilt : exists built, setup_placement self = Ok built).
  { unfold _setup_placement_initializer, _add_placement_initializer.
    cbn [parsed_problem set_conditional_placement_on_objects_initializer
         set_conditional_placement_initializer set_placement_initializer].
    rewrite Hinit. cbn [classify_states].
    rewrite classify_on_object by (exact (on_atom_accepted self a b ob Hb)).
    cbn [mbind result_bind].
    rewrite classify_on_object by (exact (on_atom_accepted self b a oa Ha)).
    cbn [mbind result_bind plan_self conditioned_initial_place_state_on_sites
         conditioned_initial_place_state_on_objects
         conditioned_initial_place_state_in_objects app place_on_sites
         place_on_objects index nth_error].
    unfold getitem.
    cbn [objects_dict set_conditional_placement_on_objects_initializer
         set_conditional_placement_initializer set_placement_initializer].
    rewrite Ha. cbn [mbind result_bind]. unfold append_sampler at 1.
    cbn [existsb conditional_placement_on_objects_initializer
         set_conditional_placement_on_objects_initializer app mbind
         result_bind objects_dict].
    rewrite Hb. cbn [mbind result_bind]. unfold append_sampler.
    unfold mbind, result_bind. cbn [app existsb fst s_mujoco_objects].
    apply String.eqb_neq in Hne. rewrite Hne.
    cbn [orb place_in_objects]. eauto. }
  destruct Hbuilt as [built Hbuilt].
  destruct (Hordered built [] [] [] Hinit Hbuilt)
    as (before & ea & between & eb & after & E & Hea & Heb).
  assert (Hcount : length (conditional_placement_on_objects_initializer built)
                   = 2%nat).
  { pose proof Hbuilt as Hsetup.
    unfold _setup_placement_initializer in Hsetup.
    apply add_placement_shape in Hsetup
      as (added & props & cond & on_obj & _ & _ & _ & _ & _ & E' & _ & Hreg).
    cbn [conditional_placement_on_objects_initializer
         set_conditional_placement_on_objects_initializer app] in E'.
    rewrite E'. apply Forall2_length in Hreg. rewrite <- Hreg.
    cbn [parsed_problem set_conditional_placement_on_objects_initializer
         set_conditional_placement_initializer set_placement_initializer].
    rewrite Hinit. cbn [List.filter].
    change (is_on_object_atom _ ["on"; a; b])
      with (is_on_object_atom self ["on"; a; b]).
    change (is_on_object_atom _ ["on"; b; a])
      with (is_on_object_atom self ["on"; b; a]).
    now rewrite (on_atom_accepted self a b ob Hb),
      (on_atom_accepted self b a oa Ha). }
  rewrite E in Hcount. rewrite !length_app in Hcount. cbn [length] in Hcount.
  rewrite !length_app in Hcount. cbn [length] in Hcount.
  destruct before; [| cbn in Hcount; lia].
  destruct between; [| cbn in Hcount; lia].
  destruct after; [| cbn in Hcount; lia].
  exists built, ea, eb.
  split; [exact Hbuilt |]. split; [exact E |]. split; assumption.
Qed.

End Properties.

(** *** The reward scale on the dense branch *)

(** C1. The cabinet scene with [reward_scale = 2], shaping on, the stored
    distance 0.75 and the door at [q = 0.5] (progress 0.5, distance 0.5):
    the distance decrease is 0.25, so a single application of the scale after
    clipping and denoising gives 0.5; [reward] returns 1.0, the value
    [clip(0.25 * 2) * 2]. *)
Theorem dense_reward_scaled_twice :
  exists r self',
    reward Examples.eval_threshold Examples.sqrt_floor Examples.never_success
      (Examples.cabinet_env (Some 2) true (Some (3 # 4)) (1 # 2))
    = Ok (r, self')
    /\ r == 1
    /\ clip_and_denoise ((3 # 4) - (1 # 2)) * 2 == 1 # 2
    /\ ~ r == clip_and_denoise ((3 # 4) - (1 # 2)) * 2.
Proof.
  eexists. eexists. split; [vm_compute; reflexivity |].
  repeat split; vm_compute; congruence.
Qed.

(** C7. The same scene, one level down: [_compute_dense_reward] returns
    0.5, the scaled decrease, where the distance decrease clipped to
    [[0, 1]] and denoised is 0.25. *)
Theorem dense_value_scaled_before_clipping :
  exists r self',
    _compute_dense_reward Examples.eval_threshold Examples.sqrt_floor
      (Examples.cabinet_env (Some 2) true (Some (3 # 4)) (1 # 2))
    = Ok (r, self')
    /\ r == 1 # 2
    /\ clip_and_denoise ((3 # 4) - (1 # 2)) == 1 # 4
    /\ ~ r == clip_and_denoise ((3 # 4) - (1 # 2)).
Proof.
  eexists. eexists. split; [vm_compute; reflexivity |].
  repeat split; vm_compute; congruence.
Qed.

(** ** The properties on the concrete scenes *)

Import Examples.

Lemma sqrt_floor_nonneg (x : Q) : 0 <= x -> 0 <= sqrt_floor x.
Proof.
  intros _. unfold sqrt_floor, Qle. cbn. rewrite Z.mul_1_r.
  apply Z.sqrt_nonneg.
Qed.

(** With the door at [q = 1] the evaluator reports [open(cabinet)]
    satisfied. *)
Lemma progress_one_when_satisfied_witness :
  _get_predicate_progress eval_threshold sqrt_floor
    (cabinet_env (Some 1) true None 1) ["open"; "cabinet"] = Ok 1.
Proof.
  apply progress_one_when_satisfied. vm_compute. reflexivity.
Defined.



(** The bowl lies 0.5 m from the plate in the plane, and the cabinet door
    rests at the closed edge [q = 0]: both progress values are defined and
    within the unit interval. *)
Lemma progress_in_unit_interval_witness :
  (exists v,
      _get_predicate_progress eval_threshold sqrt_floor (kitchen_env [] [])
        ["on"; "bowl"; "plate"] = Ok v
      /\ 0 <= v <= 1)
  /\ (exists v,
        _get_predicate_progress eval_threshold sqrt_floor (kitchen_env [] [])
          ["open"; "cabinet"] = Ok v
        /\ 0 <= v <= 1).
Proof.
  split.
  - destruct (progress_in_unit_interval eval_threshold sqrt_floor
                (kitchen_env [] []) ["on"; "bowl"; "plate"]
                sqrt_floor_nonneg eq_refl) as [Hbound Hret].
    destruct Hret as [v Hv]; [vm_compute; reflexivity .. |].
    exists v. split; [exact Hv | exact (Hbound v Hv)].
  - destruct (progress_in_unit_interval eval_threshold sqrt_floor
                (kitchen_env [] []) ["open"; "cabinet"]
                sqrt_floor_nonneg eq_refl) as [Hbound Hret].
    destruct Hret as [v Hv]; [vm_compute; reflexivity .. |].
    exists v. split; [exact Hv | exact (Hbound v Hv)].
Defined.

(** A reset of the cabinet scene, then the first dense computation with the
    door half open: the stored distance is absent, the value is 0.0 and the
    current distance 0.5 is stored. *)
Lemma first_dense_reward_after_reset_witness :
  exists after events cur,
    _reset_internal sample_at_origin
      (cabinet_env (Some 1) true (Some (1 # 4)) (1 # 2))
    = Ok (after, events)
    /\ previous_distance after = None
    /\ cur == 1 # 2
    /\ _compute_dense_reward eval_threshold sqrt_floor after
       = Ok (0, set_previous_distance after (Some cur)).
Proof.
  eexists. eexists. eexists.
  assert (Hreset : _reset_internal sample_at_origin
                     (cabinet_env (Some 1) true (Some (1 # 4)) (1 # 2))
                   = Ok (cabinet_env (Some 1) true None (1 # 2),
                         [SuperResetInternal; MjStep1]))
    by (vm_compute; reflexivity).
  destruct (first_dense_reward_after_reset eval_threshold sqrt_floor
              sample_at_origin
              _ _ (cabinet_env (Some 1) true None (1 # 2)) _ Hreset eq_refl)
    as (Hnone & _ & Hfirst & _).
  split; [exact Hreset |]. split; [exact Hnone |].
  split; [| apply Hfirst; [discriminate | vm_compute; reflexivity]].
  vm_compute. reflexivity.
Defined.

(** Two dense computations on the cabinet scene with the door half open,
    after a stored distance of 0.75: the first returns 0.25, the second
    0.0. *)
Lemma dense_reward_twice_unchanged_witness :
  exists r1 self1,
    _compute_dense_reward eval_threshold sqrt_floor
      (cabinet_env (Some 1) true (Some (3 # 4)) (1 # 2)) = Ok (r1, self1)
    /\ r1 == 1 # 4
    /\ _compute_dense_reward eval_threshold sqrt_floor self1 = Ok (0, self1).
Proof.
  eexists. eexists. split; [vm_compute; reflexivity |].
  split; [vm_compute; reflexivity |].
  eapply (dense_reward_twice_unchanged eval_threshold sqrt_floor
            (cabinet_env (Some 1) true (Some (3 # 4)) (1 # 2))).
  vm_compute. reflexivity.
Defined.

(** The cabinet's open range [[1, 2]] lies above its close range [[0, 0]];
    opening the door from 0.25 to 0.75 raises progress from 0.25 to 0.75. *)
Lemma open_progress_monotone_witness :
  exists v1 v2,
    _get_predicate_progress eval_threshold sqrt_floor
      (move_joint (kitchen_env [] []) "cabinet" (1 # 4)) ["open"; "cabinet"]
    = Ok v1
    /\ _get_predicate_progress eval_threshold sqrt_floor
         (move_joint (kitchen_env [] []) "cabinet" (3 # 4)) ["open"; "cabinet"]
       = Ok v2
    /\ v1 <= v2.
Proof.
  apply (open_progress_monotone eval_threshold sqrt_floor
           (kitchen_env [] []) "open" "cabinet" (door_state 0) cabinet
           {[ "articulation" :=
                {[ "default_open_ranges" := [1; 2];
                   "default_close_ranges" := [0; 0] ]} ]}
           {[ "default_open_ranges" := [1; 2];
              "default_close_ranges" := [0; 0] ]}
           [1; 2] [0; 0] 1 2 0 0 (1 # 4) (3 # 4));
    try (vm_compute; reflexivity).
  - right. split; vm_compute; congruence.
  - vm_compute. congruence.
Defined.


(** The cabinet scene with the success check holding and scale 2: [reward]
    returns 2.0 and hands the scene back with the stored distance 0.75. *)
Lemma reward_skips_dense_branch_witness :
  exists r,
    reward eval_threshold sqrt_floor always_success
      (cabinet_env (Some 2) true (Some (3 # 4)) (1 # 2))
    = Ok (r, cabinet_env (Some 2) true (Some (3 # 4)) (1 # 2))
    /\ r == 2.
Proof.
  destruct (reward_skips_dense_branch eval_threshold sqrt_floor always_success
              (cabinet_env (Some 2) true (Some (3 # 4)) (1 # 2))
              (or_introl eq_refl)) as [(r & Hr & Hv) _].
  exists r. split; [exact Hr |]. rewrite Hv. vm_compute. reflexivity.
Defined.

(** The kitchen scene with [on(bowl, plate)] and [on(plate, bowl)]: the
    planner completes, and the on-object composite holds the sampler of the
    bowl on the plate followed by the sampler of the plate on the bowl. *)
Lemma circular_on_atoms_both_registered_witness :
  exists built ea eb,
    _setup_placement_initializer xy_of_rectangles
      (kitchen_env circular_initial_state []) = Ok built
    /\ conditional_placement_on_objects_initializer built = [ea; eb]
    /\ places_on ea (rigid "bowl" "bowl") "plate"
    /\ places_on eb (rigid "plate" "plate") "bowl".
Proof.
  apply (proj2 (circular_on_atoms_both_registered xy_of_rectangles
                  (kitchen_env circular_initial_state []) "bowl" "plate"
                  (rigid "bowl" "bowl") (rigid "plate" "plate")
                  eq_refl eq_refl));
    [intros H; vm_compute in H; discriminate H | reflexivity].
Defined.

(** C2, as stated, fails: on the circular initial state the planner raises
    nothing and registers the two object-conditioned samplers, the bowl on
    the plate and the plate on the bowl. *)
Lemma circular_on_atoms_not_rejected :
  circular_on_atoms
    (initial_state (parsed_problem (kitchen_env circular_initial_state [])))
    "bowl" "plate"
  /\ exists built,
      _setup_placement_initializer xy_of_rectangles
        (kitchen_env circular_initial_state []) = Ok built
      /\ map (fun sa => (name (s_mujoco_objects (fst sa)), reference (snd sa)))
           (conditional_placement_on_objects_initializer built)
         = [("bowl", "plate"); ("plate", "bowl")].
Proof.
  split; [split; cbn; auto |].
  eexists. split; vm_compute; reflexivity.
Qed.

(** ** Further properties of the progress function and the reward *)

Section RewardProperties.

Variable eval_predicate_fn : string -> list ObjectStateView -> bool.
Variable pow_half : Q -> Q.
Variable _check_success : Env -> bool.

Local Abbreviation progress := (_get_predicate_progress eval_predicate_fn pow_half).
Local Abbreviation distances_of := (goal_distances eval_predicate_fn pow_half).
Local Abbreviation distance_now := (current_distance eval_predicate_fn pow_half).
Local Abbreviation dense := (_compute_dense_reward eval_predicate_fn pow_half).
Local Abbreviation reward_of :=
  (reward eval_predicate_fn pow_half _check_success).
Local Abbreviation run := (dense_run eval_predicate_fn pow_half).

(** X1. Progress toward [on] reads the horizontal coordinates only: two
    scenes whose objects agree in x and y give the same progress whatever
    their heights, the evaluator reporting the atom unsatisfied in both. *)
Theorem on_progress_ignores_height (self self' : Env) (p n1 n2 : string)
    (o1 o2 o1' o2' : ObjectStateView) :
  lower p = "on" ->
  object_states_dict self !! n1 = Some o1 ->
  object_states_dict self !! n2 = Some o2 ->
  object_states_dict self' !! n1 = Some o1' ->
  object_states_dict self' !! n2 = Some o2' ->
  fst (geom_pos o1) = fst (geom_pos o1') ->
  fst (geom_pos o2) = fst (geom_pos o2') ->
  eval_predicate_fn p [o1; o2] = false ->
  eval_predicate_fn p [o1'; o2'] = false ->
  progress self [p; n1; n2] = progress self' [p; n1; n2].
Proof.
  intros Hp H1 H2 H1' H2' Hxy1 Hxy2 He He'.
  unfold _get_predicate_progress, getitem.
  rewrite H1, H2, H1', H2'. cbn [mbind result_bind]. rewrite He, He', Hp.
  destruct (geom_pos o1) as [[x1 y1] z1], (geom_pos o2) as [[x2 y2] z2],
    (geom_pos o1') as [[x1' y1'] z1'], (geom_pos o2') as [[x2' y2'] z2'].
  cbn in Hxy1, Hxy2. injection Hxy1 as <- <-. injection Hxy2 as <- <-.
  reflexivity.
Qed.

Lemma np_clip_low (x : Q) : x <= 0 -> np_clip x 0 1 == 0.
Proof. intros Hx. unfold np_clip. repeat case_Qltb; lra. Qed.

Lemma np_clip_high (x : Q) : 1 <= x -> np_clip x 0 1 == 1.
Proof. intros Hx. unfold np_clip. repeat case_Qltb; lra. Qed.

Lemma np_clip_pos (x : Q) : 0 < x -> 0 < np_clip x 0 1.
Proof. intros Hx. unfold np_clip. repeat case_Qltb; lra. Qed.

Lemma Qdiv_sign (x d : Q) :
  0 < d ->
  (x <= 0 -> x / d <= 0) /\ (d <= x -> 1 <= x / d) /\ (0 < x -> 0 < x / d).
Proof.
  intros Hd. repeat split; intros Hx.
  - apply Qle_shift_div_r; [exact Hd | lra].
  - apply Qle_shift_div_l; [exact Hd | lra].
  - apply Qlt_shift_div_l; [exact Hd | lra].
Qed.

Lemma progress_close_after_move (self : Env) (p object_name : string)
    (os : ObjectStateView) (q : Q) :
  object_states_dict self !! object_name = Some os ->
  lower p = "close" ->
  progress (move_joint self object_name q) [p; object_name]
  = if eval_predicate_fn p [with_first_joint os q] then Ok 1
    else joint_range_progress self (with_first_joint os q) object_name
           "close" "open_ranges".
Proof.
  intros Hos Hp. unfold move_joint. rewrite Hos.
  unfold _get_predicate_progress, getitem.
  cbn [object_states_dict set_object_states_dict].
  rewrite lookup_insert_eq, Hp. reflexivity.
Qed.

(** X2. [close] on an articulated object whose close and open tables lie
    apart by more than 1e-6, the evaluator reporting it unsatisfied.  When
    the close range is the upper one, progress is 0 up to the top of the
    open range and 1 from the bottom of the close range on.  When the close
    range is the lower one, progress is 1 up to the top of the close range
    but reaches 0 only at the top of the open range: inside the open range,
    below its top, progress is already positive. *)
Theorem close_progress_endpoints (self : Env) (p object_name : string)
    (os : ObjectStateView) (obj : MujocoObject)
    (props : gmap string (gmap string (list Q)))
    (art : gmap string (list Q)) (target opposite : list Q)
    (tmin tmax omin omax q : Q) :
  lower p = "close" ->
  object_states_dict self !! object_name = Some os ->
  is_ObjectState os = true ->
  get_object self object_name = Some obj ->
  is_ArticulatedObject obj = true ->
  object_properties obj = Some props ->
  props !! "articulation" = Some art ->
  art !! "default_close_ranges" = Some target ->
  art !! "default_open_ranges" = Some opposite ->
  py_min target = Ok tmin -> py_max target = Ok tmax ->
  py_min opposite = Ok omin -> py_max opposite = Ok omax ->
  eval_predicate_fn p [with_first_joint os q] = false ->
  exists v,
    progress (move_joint self object_name q) [p; object_name] = Ok v
    /\ (omax < tmin -> 1 # 1000000 < tmin - omax ->
        (q <= omax -> v == 0) /\ (tmin <= q -> v == 1) /\ (omax < q -> 0 < v))
    /\ (tmax < omin -> 1 # 1000000 < omax - tmax ->
        (omax <= q -> v == 0) /\ (q <= tmax -> v == 1) /\ (q < omax -> 0 < v)).
Proof.
  intros Hp Hos Hstate Hobj Hart Hprops Hartic Ht Ho Htmin Htmax Homin Homax He.
  rewrite (progress_close_after_move _ _ _ _ _ Hos Hp), He.
  unfold joint_range_progress. rewrite Hobj.
  cbn [with_first_joint is_ObjectState joint_state]. rewrite Hstate, Hart.
  cbn [negb orb]. rewrite Hprops, Hartic.
  change ("default_" +:+ "close" +:+ "_ranges") with "default_close_ranges".
  change ("default_" +:+ "open_ranges") with "default_open_ranges".
  rewrite Ht, Ho, Htmin, Htmax, Homin, Homax. cbn [mbind result_bind].
  eexists. split; [reflexivity |].
  pose proof (py_min_le_py_max _ _ _ Htmin Htmax) as Hts.
  pose proof (py_min_le_py_max _ _ _ Homin Homax) as Hos'.
  split.
  - intros Hlt Hgap.
    assert (E1 : Qltb tmax omin = false) by (apply Qltb_false; lra).
    assert (E2 : Qltb omax tmin = true) by (now apply Qltb_true).
    assert (E3 : Qltb (1 # 1000000) (tmin - omax) = true) by (now apply Qltb_true).
    rewrite E1, E2, E3.
    destruct (Qdiv_sign (q - omax) (tmin - omax)) as (L & H & P); [lra |].
    repeat split; intros Hq.
    + apply np_clip_low, L. lra.
    + apply np_clip_high, H. lra.
    + apply np_clip_pos, P. lra.
  - intros Hlt Hgap.
    assert (E1 : Qltb tmax omin = true) by (now apply Qltb_true).
    assert (E3 : Qltb (1 # 1000000) (omax - tmax) = true) by (now apply Qltb_true).
    rewrite E1, E3.
    destruct (Qdiv_sign (omax - q) (omax - tmax)) as (L & H & P); [lra |].
    repeat split; intros Hq.
    + apply np_clip_low, L. lra.
    + apply np_clip_high, H. lra.
    + apply np_clip_pos, P. lra.
Qed.





Lemma fold_py_max2_in (xs : list Q) (x : Q) :
  In (fold_left py_max2 xs x) (x :: xs).
Proof.
  revert x. induction xs as [| y ys IH]; intros x; cbn; [now left |].
  destruct (IH (py_max2 x y)) as [E | Hin]; [| right; now right].
  rewrite <- E. unfold py_max2. destruct (Qltb x y); [right | ]; now left.
Qed.

Lemma fold_py_max2_upper (xs : list Q) (x : Q) :
  forall y, In y (x :: xs) -> y <= fold_left py_max2 xs x.
Proof.
  revert x. induction xs as [| z zs IH]; intros x y.
  - intros [<- | []]. cbn. lra.
  - cbn [fold_left]. intros Hy.
    assert (Hxz : x <= py_max2 x z /\ z <= py_max2 x z)
      by (unfold py_max2; case_Qltb; lra).
    destruct Hy as [<- | [<- | Hy]].
    + pose proof (IH (py_max2 x z) (py_max2 x z) (or_introl eq_refl)). lra.
    + pose proof (IH (py_max2 x z) (py_max2 x z) (or_introl eq_refl)). lra.
    + apply IH. now right.
Qed.

Lemma goal_distances_each (self : Env) (goals : list (list string)) :
  forall ds,
    distances_of self goals = Ok ds ->
    Forall2 (fun state dist =>
               exists v, progress self state = Ok v /\ dist = 1 - v)
      goals ds.
Proof.
  induction goals as [| state rest IH]; intros ds.
  - intros [= <-]. constructor.
  - cbn [goal_distances]. unfold mbind, result_bind.
    destruct (progress self state) as [v |] eqn:Hv; [| discriminate].
    destruct (distances_of self rest) as [ds' |]; [| discriminate].
    intros [= <-]. constructor; [eauto | now apply IH].
Qed.

Lemma Forall2_in_left {A B : Type} (R : A -> B -> Prop) (l1 : list A)
    (l2 : list B) (a : A) :
  Forall2 R l1 l2 -> In a l1 -> exists b, In b l2 /\ R a b.
Proof.
  induction 1 as [| x y l1 l2 Hxy _ IH]; [intros [] |].
  intros [<- | Hin]; [exists y; split; [now left | exact Hxy] |].
  destruct (IH Hin) as (b & Hb & Hab). exists b. split; [now right | exact Hab].
Qed.

Lemma Forall2_in_right {A B : Type} (R : A -> B -> Prop) (l1 : list A)
    (l2 : list B) (b : B) :
  Forall2 R l1 l2 -> In b l2 -> exists a, In a l1 /\ R a b.
Proof.
  induction 1 as [| x y l1 l2 Hxy _ IH]; [intros [] |].
  intros [<- | Hin]; [exists x; split; [now left | exact Hxy] |].
  destruct (IH Hin) as (a & Ha & Hab). exists a. split; [now right | exact Hab].
Qed.

(** X4. The current distance is the bottleneck of the goal: it is the
    distance [1 - progress] of one of the goal atoms, and no goal atom has a
    larger one. *)
Theorem current_distance_is_bottleneck (self : Env)
    (goals : list (list string)) (d : Q) :
  goals <> [] ->
  distance_now self goals = Ok d ->
  (forall state, In state goals ->
     exists v, progress self state = Ok v /\ 1 - v <= d)
  /\ (exists state v,
        In state goals /\ progress self state = Ok v /\ d = 1 - v).
Proof.
  intros Hne. unfold current_distance, mbind, result_bind.
  destruct (distances_of self goals) as [ds |] eqn:Hds; [| discriminate].
  apply goal_distances_each in Hds.
  destruct ds as [| x xs]; [inversion Hds; subst; easy |].
  cbn [py_max]. intros [= <-]. split.
  - intros state Hin.
    destruct (Forall2_in_left _ _ _ _ Hds Hin) as (dist & Hdist & v & Hv & ->).
    exists v. split; [exact Hv |]. now apply fold_py_max2_upper.
  - destruct (Forall2_in_right _ _ _ _ Hds (fold_py_max2_in xs x))
      as (state & Hstate & v & Hv & E).
    exists state, v. now repeat split.
Qed.

(** X5. Under a non-negative scale a reward handed out by [reward] lies
    between 0 and the scale (between 0 and 1 when no scale is set), on the
    sparse and on the dense branch alike. *)
Theorem reward_within_scale (self self' : Env) (r : Q) :
  (forall s, reward_scale self = Some s -> 0 <= s) ->
  reward_of self = Ok (r, self') ->
  0 <= r <= match reward_scale self with Some s => s | None => 1 end.
Proof.
  intros Hs. unfold reward, mbind, result_bind.
  destruct (_check_success self).
  - intros [= <- _]. unfold apply_reward_scale.
    destruct (reward_scale self) as [s |]; [| lra].
    specialize (Hs s eq_refl).
    assert (E : 1 * (s / 1) == s) by (unfold Qdiv; field). lra.
  - destruct (reward_shaping self).
    + destruct (dense self) as [[r0 self0] |] eqn:Hdense; [| discriminate].
      intros [= <- _].
      pose proof (dense_reward_unit _ _ _ _ _ Hdense) as Hr0.
      assert (Hscale : reward_scale self0 = reward_scale self).
      { rewrite dense_unfold in Hdense.
        destruct (goal_state (parsed_problem self));
          [now injection Hdense as _ <- |].
        destruct (current_distance _ _ _ _); [| discriminate].
        destruct (previous_distance self); now injection Hdense as _ <-. }
      unfold apply_reward_scale. rewrite Hscale.
      destruct (reward_scale self) as [s |]; [| lra].
      specialize (Hs s eq_refl).
      assert (E : r0 * (s / 1) == r0 * s) by (unfold Qdiv; field).
      rewrite E. nra.
    + intros [= <- _]. unfold apply_reward_scale.
      destruct (reward_scale self) as [s |]; [| lra].
      specialize (Hs s eq_refl).
      assert (E : 0 * (s / 1) == 0) by (unfold Qdiv; field). lra.
Qed.

Lemma goal_distances_first_error (self : Env) (pre post : list (list string))
    (bad : list string) (e : exn) :
  Forall (fun state => exists v, progress self state = Ok v) pre ->
  progress self bad = Raise e ->
  distances_of self (pre ++ bad :: post) = Raise e.
Proof.
  intros Hpre Hbad. induction Hpre as [| state pre [v Hv] _ IH].
  - cbn [app goal_distances]. now rewrite Hbad.
  - cbn [app goal_distances]. rewrite Hv. cbn [mbind result_bind].
    now rewrite IH.
Qed.

(** X6. With shaping on and no success, [reward] fails with the error of
    the first goal atom, in goal order, whose progress cannot be computed
    (an untracked name, an unsupported predicate that is not yet satisfied,
    an empty range table). *)
Theorem shaped_reward_raises_first_goal_error (self : Env)
    (pre post : list (list string)) (bad : list string) (e : exn) :
  _check_success self = false ->
  reward_shaping self = true ->
  goal_state (parsed_problem self) = pre ++ bad :: post ->
  Forall (fun state => exists v, progress self state = Ok v) pre ->
  progress self bad = Raise e ->
  reward_of self = Raise e.
Proof.
  intros Hs Hshape Hgoal Hpre Hbad. unfold reward. rewrite Hs, Hshape.
  rewrite dense_unfold, Hgoal. unfold current_distance.
  rewrite (goal_distances_first_error _ _ _ _ _ Hpre Hbad).
  destruct (pre ++ bad :: post) eqn:E; [now destruct pre | reflexivity].
Qed.

Lemma clip_and_denoise_le (x : Q) : 0 <= x -> clip_and_denoise x <= x.
Proof.
  intros Hx. unfold clip_and_denoise, np_clip. repeat case_Qltb; lra.
Qed.

Lemma last_cons {A : Type} (a d : A) (l : list A) :
  List.last (a :: l) d = List.last l a.
Proof.
  revert a d. induction l as [| b l IH]; intros a d; [reflexivity |].
  change (List.last (a :: b :: l) d) with (List.last (b :: l) d).
  now rewrite !(IH b).
Qed.

(** One dense computation on a scene with a stored distance, and one
    without. *)
Lemma dense_step (scene : Env) (d0 d1 : Q) :
  goal_state (parsed_problem scene) <> [] ->
  has_distance eval_predicate_fn pow_half scene d1 ->
  dense (set_previous_distance scene (Some d0))
  = Ok (clip_and_denoise (apply_reward_scale scene (d0 - d1)),
        set_previous_distance scene (Some d1)).
Proof.
  unfold has_distance. intros Hgoal Hd.
  rewrite dense_unfold, current_distance_frame.
  change (goal_state (parsed_problem (set_previous_distance scene (Some d0))))
    with (goal_state (parsed_problem scene)).
  destruct (goal_state (parsed_problem scene)) as [| g gs] eqn:E; [easy |].
  rewrite Hd. reflexivity.
Qed.

Lemma dense_first (scene : Env) (d1 : Q) :
  goal_state (parsed_problem scene) <> [] ->
  has_distance eval_predicate_fn pow_half scene d1 ->
  dense (set_previous_distance scene None)
  = Ok (0, set_previous_distance scene (Some d1)).
Proof.
  unfold has_distance. intros Hgoal Hd.
  rewrite dense_unfold, current_distance_frame.
  change (goal_state (parsed_problem (set_previous_distance scene None)))
    with (goal_state (parsed_problem scene)).
  destruct (goal_state (parsed_problem scene)) as [| g gs] eqn:E; [easy |].
  rewrite Hd. reflexivity.
Qed.

Lemma dense_run_bounded (scenes : list Env) (ds : list Q) :
  Forall2 (has_distance eval_predicate_fn pow_half) scenes ds ->
  forall d0,
    Forall unit_scaled scenes ->
    non_increasing d0 ds ->
    exists rewards,
      run (Some d0) scenes = Ok rewards
      /\ 0 <= total rewards <= d0 - final_distance d0 ds.
Proof.
  unfold final_distance.
  induction 1 as [| scene d1 scenes ds Hd _ IH]; intros d0 Hunit Hmono.
  - exists []. split; [reflexivity |]. cbn. lra.
  - inversion Hunit as [| ? ? [Hscale Hgoal] Hunit']; subst.
    destruct Hmono as [Hle Hmono].
    destruct (IH d1 Hunit' Hmono) as (rs & Hrs & Hbound).
    cbn [dense_run]. rewrite (dense_step _ _ _ Hgoal Hd).
    cbn [mbind result_bind previous_distance set_previous_distance].
    rewrite Hrs. cbn [mbind result_bind]. eexists. split; [reflexivity |].
    cbn [total fold_right]. fold (total rs). rewrite last_cons.
    pose proof (dense_value_at_unit_scale scene d0 d1 Hscale) as E.
    pose proof (clip_and_denoise_le (d0 - d1)).
    pose proof (clip_and_denoise_unit (d0 - d1)). lra.
Qed.

(** X7. A run of dense computations that starts after a reset, at unit
    scale (or none), over scenes whose distance to the goal never grows:
    the rewards add up to at most the first distance minus the last one, and
    never to less than 0. *)
Theorem episode_reward_bounded_by_progress (scene : Env) (scenes : list Env)
    (d1 : Q) (ds : list Q) :
  Forall unit_scaled (scene :: scenes) ->
  Forall2 (has_distance eval_predicate_fn pow_half) (scene :: scenes)
    (d1 :: ds) ->
  non_increasing d1 ds ->
  exists rewards,
    run None (scene :: scenes) = Ok rewards
    /\ 0 <= total rewards <= d1 - final_distance d1 ds.
Proof.
  intros Hunit Hds Hmono.
  inversion Hunit as [| ? ? [Hscale Hgoal] Hunit']; subst.
  inversion Hds as [| ? ? ? ? Hd Hds']; subst.
  destruct (dense_run_bounded _ _ Hds' d1 Hunit' Hmono) as (rs & Hrs & Hbound).
  cbn [dense_run]. rewrite (dense_first _ _ Hgoal Hd).
  cbn [mbind result_bind previous_distance set_previous_distance]. rewrite Hrs.
  cbn [mbind result_bind]. eexists. split; [reflexivity |].
  cbn [total fold_right]. fold (total rs). lra.
Qed.

(** X8. A run of dense computations at unit scale (or none) in which no
    step lowers the distance by 1e-3 or more returns 0.0 at every step,
    however far the distance has dropped by the end: each call moves the
    stored distance to the current one, so the small decreases are never
    added up. *)
Theorem slow_approach_earns_nothing (scenes : list Env) (ds : list Q) :
  Forall2 (has_distance eval_predicate_fn pow_half) scenes ds ->
  forall d0,
    Forall unit_scaled scenes ->
    small_steps d0 ds ->
    run (Some d0) scenes = Ok (repeat 0 (length scenes)).
Proof.
  induction 1 as [| scene d1 scenes ds Hd _ IH]; intros d0 Hunit Hsmall.
  - reflexivity.
  - inversion Hunit as [| ? ? [Hscale Hgoal] Hunit']; subst.
    destruct Hsmall as [Hlt Hsmall].
    cbn [dense_run]. rewrite (dense_step _ _ _ Hgoal Hd).
    cbn [mbind result_bind previous_distance set_previous_distance].
    rewrite (IH d1 Hunit' Hsmall). cbn [mbind result_bind length repeat].
    rewrite clip_and_denoise_small; [reflexivity |].
    unfold apply_reward_scale. destruct Hscale as [-> | ->]; [| exact Hlt].
    assert (E : (d0 - d1) * (1 / 1) == d0 - d1) by (unfold Qdiv; field).
    lra.
Qed.

End RewardProperties.

(** The bowl on the table and the bowl lifted half a metre are equally far
    from being [On] the plate. *)
Lemma on_progress_ignores_height_witness :
  _get_predicate_progress eval_threshold sqrt_floor (kitchen_env [] [])
    ["On"; "bowl"; "plate"]
  = _get_predicate_progress eval_threshold sqrt_floor
      Scenes.kitchen_bowl_lifted ["On"; "bowl"; "plate"].
Proof.
  apply (on_progress_ignores_height eval_threshold sqrt_floor
           (kitchen_env [] []) Scenes.kitchen_bowl_lifted "On" "bowl" "plate"
           (rigid_state 0 0 0) (rigid_state (3 # 10) (4 # 10) 0)
           (rigid_state 0 0 (1 # 2)) (rigid_state (3 # 10) (4 # 10) 0));
    vm_compute; reflexivity.
Defined.

(** The cabinet's close range [[0, 0]] lies below its open range [[1, 2]];
    with the door at 1.5, inside the open range, progress toward [close] is
    already positive. *)
Lemma close_progress_endpoints_witness :
  exists v,
    _get_predicate_progress Scenes.eval_never sqrt_floor
      (move_joint (kitchen_env [] []) "cabinet" (3 # 2)) ["close"; "cabinet"]
    = Ok v
    /\ 0 < v.
Proof.
  destruct (close_progress_endpoints Scenes.eval_never sqrt_floor
              (kitchen_env [] []) "close" "cabinet" (door_state 0) cabinet
              {[ "articulation" :=
                   {[ "default_open_ranges" := [1; 2];
                      "default_close_ranges" := [0; 0] ]} ]}
              {[ "default_open_ranges" := [1; 2];
                 "default_close_ranges" := [0; 0] ]}
              [0; 0] [1; 2] 0 0 1 2 (3 # 2))
    as (v & Hv & _ & Hlow); try (vm_compute; reflexivity).
  exists v. split; [exact Hv |].
  apply Hlow; vm_compute; reflexivity.
Defined.


(** With the bowl 0.5 m from the plate and the cabinet closed, the
    bottleneck is the cabinet. *)
Lemma current_distance_is_bottleneck_witness :
  exists d state v,
    current_distance eval_threshold sqrt_floor (kitchen_env [] [])
      [["on"; "bowl"; "plate"]; ["open"; "cabinet"]] = Ok d
    /\ In state [["on"; "bowl"; "plate"]; ["open"; "cabinet"]]
    /\ _get_predicate_progress eval_threshold sqrt_floor (kitchen_env [] [])
         state = Ok v
    /\ d = 1 - v.
Proof.
  eexists.
  edestruct (current_distance_is_bottleneck eval_threshold sqrt_floor
               (kitchen_env [] [])
               [["on"; "bowl"; "plate"]; ["open"; "cabinet"]])
    as [_ (state & v & Hin & Hv & Hd)];
    [discriminate | vm_compute; reflexivity |].
  exists state, v. split; [vm_compute; reflexivity |]. auto.
Defined.

(** The successful cabinet scene at scale 2 pays a reward within
    [[0, 2]]. *)
Lemma reward_within_scale_witness :
  exists r self',
    reward eval_threshold sqrt_floor always_success
      (cabinet_env (Some 2) true (Some (3 # 4)) (1 # 2)) = Ok (r, self')
    /\ 0 <= r <= 2.
Proof.
  eexists. eexists. split; [vm_compute; reflexivity |].
  eapply (reward_within_scale eval_threshold sqrt_floor always_success
            (cabinet_env (Some 2) true (Some (3 # 4)) (1 # 2))).
  - intros s [= <-]. vm_compute. discriminate.
  - vm_compute. reflexivity.
Defined.

(** A goal whose second atom has no progress rule: the shaped reward
    fails. *)
Lemma shaped_reward_raises_first_goal_error_witness :
  reward eval_threshold sqrt_floor never_success
    (kitchen_env [] [["on"; "bowl"; "plate"]; ["up"; "bowl"]])
  = Raise NotImplementedError.
Proof.
  apply (shaped_reward_raises_first_goal_error eval_threshold sqrt_floor
           never_success _ [["on"; "bowl"; "plate"]] [] ["up"; "bowl"]);
    try reflexivity.
  constructor; [| constructor]. eexists. vm_compute. reflexivity.
Defined.

(** The door opens from 0.25 to 0.5 to 0.75 after a reset: the rewards add
    up to at most 0.5. *)
Lemma episode_reward_bounded_by_progress_witness :
  exists rewards,
    dense_run eval_threshold sqrt_floor None
      [Scenes.door_at (1 # 4); Scenes.door_at (1 # 2); Scenes.door_at (3 # 4)]
    = Ok rewards
    /\ 0 <= total rewards <= 1 # 2.
Proof.
  edestruct (episode_reward_bounded_by_progress eval_threshold sqrt_floor
               (Scenes.door_at (1 # 4))
               [Scenes.door_at (1 # 2); Scenes.door_at (3 # 4)])
    as (rewards & Hrun & Hlo & Hhi).
  - repeat constructor; discriminate.
  - repeat constructor; vm_compute; reflexivity.
  - cbn. repeat split; vm_compute; discriminate.
  - exists rewards. split; [exact Hrun |]. split; [exact Hlo |].
    eapply Qle_trans; [exact Hhi |]. vm_compute. discriminate.
Defined.

(** The door creeps open by 1/2048 per step from a stored distance of 0.5:
    both steps are worth 0.0. *)
Lemma slow_approach_earns_nothing_witness :
  dense_run eval_threshold sqrt_floor (Some (1 # 2))
    [Scenes.door_at (1025 # 2048); Scenes.door_at (1026 # 2048)]
  = Ok [0; 0].
Proof.
  eapply (slow_approach_earns_nothing eval_threshold sqrt_floor
            [Scenes.door_at (1025 # 2048); Scenes.door_at (1026 # 2048)]).
  - repeat constructor; vm_compute; reflexivity.
  - repeat constructor; discriminate.
  - cbn. repeat split; vm_compute; reflexivity.
Defined.

(** ** Further properties of the placement planner and the reset *)

Section PlannerProperties.

Variable rectangle2xyrange : list (list Q) -> list (list Q) * list (list Q).
Variable sample : Sampler -> option SampleArgs -> Placements -> result Placements.

Local Abbreviation classify := (classify_state rectangle2xyrange).
Local Abbreviation classify_all := (classify_states rectangle2xyrange).
Local Abbreviation add_placement :=
  (_add_placement_initializer rectangle2xyrange).
Local Abbreviation setup_placement :=
  (_setup_placement_initializer rectangle2xyrange).

(** Case analysis on every [match] of a hypothesis that computes a
    [result], innermost first. *)
Ltac cases_of H :=
  repeat match type of H with
         | context [match ?m with _ => _ end] =>
           lazymatch m with
           | context [match _ with _ => _ end] => fail
           | _ => destruct m eqn:?; try discriminate H
           end
         end.

(** Replaces the result of every [append_sampler] that returned by the
    composite it returned. *)
Ltac appended_in_hyps :=
  repeat match goal with
         | Ha : append_sampler _ _ _ = Ok _ |- _ =>
           apply append_sampler_inv in Ha; subst
         end.

Lemma set_props_id (self : Env) :
  set_object_property_initializers self (object_property_initializers self ++ [])
  = self.
Proof. destruct self. cbn. now rewrite app_nil_r. Qed.

(** The joint-sampler step appends at most one sampler, registered for a
    tracked object state with [set_joint]. *)
Lemma add_property_initializer_appends (self self' : Env)
    (state : list string) :
  add_property_initializer self state = Ok self' ->
  exists padded,
    self' = set_object_property_initializers self
              (object_property_initializers self ++ padded)
    /\ (length padded <= 1)%nat
    /\ Forall (registered_for self) padded.
Proof.
  unfold add_property_initializer, articulation_ranges, mbind, result_bind.
  intros H. cases_of H; injection H as <-;
    first
      [ exists []; split; [now rewrite set_props_id |];
        split; [cbn; lia | constructor]
      | eexists [_]; split; [reflexivity |]; split; [cbn; lia |];
        constructor; [| constructor]; split; [discriminate |];
        eexists _, _, _; repeat split; eassumption ].
Qed.

Lemma extend_plan_same (self : Env) :
  extend_plan self [] (object_property_initializers self ++ []) = self.
Proof. destruct self. unfold extend_plan. cbn. now rewrite !app_nil_r. Qed.

Lemma binary_atom_head {V : Type} (state : list string) (p : string)
    (d : gmap string V) :
  binary_atom_into state p d = Ok true -> index state 0 = Ok p.
Proof.
  unfold binary_atom_into, mbind, result_bind.
  destruct (index state 0) as [s0 |]; [| discriminate].
  destruct (String.eqb_spec s0 p) as [-> | _]; [reflexivity | discriminate].
Qed.

(** An [on] atom registers no joint sampler. *)
Lemma add_property_initializer_on (self : Env) (state : list string) :
  index state 0 = Ok "on" -> add_property_initializer self state = Ok self.
Proof.
  intros H. unfold add_property_initializer. rewrite H. reflexivity.
Qed.

(** One iteration of the first loop, by what it appends: at most one entry
    in all, to one of the three local lists, the unconditioned samplers or
    the joint samplers. *)
Lemma classify_state_appends (plan plan' : Plan) (state : list string) :
  classify plan state = Ok plan' ->
  exists added padded ds dO di,
    plan_self plan'
    = extend_plan (plan_self plan) added
        (object_property_initializers (plan_self plan) ++ padded)
    /\ conditioned_initial_place_state_on_sites plan'
       = conditioned_initial_place_state_on_sites plan ++ ds
    /\ conditioned_initial_place_state_on_objects plan'
       = conditioned_initial_place_state_on_objects plan ++ dO
    /\ conditioned_initial_place_state_in_objects plan'
       = conditioned_initial_place_state_in_objects plan ++ di
    /\ (length added + length padded + length ds + length dO + length di
        <= 1)%nat
    /\ Forall (registered_for (plan_self plan)) padded.
Proof.
  unfold classify_state, mbind, result_bind. intros H. cases_of H;
    injection H as <-; appended_in_hyps;
    cbn [plan_self conditioned_initial_place_state_on_sites
         conditioned_initial_place_state_on_objects
         conditioned_initial_place_state_in_objects];
    try match goal with
        | Hon : binary_atom_into state "on" (regions _) = Ok true,
          He : add_property_initializer _ state = Ok _ |- _ =>
          rewrite (add_property_initializer_on _ _ (binary_atom_head _ _ _ Hon))
            in He;
          injection He as <-
        end;
    try match goal with
        | He : add_property_initializer _ state = Ok _ |- _ =>
          apply add_property_initializer_appends in He
            as (padded & -> & Hlen & Hreg)
        end.
  all: first
         [ exists [], [], [], [state], []; rewrite extend_plan_same, !app_nil_r;
           repeat split; solve [reflexivity | cbn; lia | constructor]
         | exists [], [], [], [], [state]; rewrite extend_plan_same, !app_nil_r;
           repeat split; solve [reflexivity | cbn; lia | constructor]
         | exists [], [], [state], [], []; rewrite extend_plan_same, !app_nil_r;
           repeat split; solve [reflexivity | cbn; lia | constructor]
         | eexists [_], [], [], [], [];
           split; [unfold extend_plan; cbn; now rewrite !app_nil_r |];
           rewrite !app_nil_r;
           repeat split; solve [reflexivity | cbn; lia | constructor]
         | exists [], padded, [], [], [];
           split; [unfold extend_plan; destruct (plan_self plan); cbn;
                   now rewrite !app_nil_r |];
           rewrite !app_nil_r;
           repeat split; solve [reflexivity | cbn; lia | assumption] ].
Qed.

Lemma registered_for_extend (self : Env) (added : list Sampler)
    (props : list PropertySampler) (p : PropertySampler) :
  registered_for (extend_plan self added props) p <-> registered_for self p.
Proof. reflexivity. Qed.

Lemma classify_states_appends (initial_state : list (list string)) :
  forall plan plan',
    classify_all plan initial_state = Ok plan' ->
    exists added padded ds dO di,
      plan_self plan'
      = extend_plan (plan_self plan) added
          (object_property_initializers (plan_self plan) ++ padded)
      /\ conditioned_initial_place_state_on_sites plan'
         = conditioned_initial_place_state_on_sites plan ++ ds
      /\ conditioned_initial_place_state_on_objects plan'
         = conditioned_initial_place_state_on_objects plan ++ dO
      /\ conditioned_initial_place_state_in_objects plan'
         = conditioned_initial_place_state_in_objects plan ++ di
      /\ (length added + length padded + length ds + length dO + length di
          <= length initial_state)%nat
      /\ Forall (registered_for (plan_self plan)) padded.
Proof.
  induction initial_state as [| state rest IH]; intros plan plan'.
  - intros [= <-]. exists [], [], [], [], [].
    rewrite extend_plan_same, !app_nil_r.
    repeat split; solve [reflexivity | cbn; lia | constructor].
  - cbn [classify_states]. unfold mbind, result_bind.
    destruct (classify plan state) as [plan1 |] eqn:H1; [| discriminate].
    intros Hrest.
    apply classify_state_appends in H1
      as (a1 & p1 & s1 & o1 & i1 & E1 & S1 & O1 & I1 & L1 & R1).
    apply IH in Hrest
      as (a2 & p2 & s2 & o2 & i2 & E2 & S2 & O2 & I2 & L2 & R2).
    exists (a1 ++ a2), (p1 ++ p2), (s1 ++ s2), (o1 ++ o2), (i1 ++ i2).
    rewrite E2, S2, O2, I2, E1, S1, O1, I1, extend_plan_twice.
    cbn [extend_plan object_property_initializers
         set_object_property_initializers].
    rewrite <- !app_assoc, !length_app.
    repeat split; try reflexivity.
    + cbn [length]. lia.
    + apply Forall_app. split; [exact R1 |].
      eapply List.Forall_impl; [| exact R2].
      intros p Hp. rewrite E1 in Hp. exact Hp.
Qed.

Lemma place_on_sites_appends (states : list (list string)) :
  forall self self',
    place_on_sites self states = Ok self' ->
    exists added,
      self' = set_conditional_placement_initializer self
                (conditional_placement_initializer self ++ added)
      /\ length added = length states
      /\ Forall (fun sa => s_class (fst sa) = SiteRegionRandomSampler) added.
Proof.
  induction states as [| state rest IH]; intros self self'.
  - intros [= <-]. exists []. now rewrite set_conditional_id.
  - cbn [place_on_sites]. unfold mbind, result_bind. intros H.
    cases_of H. appended_in_hyps.
    apply IH in H as (added & -> & Hlen & Hall).
    eexists (_ :: added). split; [cbn; now rewrite <- app_assoc |].
    split; [cbn; now rewrite Hlen |]. constructor; [reflexivity | exact Hall].
Qed.

Lemma place_in_objects_appends (states : list (list string)) :
  forall self self',
    place_in_objects self states = Ok self' ->
    exists added,
      self' = set_conditional_placement_initializer self
                (conditional_placement_initializer self ++ added)
      /\ length added = length states
      /\ Forall (fun sa => s_class (fst sa) = InSiteRegionRandomSampler) added.
Proof.
  induction states as [| state rest IH]; intros self self'.
  - intros [= <-]. exists []. now rewrite set_conditional_id.
  - cbn [place_in_objects]. unfold mbind, result_bind. intros H.
    cases_of H. appended_in_hyps.
    apply IH in H as (added & -> & Hlen & Hall).
    eexists (_ :: added). split; [cbn; now rewrite <- app_assoc |].
    split; [cbn; now rewrite Hlen |]. constructor; [reflexivity | exact Hall].
Qed.

Lemma place_on_objects_appends (states : list (list string)) :
  forall self self',
    place_on_objects self states = Ok self' ->
    exists added,
      self' = set_conditional_placement_on_objects_initializer self
                (conditional_placement_on_objects_initializer self ++ added)
      /\ length added = length states
      /\ Forall (fun sa => s_class (fst sa) = ObjectBasedSampler) added.
Proof.
  induction states as [| state rest IH]; intros self self'.
  - intros [= <-]. exists []. now rewrite set_on_objects_id.
  - cbn [place_on_objects]. unfold mbind, result_bind. intros H.
    cases_of H. appended_in_hyps.
    apply IH in H as (added & -> & Hlen & Hall).
    eexists (_ :: added). split; [cbn; now rewrite <- app_assoc |].
    split; [cbn; now rewrite Hlen |]. constructor; [reflexivity | exact Hall].
Qed.

(** The layout of [self] after [_add_placement_initializer]: what each of the
    four sampler lists gained. *)
Lemma add_placement_layout (self self' : Env) :
  add_placement self = Ok self' ->
  exists added padded sites in_regions on_obj,
    placement_initializer self' = placement_initializer self ++ added
    /\ object_property_initializers self'
       = object_property_initializers self ++ padded
    /\ conditional_placement_initializer self'
       = conditional_placement_initializer self ++ sites ++ in_regions
    /\ conditional_placement_on_objects_initializer self'
       = conditional_placement_on_objects_initializer self ++ on_obj
    /\ Forall (fun sa => s_class (fst sa) = SiteRegionRandomSampler) sites
    /\ Forall (fun sa => s_class (fst sa) = InSiteRegionRandomSampler)
         in_regions
    /\ Forall (fun sa => s_class (fst sa) = ObjectBasedSampler) on_obj
    /\ Forall (registered_for self) padded
    /\ (length added + length padded + length sites + length in_regions
        + length on_obj
        <= length (initial_state (parsed_problem self)))%nat
    /\ object_states_dict self' = object_states_dict self.
Proof.
  unfold _add_placement_initializer, mbind, result_bind. intros H3.
  destruct (classify_all _ _) as [plan |] eqn:Hplan; [| discriminate].
  apply classify_states_appends in Hplan
    as (added & padded & ds & dO & di & E & S & O & I & L & R).
  cbn [plan_self conditioned_initial_place_state_on_sites
       conditioned_initial_place_state_on_objects
       conditioned_initial_place_state_in_objects app] in E, S, O, I, R.
  destruct (place_on_sites _ _) as [self1 |] eqn:H1; [| discriminate].
  apply place_on_sites_appends in H1 as (c1 & -> & L1 & C1).
  destruct (place_on_objects _ _) as [self2 |] eqn:H2; [| discriminate].
  apply place_on_objects_appends in H2 as (o1 & -> & L2 & C2).
  apply place_in_objects_appends in H3 as (c2 & -> & L3 & C3).
  rewrite E, S, O, I in *.
  exists added, padded, c1, c2, o1. cbn.
  rewrite <- app_assoc. repeat split; try assumption; try reflexivity. lia.
Qed.

(** X9. Planning registers at most one sampler per initial-state atom: the
    three placement composites, which start empty, and the joint samplers
    gained hold no more entries than the initial state has atoms. *)
Theorem setup_registers_at_most_one_sampler_per_atom (self built : Env) :
  setup_placement self = Ok built ->
  (sampler_count built
   <= length (object_property_initializers self)
      + length (initial_state (parsed_problem self)))%nat.
Proof.
  unfold _setup_placement_initializer. intros H.
  apply add_placement_layout in H
    as (added & padded & sites & in_regions & on_obj
        & E1 & E2 & E3 & E4 & _ & _ & _ & _ & L & _).
  unfold sampler_count. rewrite E1, E2, E3, E4.
  cbn in *. rewrite !length_app. lia.
Qed.

(** X10. In the conditional composite the site-conditioned samplers all
    come before the in-region samplers, in whatever order the atoms were
    declared; a reset therefore places every object that sits on a site
    before any object that sits in a container. *)
Theorem site_samplers_precede_in_region_samplers (self built : Env) :
  setup_placement self = Ok built ->
  exists sites in_regions,
    conditional_placement_initializer built = sites ++ in_regions
    /\ Forall (fun sa => s_class (fst sa) = SiteRegionRandomSampler) sites
    /\ Forall (fun sa => s_class (fst sa) = InSiteRegionRandomSampler)
         in_regions.
Proof.
  unfold _setup_placement_initializer. intros H.
  apply add_placement_layout in H
    as (added & padded & sites & in_regions & on_obj
        & _ & _ & E3 & _ & C1 & C2 & _).
  exists sites, in_regions. cbn in E3. auto.
Qed.






Lemma plan_eta (plan : Plan) :
  {| plan_self := plan_self plan;
     conditioned_initial_place_state_on_sites :=
       conditioned_initial_place_state_on_sites plan;
     conditioned_initial_place_state_on_objects :=
       conditioned_initial_place_state_on_objects plan;
     conditioned_initial_place_state_in_objects :=
       conditioned_initial_place_state_in_objects plan |} = plan.
Proof. now destruct plan. Qed.

(** X12. An atom for which the planner has no rule is dropped without an
    error and without a trace: the iteration leaves [self] and the three
    local lists as they were.  This includes [on] and [in] atoms whose
    second argument names nothing known. *)
Theorem atoms_without_rule_are_dropped (plan : Plan) (state : list string) :
  no_placement_rule (plan_self plan) state ->
  classify plan state = Ok plan.
Proof.
  destruct state as [| s0 rest]; [intros [] |].
  unfold no_placement_rule, classify_state, binary_atom_into,
    add_property_initializer, contains.
  cbn [index nth_error mbind result_bind].
  intros [(-> & b & Hb & Hobj & Hreg) | [(-> & b & Hb & Hreg)
          | [(Hin & n & Hn & Hstate) | Hnot]]].
  - rewrite Hb. cbn [mbind result_bind String.eqb]. rewrite Hobj, Hreg.
    cbn. apply f_equal, plan_eta.
  - rewrite Hb. cbn [mbind result_bind]. rewrite Hreg.
    cbn. apply f_equal, plan_eta.
  - rewrite Hn.
    assert (Hlookup : match object_states_dict (plan_self plan) !! n with
                      | Some obj_state => has_set_joint obj_state
                      | None => false
                      end = false).
    { destruct Hstate as [-> | (os & -> & ->)]; reflexivity. }
    cbn in Hin.
    destruct Hin as [<- | [<- | [<- | [<- | []]]]];
      cbn [mbind result_bind String.eqb Ascii.eqb Bool.eqb orb andb];
      destruct (object_states_dict (plan_self plan) !! n) as [os |];
      try rewrite Hlookup; cbn; apply f_equal, plan_eta.
  - assert (Hne : String.eqb s0 "on" = false /\ String.eqb s0 "in" = false
                  /\ String.eqb s0 "open" = false
                  /\ String.eqb s0 "close" = false
                  /\ String.eqb s0 "turnon" = false
                  /\ String.eqb s0 "turnoff" = false).
    { repeat split; apply String.eqb_neq; intros ->; apply Hnot; cbn; auto 10. }
    destruct Hne as (E1 & E2 & E3 & E4 & E5 & E6).
    rewrite E1, E2, E3, E4, E5, E6. cbn. apply f_equal, plan_eta.
Qed.

(** The first loop reads nothing of the joint samplers held so far: run on a
    [self] that holds other joint samplers, an iteration takes the same
    branch and appends the same sampler. *)
Lemma classify_state_props_indep (l : list PropertySampler)
    (plan plan' : Plan) (state : list string) :
  classify plan state = Ok plan' ->
  exists padded,
    object_property_initializers (plan_self plan')
    = object_property_initializers (plan_self plan) ++ padded
    /\ classify (plan_with_props l plan) state
       = Ok (plan_with_props (l ++ padded) plan').
Proof.
  destruct plan as [self sites on_objs in_objs]. destruct self.
  unfold classify_state, add_property_initializer, articulation_ranges,
    binary_atom_into, get_object, is_fixture, mapping_inv, plan_with_props,
    mbind, result_bind.
  cbn [plan_self conditioned_initial_place_state_on_sites
       conditioned_initial_place_state_on_objects
       conditioned_initial_place_state_in_objects
       set_object_property_initializers set_placement_initializer
       reward_scale reward_shaping workspace_offset z_offset parsed_problem
       objects_dict fixtures_dict object_sites_dict object_states_dict
       previous_distance placement_initializer
       conditional_placement_initializer
       conditional_placement_on_objects_initializer
       object_property_initializers deterministic_reset].
  intros H. cases_of H; injection H as <-;
    first
      [ exists []; cbn; rewrite !app_nil_r; split; reflexivity
      | eexists [_]; cbn; split; reflexivity ].
Qed.

Lemma classify_states_props_indep (initial_state : list (list string)) :
  forall (l : list PropertySampler) (plan plan' : Plan),
    classify_all plan initial_state = Ok plan' ->
    exists padded,
      object_property_initializers (plan_self plan')
      = object_property_initializers (plan_self plan) ++ padded
      /\ classify_all (plan_with_props l plan) initial_state
         = Ok (plan_with_props (l ++ padded) plan').
Proof.
  induction initial_state as [| state rest IH]; intros l plan plan'.
  - intros [= <-]. exists []. now rewrite !app_nil_r.
  - cbn [classify_states]. unfold mbind, result_bind.
    destruct (classify plan state) as [plan1 |] eqn:H1; [| discriminate].
    intros Hrest.
    destruct (classify_state_props_indep l _ _ _ H1) as (p1 & E1 & ->).
    destruct (IH (l ++ p1) _ _ Hrest) as (p2 & E2 & ->).
    exists (p1 ++ p2). now rewrite E2, E1, <- !app_assoc.
Qed.

Lemma place_on_sites_props_indep (l : list PropertySampler)
    (states : list (list string)) :
  forall self self',
    place_on_sites self states = Ok self' ->
    place_on_sites (set_object_property_initializers self l) states
    = Ok (set_object_property_initializers self' l).
Proof.
  induction states as [| state rest IH]; intros self self'.
  - now intros [= <-].
  - cbn [place_on_sites]. unfold mbind, result_bind.
    cbn [parsed_problem object_sites_dict objects_dict
         conditional_placement_initializer
         conditional_placement_on_objects_initializer
         set_object_property_initializers].
    intros H. cases_of H. exact (IH _ _ H).
Qed.

Lemma place_on_objects_props_indep (l : list PropertySampler)
    (states : list (list string)) :
  forall self self',
    place_on_objects self states = Ok self' ->
    place_on_objects (set_object_property_initializers self l) states
    = Ok (set_object_property_initializers self' l).
Proof.
  induction states as [| state rest IH]; intros self self'.
  - now intros [= <-].
  - cbn [place_on_objects]. unfold mbind, result_bind.
    cbn [parsed_problem object_sites_dict objects_dict
         conditional_placement_initializer
         conditional_placement_on_objects_initializer
         set_object_property_initializers].
    intros H. cases_of H. exact (IH _ _ H).
Qed.

Lemma place_in_objects_props_indep (l : list PropertySampler)
    (states : list (list string)) :
  forall self self',
    place_in_objects self states = Ok self' ->
    place_in_objects (set_object_property_initializers self l) states
    = Ok (set_object_property_initializers self' l).
Proof.
  induction states as [| state rest IH]; intros self self'.
  - now intros [= <-].
  - cbn [place_in_objects]. unfold mbind, result_bind.
    cbn [parsed_problem object_sites_dict objects_dict
         conditional_placement_initializer
         conditional_placement_on_objects_initializer
         set_object_property_initializers].
    intros H. cases_of H. exact (IH _ _ H).
Qed.

Lemma add_placement_props_indep (l : list PropertySampler) (self self' : Env) :
  add_placement self = Ok self' ->
  exists padded,
    object_property_initializers self'
    = object_property_initializers self ++ padded
    /\ add_placement (set_object_property_initializers self l)
       = Ok (set_object_property_initializers self' (l ++ padded)).
Proof.
  unfold _add_placement_initializer, mbind, result_bind.
  cbn [parsed_problem set_object_property_initializers]. intros H3.
  destruct (classify_all _ _) as [plan |] eqn:Hplan; [| discriminate].
  destruct (classify_states_props_indep _ l _ _ Hplan) as (padded & E & Hl).
  cbn [plan_self object_property_initializers] in E.
  destruct (place_on_sites _ _) as [self1 |] eqn:H1; [| discriminate].
  destruct (place_on_objects _ _) as [self2 |] eqn:H2; [| discriminate].
  exists padded. split.
  - apply place_on_sites_appends in H1 as (c1 & -> & _).
    apply place_on_objects_appends in H2 as (o1 & -> & _).
    apply place_in_objects_appends in H3 as (c2 & -> & _). exact E.
  - unfold plan_with_props in Hl. cbn [plan_self] in Hl.
    change (classify_states rectangle2xyrange
              {| plan_self := set_object_property_initializers self l;
                 conditioned_initial_place_state_on_sites := [];
                 conditioned_initial_place_state_on_objects := [];
                 conditioned_initial_place_state_in_objects := [] |}
              (initial_state (parsed_problem self)))
      with (classify_states rectangle2xyrange
              {| plan_self := set_object_property_initializers self l;
                 conditioned_initial_place_state_on_sites :=
                   conditioned_initial_place_state_on_sites
                     {| plan_self := self;
                        conditioned_initial_place_state_on_sites := [];
                        conditioned_initial_place_state_on_objects := [];
                        conditioned_initial_place_state_in_objects := [] |};
                 conditioned_initial_place_state_on_objects :=
                   conditioned_initial_place_state_on_objects
                     {| plan_self := self;
                        conditioned_initial_place_state_on_sites := [];
                        conditioned_initial_place_state_on_objects := [];
                        conditioned_initial_place_state_in_objects := [] |};
                 conditioned_initial_place_state_in_objects :=
                   conditioned_initial_place_state_in_objects
                     {| plan_self := self;
                        conditioned_initial_place_state_on_sites := [];
                        conditioned_initial_place_state_on_objects := [];
                        conditioned_initial_place_state_in_objects := [] |} |}
              (initial_state (parsed_problem self))).
    rewrite Hl.
    cbn [plan_self conditioned_initial_place_state_on_sites
         conditioned_initial_place_state_on_objects
         conditioned_initial_place_state_in_objects].
    rewrite (place_on_sites_props_indep _ _ _ _ H1).
    rewrite (place_on_objects_props_indep _ _ _ _ H2).
    exact (place_in_objects_props_indep _ _ _ _ H3).
Qed.

(** X13. Planning a scene a second time, as every further call of
    [_load_model] does, rebuilds the three placement composites as they were
    but appends the joint samplers once more: the second run succeeds and
    returns the planned scene with the joint samplers it gained the first
    time duplicated. *)
Theorem repeated_setup_duplicates_joint_samplers (self built : Env) :
  setup_placement self = Ok built ->
  exists padded,
    object_property_initializers built
    = object_property_initializers self ++ padded
    /\ setup_placement built
       = Ok (set_object_property_initializers built
               (object_property_initializers built ++ padded)).
Proof.
  unfold _setup_placement_initializer. intros H.
  destruct (add_placement_props_indep (object_property_initializers built)
              _ _ H) as (padded & E & Hagain).
  exists padded. split; [exact E |].
  assert (Hscene :
    set_conditional_placement_on_objects_initializer
      (set_conditional_placement_initializer
         (set_placement_initializer built []) []) []
    = set_object_property_initializers
        (set_conditional_placement_on_objects_initializer
           (set_conditional_placement_initializer
              (set_placement_initializer self []) []) [])
        (object_property_initializers built)).
  { clear Hagain E. revert H.
    unfold _add_placement_initializer, mbind, result_bind. intros H3.
    destruct (classify_all _ _) as [plan |] eqn:Hplan; [| discriminate].
    apply classify_states_shape in Hplan as [(added & props & _ & E) _].
    destruct (place_on_sites _ _) as [self1 |] eqn:H1; [| discriminate].
    apply place_on_sites_shape in H1 as (c1 & _ & ->).
    destruct (place_on_objects _ _) as [self2 |] eqn:H2; [| discriminate].
    apply place_on_objects_shape in H2 as (o1 & _ & -> & _).
    apply place_in_objects_shape in H3 as (c2 & _ & ->).
    rewrite E. reflexivity. }
  rewrite Hscene, Hagain. reflexivity.
Qed.

End PlannerProperties.

(** The kitchen planned from one atom of every category holds four
    samplers. *)
Lemma setup_registers_at_most_one_sampler_per_atom_witness :
  exists built,
    _setup_placement_initializer xy_of_rectangles
      (kitchen_env staged_initial_state []) = Ok built
    /\ (sampler_count built <= 4)%nat.
Proof.
  eexists. split; [vm_compute; reflexivity |].
  eapply Nat.le_trans;
    [eapply (setup_registers_at_most_one_sampler_per_atom xy_of_rectangles
               (kitchen_env staged_initial_state []));
     vm_compute; reflexivity |].
  vm_compute. repeat constructor.
Defined.

(** The mug in the cabinet top is declared first, yet the bowl on the
    cabinet top is sampled first. *)
Lemma site_samplers_precede_in_region_samplers_witness :
  exists built sites in_regions,
    _setup_placement_initializer xy_of_rectangles
      (kitchen_env Plans.container_first []) = Ok built
    /\ conditional_placement_initializer built = sites ++ in_regions
    /\ Forall (fun sa => s_class (fst sa) = SiteRegionRandomSampler) sites
    /\ Forall (fun sa => s_class (fst sa) = InSiteRegionRandomSampler)
         in_regions
    /\ map (fun sa => s_name (fst sa)) (conditional_placement_initializer built)
       = ["bowl_sampler"; "mug_sampler"].
Proof.
  eexists.
  edestruct (site_samplers_precede_in_region_samplers xy_of_rectangles
               (kitchen_env Plans.container_first []))
    as (sites & in_regions & E & Hs & Hi); [vm_compute; reflexivity |].
  exists sites, in_regions. split; [vm_compute; reflexivity |].
  split; [exact E |]. split; [exact Hs |]. split; [exact Hi |].
  vm_compute. reflexivity.
Defined.


(** [on(bowl, shelf)] names nothing known: the atom is dropped. *)
Lemma atoms_without_rule_are_dropped_witness :
  classify_state xy_of_rectangles
    {| plan_self := kitchen_env [] [];
       conditioned_initial_place_state_on_sites := [];
       conditioned_initial_place_state_on_objects := [];
       conditioned_initial_place_state_in_objects := [] |}
    ["on"; "bowl"; "shelf"]
  = Ok {| plan_self := kitchen_env [] [];
          conditioned_initial_place_state_on_sites := [];
          conditioned_initial_place_state_on_objects := [];
          conditioned_initial_place_state_in_objects := [] |}.
Proof.
  apply atoms_without_rule_are_dropped. left. split; [reflexivity |].
  exists "shelf". repeat split; vm_compute; reflexivity.
Defined.

(** Planning the kitchen twice leaves two joint samplers for the one
    cabinet. *)
Lemma repeated_setup_duplicates_joint_samplers_witness :
  exists built again,
    _setup_placement_initializer xy_of_rectangles
      (kitchen_env staged_initial_state []) = Ok built
    /\ _setup_placement_initializer xy_of_rectangles built = Ok again
    /\ length (object_property_initializers built) = 1%nat
    /\ length (object_property_initializers again) = 2%nat
    /\ placement_initializer again = placement_initializer built.
Proof.
  eexists.
  edestruct (repeated_setup_duplicates_joint_samplers xy_of_rectangles
               (kitchen_env staged_initial_state []))
    as (padded & E & Hagain); [vm_compute; reflexivity |].
  eexists. split; [vm_compute; reflexivity |]. split; [exact Hagain |].
  cbn [object_property_initializers set_object_property_initializers
       placement_initializer].
  cbn in E. subst padded.
  repeat split; vm_compute; reflexivity.
Defined.

(** ** The problem registry *)

Lemma lower_ascii_idempotent (c : ascii) :
  lower_ascii (lower_ascii c) = lower_ascii c.
Proof. destruct c as [[] [] [] [] [] [] [] []]; reflexivity. Qed.

Lemma lower_idempotent (s : string) : lower (lower s) = lower s.
Proof.
  induction s as [| c s IH]; [reflexivity |].
  cbn. now rewrite lower_ascii_idempotent, IH.
Qed.

(** Registrations keep a dict keyed by lowered class names that way. *)
Lemma registrations_keep_keys (classes : list ProblemClass) :
  forall (m : gmap string ProblemClass) (known : list ProblemClass),
    (forall k c, m !! k = Some c -> k = lower (class_name c) /\ In c known) ->
    forall k c,
      fold_left register_problem classes m !! k = Some c ->
      k = lower (class_name c) /\ In c (known ++ classes).
Proof.
  induction classes as [| cls rest IH]; intros m known Hm k c.
  - cbn. rewrite app_nil_r. apply Hm.
  - cbn [fold_left]. intros H.
    replace (known ++ cls :: rest) with ((known ++ [cls]) ++ rest)
      by now rewrite <- app_assoc.
    apply (IH (register_problem m cls) (known ++ [cls])); [| exact H].
    intros k' c'. unfold register_problem.
    destruct (decide (lower (class_name cls) = k')) as [<- | Hne].
    + rewrite lookup_insert_eq. intros [= <-].
      split; [reflexivity | apply in_or_app; right; now left].
    + rewrite lookup_insert_ne by exact Hne. intros Hk.
      destruct (Hm _ _ Hk) as [-> Hin].
      split; [reflexivity | apply in_or_app; now left].
Qed.

(** X14. Every entry of [TASK_MAPPING] is one of the registered classes,
    stored under its lowered name; the keys are themselves lower-case. *)
Theorem registry_is_keyed_by_lowered_name (classes : list ProblemClass)
    (k : string) (c : ProblemClass) :
  registry classes !! k = Some c ->
  k = lower (class_name c) /\ lower k = k /\ In c classes.
Proof.
  unfold registry. intros H.
  assert (Hempty : forall k c,
             (∅ : gmap string ProblemClass) !! k = Some c ->
             k = lower (class_name c) /\ In c []).
  { intros k' c' E. rewrite lookup_empty in E. discriminate. }
  destruct (registrations_keep_keys classes ∅ [] Hempty k c H) as [-> Hin].
  split; [reflexivity |]. split; [apply lower_idempotent | exact Hin].
Qed.

Lemma registrations_keep_other_keys (classes : list ProblemClass) :
  forall (m : gmap string ProblemClass) (k : string),
    Forall (fun c => lower (class_name c) <> k) classes ->
    fold_left register_problem classes m !! k = m !! k.
Proof.
  induction classes as [| cls rest IH]; intros m k Hall; [reflexivity |].
  inversion Hall as [| ? ? Hcls Hrest]; subst. cbn [fold_left].
  rewrite (IH _ _ Hrest). unfold register_problem.
  now rewrite lookup_insert_ne.
Qed.

(** X15. The registry is case-insensitive by overwriting: a class is found
    under its lowered name exactly as long as no class registered after it
    has the same name up to case; the later class takes the key. *)
Theorem registry_keeps_last_of_colliding_names (pre post : list ProblemClass)
    (c : ProblemClass) :
  Forall (fun c' => lower (class_name c') <> lower (class_name c)) post ->
  registry (pre ++ c :: post) !! lower (class_name c) = Some c.
Proof.
  intros Hpost. unfold registry. rewrite fold_left_app. cbn [fold_left].
  rewrite (registrations_keep_other_keys post _ _ Hpost).
  unfold register_problem. apply lookup_insert_eq.
Qed.

(** X16. An instance of a class found in the registry under the key [k]
    passes [_assert_problem_name] exactly when its parsed problem is named
    [k]; a problem name with an upper-case letter is accepted by no
    registered class. *)
Theorem registered_class_accepts_its_key (classes : list ProblemClass)
    (k : string) (cls : ProblemClass) (self : Env) :
  registry classes !! k = Some cls ->
  (_assert_problem_name cls self = Ok tt
   <-> problem_name (parsed_problem self) = k)
  /\ (_assert_problem_name cls self = Ok tt ->
      lower (problem_name (parsed_problem self))
      = problem_name (parsed_problem self)).
Proof.
  unfold registry. intros H.
  assert (Hempty : forall k c,
             (∅ : gmap string ProblemClass) !! k = Some c ->
             k = lower (class_name c) /\ In c []).
  { intros k' c' E. rewrite lookup_empty in E. discriminate. }
  destruct (registrations_keep_keys classes ∅ [] Hempty k cls H) as [-> _].
  unfold _assert_problem_name.
  destruct (String.eqb_spec (problem_name (parsed_problem self))
              (lower (class_name cls))) as [E | E].
  - split; [now split |]. intros _. rewrite E. apply lower_idempotent.
  - split; [split; [discriminate | contradiction] | discriminate].
Qed.

(** The kitchen class is found under its lowered name. *)
Lemma registry_is_keyed_by_lowered_name_witness :
  "libero_kitchen_tabletop_manipulation"
  = lower (class_name Classes.kitchen_class)
  /\ lower "libero_kitchen_tabletop_manipulation"
     = "libero_kitchen_tabletop_manipulation"
  /\ In Classes.kitchen_class [Classes.kitchen_class; Classes.floor_class].
Proof.
  apply (registry_is_keyed_by_lowered_name
           [Classes.kitchen_class; Classes.floor_class]).
  vm_compute. reflexivity.
Defined.

(** A class named like the kitchen class up to case, registered later,
    takes its key. *)
Lemma registry_keeps_last_of_colliding_names_witness :
  registry [Classes.kitchen_class; Classes.kitchen_clone; Classes.floor_class]
  !! lower (class_name Classes.kitchen_class)
  = Some Classes.kitchen_clone.
Proof.
  apply (registry_keeps_last_of_colliding_names [Classes.kitchen_class]
           [Classes.floor_class] Classes.kitchen_clone).
  constructor; [| constructor]. vm_compute. discriminate.
Defined.

(** The kitchen scene passes the assertion of the kitchen class. *)
Lemma registered_class_accepts_its_key_witness :
  _assert_problem_name Classes.kitchen_class (kitchen_env [] []) = Ok tt.
Proof.
  apply (registered_class_accepts_its_key
           [Classes.kitchen_class; Classes.floor_class]
           "libero_kitchen_tabletop_manipulation");
    vm_compute; reflexivity.
Defined.

(** ** The action conversion of [step] *)

Section StepProperties.

Variables Obs Info : Type.
Variable super_step : Env -> list Q -> result (Obs * Q * bool * Info * Env).
Variable _check_success : Env -> bool.

Lemma last_slice_last (action : list Q) :
  action <> [] -> last_slice action = [List.last action 0].
Proof.
  unfold last_slice. induction action as [| a rest IH]; [easy |]. intros _.
  destruct rest as [| b rest']; [reflexivity |].
  specialize (IH ltac:(discriminate)). cbn [length] in *.
  replace (S (S (length rest')) - 1)%nat with (S (S (length rest') - 1))
    by lia.
  cbn [skipn]. rewrite IH. reflexivity.
Qed.

(** X17. With [action_dim] 4 the action that [step] hands to the base class
    never has more than four entries: a longer action is cut to its first
    three entries and its last one, the entries in between being dropped.
    The [done] flag returned is the success check on the stepped scene,
    whatever the base class reported. *)
Theorem step_cuts_action_and_reports_success (self self' : Env)
    (action : list Q) (obs : Obs) (r : Q) (done : bool) (info : Info) :
  step Obs Info super_step _check_success 4 self action
  = Ok (obs, r, done, info, self') ->
  exists sent done0,
    super_step self sent = Ok (obs, r, done0, info, self')
    /\ done = _check_success self'
    /\ (length sent <= 4)%nat
    /\ firstn 3 sent = firstn 3 action
    /\ List.last sent 0 = List.last action 0.
Proof.
  unfold step, mbind, result_bind.
  destruct (super_step self (convert_action 4 action))
    as [[[[[obs0 r0] done0] info0] self0] |] eqn:Hsuper; [| discriminate].
  intros [= <- <- <- <- <-].
  exists (convert_action 4 action), done0.
  split; [exact Hsuper |]. split; [reflexivity |].
  unfold convert_action. cbn [Nat.eqb andb].
  destruct (Nat.ltb_spec 4 (length action)) as [Hlong | Hshort];
    [| repeat split; lia].
  assert (Hne : action <> []) by (intros ->; cbn in Hlong; lia).
  rewrite (last_slice_last _ Hne).
  destruct action as [| a0 [| a1 [| a2 rest]]]; cbn in Hlong; try lia.
  cbn [firstn app length]. repeat split; try lia; reflexivity.
Qed.

End StepProperties.

(** ** The object-state wrappers *)

Section StateWrapperProperties.

Variable eval_predicate_fn : string -> list ObjectStateView -> bool.
Variable pow_half : Q -> Q.
Variable new_ObjectState : Env -> string -> option bool -> ObjectStateView.
Variable new_SiteObjectState : Env -> string -> string -> ObjectStateView.
Variable parent_name : MujocoObject -> string.
Variable VISUAL_CHANGE_OBJECTS_DICT : string -> bool.

Local Abbreviation wrapper :=
  (_generate_object_state_wrapper new_ObjectState new_SiteObjectState
     parent_name VISUAL_CHANGE_OBJECTS_DICT).

Lemma find_after {A : Type} (p : A -> bool) (l1 l2 : list A) :
  List.find p (l1 ++ l2)
  = match List.find p l1 with
    | Some a => Some a
    | None => List.find p l2
    end.
Proof.
  induction l1 as [| a l1 IH]; [reflexivity |].
  cbn. now destruct (p a).
Qed.

(** Inserting [f k v] for the pairs of a list, skipped keys apart. *)
Lemma insert_pairs_lookup {V : Type} (f : string -> V -> ObjectStateView)
    (skip : list string) (l : list (string * V)) (n : string) :
  forall acc : gmap string ObjectStateView,
    fold_left (fun acc kv =>
                 if in_names (fst kv) skip then acc
                 else <[fst kv := f (fst kv) (snd kv)]> acc) l acc !! n
    = if in_names n skip then acc !! n
      else match List.find (fun kv => String.eqb n (fst kv)) (rev l) with
           | Some kv => Some (f n (snd kv))
           | None => acc !! n
           end.
Proof.
  induction l as [| [k v] rest IH]; intros acc.
  - cbn. now destruct (in_names n skip).
  - cbn [fold_left rev fst snd]. rewrite IH, find_after.
    destruct (in_names n skip) eqn:Hn.
    + destruct (in_names k skip) eqn:Hk; [reflexivity |].
      rewrite lookup_insert_ne; [reflexivity |]. intros ->. congruence.
    + destruct (List.find _ (rev rest)) as [kv |]; [reflexivity |].
      cbn [List.find fst snd].
      destruct (String.eqb_spec n k) as [-> | Hne].
      * rewrite Hn. now rewrite lookup_insert_eq.
      * destruct (in_names k skip); [reflexivity |].
        rewrite lookup_insert_ne; [reflexivity | congruence].
Qed.

Lemma find_in_map_to_list (d : gmap string MujocoObject) (n : string) :
  List.find (fun kv => String.eqb n (fst kv)) (rev (map_to_list d))
  = match d !! n with
    | Some v => Some (n, v)
    | None => None
    end.
Proof.
  destruct (List.find _ _) as [[k v] |] eqn:Hfind.
  - apply find_some in Hfind as [Hin Hk]. cbn in Hk.
    apply String.eqb_eq in Hk as <-.
    apply in_rev, list_elem_of_In, elem_of_map_to_list in Hin.
    now rewrite Hin.
  - destruct (d !! n) as [v |] eqn:Hn; [| reflexivity].
    apply elem_of_map_to_list, list_elem_of_In, in_rev in Hn.
    apply (find_none _ _ Hfind) in Hn. cbn in Hn.
    now rewrite String.eqb_refl in Hn.
Qed.

Lemma wrap_bodies_dict (self : Env) (skip : list string) (kw : option bool)
    (l : list (string * MujocoObject)) :
  forall acc : gmap string ObjectStateView * list ObjectStateView,
    fst (fold_left
           (fun acc kv =>
              let object_name := fst kv in
              if in_names object_name skip then acc
              else
                let state := new_ObjectState self object_name kw in
                (<[object_name := state]> (fst acc),
                 if VISUAL_CHANGE_OBJECTS_DICT (category_name (snd kv))
                 then snd acc ++ [state] else snd acc)) l acc)
    = fold_left (fun acc kv =>
                   if in_names (fst kv) skip then acc
                   else <[fst kv := new_ObjectState self (fst kv) kw]> acc)
        l (fst acc).
Proof.
  induction l as [| kv rest IH]; intros acc; [reflexivity |].
  cbn [fold_left]. rewrite IH. now destruct (in_names (fst kv) skip).
Qed.

Lemma wrap_bodies_lookup (self : Env) (skip : list string) (kw : option bool)
    (d : gmap string MujocoObject)
    (acc : gmap string ObjectStateView * list ObjectStateView) (n : string) :
  fst (wrap_bodies new_ObjectState VISUAL_CHANGE_OBJECTS_DICT self skip kw d acc)
  !! n
  = if in_names n skip then fst acc !! n
    else match d !! n with
         | Some _ => Some (new_ObjectState self n kw)
         | None => fst acc !! n
         end.
Proof.
  unfold wrap_bodies.
  rewrite wrap_bodies_dict,
    (insert_pairs_lookup (fun k _ => new_ObjectState self k kw)),
    find_in_map_to_list.
  destruct (in_names n skip); [reflexivity |]. now destruct (d !! n).
Qed.

Lemma wrap_sites_lookup (self : Env) (skip : list string)
    (d : gmap string MujocoObject) (acc : gmap string ObjectStateView)
    (n : string) :
  wrap_sites new_SiteObjectState parent_name self skip d acc !! n
  = if in_names n skip then acc !! n
    else match d !! n with
         | Some site => Some (new_SiteObjectState self n (parent_name site))
         | None => acc !! n
         end.
Proof.
  unfold wrap_sites.
  rewrite (insert_pairs_lookup
             (fun k v => new_SiteObjectState self k (parent_name v))),
    find_in_map_to_list.
  destruct (in_names n skip); [reflexivity |]. now destruct (d !! n).
Qed.

(** What one body loop adds to the tracking list. *)
Lemma wrap_bodies_tracking (self : Env) (skip : list string) (kw : option bool)
    (st : ObjectStateView) (l : list (string * MujocoObject)) :
  forall acc : gmap string ObjectStateView * list ObjectStateView,
    In st (snd (fold_left
                  (fun acc kv =>
                     let object_name := fst kv in
                     if in_names object_name skip then acc
                     else
                       let state := new_ObjectState self object_name kw in
                       (<[object_name := state]> (fst acc),
                        if VISUAL_CHANGE_OBJECTS_DICT (category_name (snd kv))
                        then snd acc ++ [state] else snd acc)) l acc))
    <-> In st (snd acc)
        \/ exists kv, In kv l /\ in_names (fst kv) skip = false
                      /\ VISUAL_CHANGE_OBJECTS_DICT (category_name (snd kv)) = true
                      /\ st = new_ObjectState self (fst kv) kw.
Proof.
  induction l as [| kv rest IH]; intros acc.
  - cbn. split; [now left | intros [H | (kv & [] & _)]; exact H].
  - cbn [fold_left]. rewrite IH. clear IH.
    destruct (in_names (fst kv) skip) eqn:Hskip.
    + split.
      * intros [H | (kv' & Hin & Hrest)]; [now left |].
        right. exists kv'. split; [now right | exact Hrest].
      * intros [H | (kv' & [<- | Hin] & Hs & Hrest)]; [now left | congruence |].
        right. exists kv'. now split.
    + cbn [snd].
      destruct (VISUAL_CHANGE_OBJECTS_DICT (category_name (snd kv))) eqn:Hvis.
      * split.
        -- intros [H | (kv' & Hin & Hrest)].
           ++ apply in_app_or in H as [H | [<- | []]]; [now left |].
              right. exists kv. repeat split; [now left | assumption..].
           ++ right. exists kv'. split; [now right | exact Hrest].
        -- intros [H | (kv' & [<- | Hin] & Hs & Hv & ->)].
           ++ left. apply in_or_app. now left.
           ++ left. apply in_or_app. right. now left.
           ++ right. exists kv'. now repeat split.
      * split.
        -- intros [H | (kv' & Hin & Hrest)]; [now left |].
           right. exists kv'. split; [now right | exact Hrest].
        -- intros [H | (kv' & [<- | Hin] & Hs & Hv & Hst)];
             [now left | congruence |].
           right. exists kv'. now repeat split.
Qed.

(** X18. The dict left by [_generate_object_state_wrapper] is built from
    scratch: a skipped name is never tracked; any other name is tracked as a
    site state if it is a site, else as a fixture state if it is a fixture,
    else as an object state if it is a movable object, and not at all
    otherwise. *)
Theorem wrapper_tracks_by_precedence (self : Env) (skip : list string)
    (n : string) :
  object_states_dict (fst (wrapper self skip)) !! n
  = if in_names n skip then None
    else match object_sites_dict self !! n with
         | Some site =>
           Some (new_SiteObjectState self n (parent_name site))
         | None =>
           match fixtures_dict self !! n with
           | Some _ => Some (new_ObjectState self n (Some true))
           | None =>
             match objects_dict self !! n with
             | Some _ => Some (new_ObjectState self n None)
             | None => None
             end
           end
         end.
Proof.
  unfold _generate_object_state_wrapper.
  cbn [fst object_states_dict set_object_states_dict].
  rewrite wrap_sites_lookup, !wrap_bodies_lookup. cbn [fst].
  rewrite lookup_empty.
  destruct (in_names n skip); [reflexivity |].
  destruct (object_sites_dict self !! n); [reflexivity |].
  destruct (fixtures_dict self !! n); [reflexivity |].
  now destruct (objects_dict self !! n).
Qed.

(** X19. A goal atom cannot be scored on a name the wrapper left out: for a
    name on the skip list, or one [get_object] does not resolve, the progress
    of an atom with that name as its first argument raises [KeyError] on it,
    and so does an atom with that name as its second argument once the first
    argument is tracked. *)
Theorem progress_raises_on_untracked_name (self : Env) (skip : list string)
    (p n : string) :
  in_names n skip = true \/ get_object self n = None ->
  _get_predicate_progress eval_predicate_fn pow_half
    (fst (wrapper self skip)) [p; n] = Raise (KeyError n)
  /\ (forall n2,
        _get_predicate_progress eval_predicate_fn pow_half
          (fst (wrapper self skip)) [p; n; n2] = Raise (KeyError n))
  /\ (forall n1,
        is_Some (object_states_dict (fst (wrapper self skip)) !! n1) ->
        _get_predicate_progress eval_predicate_fn pow_half
          (fst (wrapper self skip)) [p; n1; n] = Raise (KeyError n)).
Proof.
  intros Hleft.
  assert (Hnone : object_states_dict (fst (wrapper self skip)) !! n = None).
  { unfold _generate_object_state_wrapper.
    cbn [fst object_states_dict set_object_states_dict].
    rewrite wrap_sites_lookup, !wrap_bodies_lookup. cbn [fst].
    rewrite lookup_empty.
    destruct Hleft as [-> | Hget]; [reflexivity |].
    unfold get_object, contains in Hget.
    destruct (in_names n skip); [reflexivity |].
    destruct (fixtures_dict self !! n); [discriminate |].
    destruct (objects_dict self !! n); [discriminate |].
    destruct (object_sites_dict self !! n); [discriminate | reflexivity]. }
  unfold _get_predicate_progress, getitem, mbind, result_bind.
  rewrite Hnone. split; [reflexivity |]. split; [reflexivity |].
  intros n1 [st1 ->]. reflexivity.
Qed.

(** X20. The tracking list holds the states of exactly the movable objects
    and fixtures that are not skipped and whose category changes visually; no
    site is ever on it. *)
Theorem tracking_holds_visual_bodies (self : Env) (skip : list string)
    (st : ObjectStateView) :
  In st (snd (wrapper self skip))
  <-> exists n o,
        in_names n skip = false
        /\ VISUAL_CHANGE_OBJECTS_DICT (category_name o) = true
        /\ ((objects_dict self !! n = Some o
             /\ st = new_ObjectState self n None)
            \/ (fixtures_dict self !! n = Some o
                /\ st = new_ObjectState self n (Some true))).
Proof.
  unfold _generate_object_state_wrapper, wrap_bodies. cbn [snd].
  rewrite !wrap_bodies_tracking. cbn [snd In]. split.
  - intros [[[] | ([n o] & Hin & Hs & Hv & ->)] | ([n o] & Hin & Hs & Hv & ->)];
      cbn [fst snd] in *;
      apply list_elem_of_In, elem_of_map_to_list in Hin;
      exists n, o; repeat split; auto.
  - intros (n & o & Hs & Hv & [[Hin ->] | [Hin ->]]);
      apply elem_of_map_to_list, list_elem_of_In in Hin.
    + left. right. exists (n, o). repeat split; assumption.
    + right. exists (n, o). repeat split; assumption.
Qed.

End StateWrapperProperties.

(** The default skip list leaves the main table untracked. *)
Lemma progress_raises_on_untracked_name_witness :
  _get_predicate_progress eval_threshold sqrt_floor
    (fst (_generate_object_state_wrapper Wrappers.object_state_of
            Wrappers.site_state_of Wrappers.parent_of Wrappers.changes_visually
            (kitchen_env [] [["on"; "plate"; "main_table"]])
            default_skip_object_names))
    ["on"; "plate"; "main_table"]
  = Raise (KeyError "main_table").
Proof.
  refine (proj2 (proj2 (progress_raises_on_untracked_name eval_threshold
                          sqrt_floor Wrappers.object_state_of
                          Wrappers.site_state_of Wrappers.parent_of
                          Wrappers.changes_visually
                          (kitchen_env [] [["on"; "plate"; "main_table"]])
                          default_skip_object_names "on" "main_table"
                          (or_introl eq_refl))) "plate" _).
  eexists. vm_compute. reflexivity.
Defined.


(** The dummy action of the example loses its three rotation entries. *)
Lemma step_cuts_action_and_reports_success_witness :
  exists sent done0,
    Drivers.echo_step (kitchen_env [] []) sent
    = Ok ([0; 0; 0; -1], 0, done0, tt, kitchen_env [] [])
    /\ true = always_success (kitchen_env [] [])
    /\ (length sent <= 4)%nat
    /\ firstn 3 sent = firstn 3 get_libero_dummy_action
    /\ List.last sent 0 = List.last get_libero_dummy_action 0.
Proof.
  apply (step_cuts_action_and_reports_success (list Q) unit Drivers.echo_step
           always_success (kitchen_env [] []) (kitchen_env [] [])
           get_libero_dummy_action).
  vm_compute. reflexivity.
Defined.

(** ** Observables *)

Lemma fold_observe_lookup (control_freq : Q) (flagged : bool)
    (l : list (string * Sensor)) (n : string) :
  forall acc : gmap string Observable,
    fold_left (observe control_freq flagged) l acc !! n
    = match List.find (fun ns => String.eqb n (fst ns)) (rev l) with
      | Some ns => observe control_freq flagged ∅ (n, snd ns) !! n
      | None => acc !! n
      end.
Proof.
  induction l as [| [k s] rest IH]; intros acc; [reflexivity |].
  cbn [fold_left rev]. rewrite IH, find_after.
  destruct (List.find _ (rev rest)) as [ns |]; [reflexivity |].
  cbn [List.find fst snd].
  destruct (String.eqb_spec n k) as [-> | Hne].
  - unfold observe.
    destruct (flagged && String.eqb k "world_pose_in_gripper");
      now rewrite !lookup_insert_eq.
  - unfold observe.
    destruct (flagged && String.eqb k "world_pose_in_gripper");
      now rewrite lookup_insert_ne by congruence.
Qed.

Lemma extend_sensors_shape (pf : string) (objects : list MujocoObject) :
  forall acc : list Sensor * list string,
    length (fst acc) = length (snd acc) ->
    length (fst (extend_sensors pf objects acc))
    = length (snd (extend_sensors pf objects acc))
    /\ (forall n, In n (snd acc) -> In n (snd (extend_sensors pf objects acc)))
    /\ (forall o n, In o objects ->
                    In n (snd (_create_obj_sensors pf (name o))) ->
                    In n (snd (extend_sensors pf objects acc))).
Proof.
  unfold extend_sensors.
  induction objects as [| obj rest IH]; intros acc Hlen.
  - cbn. split; [exact Hlen |]. split; [auto | intros o n []].
  - cbn [fold_left].
    edestruct (IH (fst acc ++ fst (_create_obj_sensors pf (name obj)),
                   snd acc ++ snd (_create_obj_sensors pf (name obj))))
      as (Hl & Hold & Hnew).
    { cbn [fst snd _create_obj_sensors]. rewrite !length_app, Hlen. reflexivity. }
    split; [exact Hl |]. split.
    + intros n Hn. apply Hold. cbn [snd]. apply in_or_app. now left.
    + intros o n [<- | Ho] Hn.
      * apply Hold. cbn [snd]. apply in_or_app. now right.
      * now apply (Hnew o).
Qed.

Lemma find_in_zip (names : list string) (sensors : list Sensor) (n : string) :
  length sensors = length names -> In n names ->
  exists ns, List.find (fun ns => String.eqb n (fst ns))
               (rev (zip names sensors)) = Some ns
             /\ fst ns = n.
Proof.
  intros Hlen Hn.
  destruct (List.find _ _) as [ns |] eqn:Hfind.
  - exists ns. split; [reflexivity |].
    apply find_some in Hfind as [_ Hk]. now apply String.eqb_eq in Hk.
  - exfalso. revert sensors Hlen Hfind.
    induction names as [| k names IH]; [destruct Hn |].
    intros [| s sensors] Hlen Hfind; [discriminate |].
    cbn [zip zip_with rev] in Hfind. rewrite find_after in Hfind.
    destruct (List.find _ (rev _)) eqn:Hrest; [discriminate |].
    cbn [List.find fst] in Hfind.
    destruct Hn as [-> | Hn]; [now rewrite String.eqb_refl in Hfind |].
    apply (IH Hn sensors); [now injection Hlen | exact Hrest].
Qed.

(** X21. Without object observations [_setup_observables] never returns: the
    locals [sensors] and [names] are bound only under [use_object_obs], so
    the first [sensors.append] raises [UnboundLocalError], unless the base
    class already failed to provide the joint-position observable. *)
Theorem setup_observables_needs_object_obs (pf : string) (control_freq : Q)
    (objects : list MujocoObject) (observables : gmap string Observable) :
  _setup_observables pf control_freq false objects observables
  = if contains observables "robot0_joint_pos"
    then Raise (UnboundLocalError "sensors")
    else Raise (KeyError "robot0_joint_pos").
Proof.
  unfold _setup_observables, contains, mbind, result_bind.
  now destruct (observables !! "robot0_joint_pos").
Qed.

(** X22. With object observations, and the joint-position observable in the
    base dict, [_setup_observables] returns a dict that holds, for every
    object of the scene, an observable under each of its four sensor names,
    named by its key, sampled at the control frequency and, the name of the
    gripper pose apart, with default flags; the gripper pose is enabled and
    not active. *)
Theorem setup_observables_registers_object_sensors (pf : string)
    (control_freq : Q) (objects : list MujocoObject)
    (observables : gmap string Observable) (joint : Observable) :
  observables !! "robot0_joint_pos" = Some joint ->
  exists result,
    _setup_observables pf control_freq true objects observables = Ok result
    /\ (forall o n,
          In o objects -> In n (snd (_create_obj_sensors pf (name o))) ->
          exists ob,
            result !! n = Some ob /\ o_name ob = n
            /\ sampling_rate ob = control_freq
            /\ (n <> "world_pose_in_gripper" ->
                enabled ob = None /\ _active ob = None))
    /\ (exists ob,
          result !! "world_pose_in_gripper" = Some ob
          /\ enabled ob = Some true /\ _active ob = Some false).
Proof.
  intros Hjoint. unfold _setup_observables, mbind, result_bind.
  rewrite Hjoint. cbn [zip zip_with fold_left app].
  eexists. split; [reflexivity |].
  destruct (extend_sensors_shape pf objects
              ([world_pose_in_gripper], ["world_pose_in_gripper"]) eq_refl)
    as (Hlen & Hold & Hnew).
  split.
  - intros o n Ho Hn. rewrite fold_observe_lookup.
    destruct (find_in_zip _ _ n Hlen (Hnew o n Ho Hn)) as (ns & -> & _).
    unfold observe. cbn [andb].
    destruct (String.eqb_spec n "world_pose_in_gripper") as [E | E];
      rewrite lookup_insert_eq; eexists;
      (split; [reflexivity |]); cbn; repeat split; congruence.
  - rewrite fold_observe_lookup.
    destruct (find_in_zip _ _ "world_pose_in_gripper" Hlen
                (Hold _ (or_introl eq_refl))) as (ns & -> & _).
    unfold observe. cbn [andb String.eqb Ascii.eqb Bool.eqb].
    rewrite lookup_insert_eq. eexists. repeat split.
Qed.

(** The kitchen with its plate gets the gripper pose and the observables of
    the plate. *)
Lemma setup_observables_registers_object_sensors_witness :
  exists result,
    _setup_observables "robot0_" 20 true [rigid "plate" "plate"]
      Robots.base_observables = Ok result
    /\ (exists ob,
          result !! "plate_to_robot0_eef_pos" = Some ob
          /\ o_name ob = "plate_to_robot0_eef_pos")
    /\ (exists ob,
          result !! "world_pose_in_gripper" = Some ob
          /\ enabled ob = Some true /\ _active ob = Some false).
Proof.
  destruct (setup_observables_registers_object_sensors "robot0_" 20
              [rigid "plate" "plate"] Robots.base_observables
              Robots.joint_pos eq_refl)
    as (result & Hresult & Hobjects & Hgripper).
  exists result. split; [exact Hresult |]. split; [| exact Hgripper].
  destruct (Hobjects (rigid "plate" "plate") "plate_to_robot0_eef_pos"
              (or_introl eq_refl)
              (or_intror (or_intror (or_introl eq_refl))))
    as (ob & Hob & Hname & _).
  exists ob. split; assumption.
Defined.


(** ** Paths, the config file and the environment of a task *)

(** X23. After [set_libero_default_path] the config file answers five keys
    and no other: each path is the location joined with a fixed relative
    part, the datasets lying beside the location rather than under it, and
    any other key fails the assertion of [get_libero_path]. *)
Theorem default_paths_round_trip (module_dir location : string) (k : string) :
  get_libero_path (set_libero_default_path module_dir (Some location)) k
  = if String.eqb k "benchmark_root" then Ok location
    else if String.eqb k "bddl_files"
         then Ok (path_join location ["./bddl_files"])
    else if String.eqb k "init_states"
         then Ok (path_join location ["./init_files"])
    else if String.eqb k "datasets"
         then Ok (path_join location ["../datasets"])
    else if String.eqb k "assets"
         then Ok (path_join location ["./assets"])
    else Raise AssertionError.
Proof.
  unfold get_libero_path, set_libero_default_path, get_default_path_dict.
  repeat match goal with
         | |- context [String.eqb k ?s] =>
           destruct (String.eqb_spec k s) as [-> | ?]; [reflexivity |]
         end.
  rewrite !lookup_insert_ne by congruence.
  now rewrite lookup_singleton_ne by congruence.
Qed.

Section EnvFromTaskProperties.

Variable path_exists : string -> bool.
Variable get_task : string -> Z -> result (string * string).

Lemma search_folders_finds (config : gmap string string)
    (bddl_files task : string) (folders : list string) :
  config !! "bddl_files" = Some bddl_files ->
  search_folders path_exists (Some config) task folders
  = Ok (List.find path_exists
              (map (fun folder => path_join bddl_files [folder; task +:+ ".bddl"])
                 folders)).
Proof.
  intros Hkey. induction folders as [| folder rest IH]; [reflexivity |].
  cbn [search_folders map List.find]. unfold get_libero_path at 1.
  rewrite Hkey. unfold mbind, result_bind.
  destruct (path_exists _); [reflexivity | exact IH].
Qed.

(** X24. Called without a benchmark or without a task id,
    [get_env_from_task] takes the first path that exists among the five
    benchmark folders, in their fixed order, and then the BDDL root itself;
    when none exists it raises [FileNotFoundError], whatever the keyword
    arguments. *)
Theorem env_from_task_takes_first_existing_path (config : gmap string string)
    (bddl_files task : string) (task_id : option Z) (benchmark : option string)
    (kwargs : gmap string value) :
  config !! "bddl_files" = Some bddl_files ->
  benchmark = None \/ task_id = None ->
  get_env_from_task path_exists get_task (Some config) task task_id benchmark
    kwargs
  = match List.find path_exists (candidate_paths bddl_files task) with
    | Some path => Ok (env_args_for path kwargs)
    | None => Raise FileNotFoundError
    end.
Proof.
  intros Hkey Hmode.
  assert (Hname :
    get_env_from_task path_exists get_task (Some config) task task_id
      benchmark kwargs
    = get_env_from_task path_exists get_task (Some config) task None None
        kwargs).
  { destruct Hmode as [-> | ->]; [now destruct task_id | now destruct benchmark]. }
  rewrite Hname. unfold get_env_from_task, candidate_paths.
  rewrite (search_folders_finds config bddl_files task _ Hkey), find_after.
  unfold mbind, result_bind.
  destruct (List.find path_exists (map _ benchmark_folders)); [reflexivity |].
  unfold get_libero_path. rewrite Hkey. cbn [List.find].
  now destruct (path_exists _).
Qed.

(** X25. The keyword arguments win over the three arguments
    [get_env_from_task] sets itself, the BDDL file it has just located
    included; without them the cameras are 128 by 128; nothing else is
    passed on. *)
Theorem env_from_task_kwargs_override (config_file : ConfigFile)
    (task : string) (task_id : option Z) (benchmark : option string)
    (kwargs env_args : gmap string value) :
  get_env_from_task path_exists get_task config_file task task_id benchmark
    kwargs = Ok env_args ->
  (forall k v, kwargs !! k = Some v -> env_args !! k = Some v)
  /\ (kwargs !! "camera_heights" = None ->
      env_args !! "camera_heights" = Some (Int 128))
  /\ (kwargs !! "camera_widths" = None ->
      env_args !! "camera_widths" = Some (Int 128))
  /\ (forall k,
        kwargs !! k = None -> k <> "bddl_file_name" ->
        k <> "camera_heights" -> k <> "camera_widths" ->
        env_args !! k = None).
Proof.
  unfold get_env_from_task, mbind, result_bind.
  match goal with
  | |- match ?m with _ => _ end = _ -> _ =>
    destruct m as [bddl_file_path |]; [| discriminate]
  end.
  intros [= <-]. split; [| split; [| split]].
  - intros k v Hk. apply lookup_union_Some_l. exact Hk.
  - intros Hk. rewrite lookup_union_r by exact Hk. reflexivity.
  - intros Hk. rewrite lookup_union_r by exact Hk. reflexivity.
  - intros k Hk H1 H2 H3. rewrite lookup_union_r by exact Hk.
    rewrite !lookup_insert_ne by congruence.
    now rewrite lookup_singleton_ne by congruence.
Qed.

(** X26. With a benchmark and a task id the task name plays no part, and
    the file named by the benchmark is passed on without a look at the
    disk: the call succeeds whenever the benchmark knows the task and the
    config file has the BDDL root. *)
Theorem env_from_benchmark_skips_the_search (config : gmap string string)
    (bddl_files task : string) (task_id : Z) (benchmark : string)
    (problem_folder bddl_file : string) (kwargs : gmap string value) :
  config !! "bddl_files" = Some bddl_files ->
  get_task benchmark task_id = Ok (problem_folder, bddl_file) ->
  get_env_from_task path_exists get_task (Some config) task (Some task_id)
    (Some benchmark) kwargs
  = Ok (env_args_for (path_join bddl_files [problem_folder; bddl_file])
              kwargs).
Proof.
  intros Hkey Htask. unfold get_env_from_task, mbind, result_bind.
  rewrite Htask. unfold get_libero_path. rewrite Hkey. reflexivity.
Qed.

End EnvFromTaskProperties.

(** The task found in [libero_90] and in [libero_goal] is taken from
    [libero_90]. *)
Lemma env_from_task_takes_first_existing_path_witness :
  get_env_from_task Files.disk Files.no_benchmark Files.config_file
    "open_the_cabinet" None None ∅
  = Ok (env_args_for "/data/./bddl_files/libero_90/open_the_cabinet.bddl" ∅).
Proof.
  exact (env_from_task_takes_first_existing_path Files.disk
           Files.no_benchmark (get_default_path_dict "/opt/libero" (Some "/data"))
           "/data/./bddl_files" "open_the_cabinet" None None ∅ eq_refl
           (or_introl eq_refl)).
Defined.

(** A keyword argument replaces the file that was found. *)
Lemma env_from_task_kwargs_override_witness :
  get_env_from_task Files.disk Files.no_benchmark Files.config_file
    "open_the_cabinet" None None {[ "bddl_file_name" := Str "other.bddl" ]}
  = Ok (env_args_for "/data/./bddl_files/libero_90/open_the_cabinet.bddl"
              {[ "bddl_file_name" := Str "other.bddl" ]})
  /\ env_args_for "/data/./bddl_files/libero_90/open_the_cabinet.bddl"
       {[ "bddl_file_name" := Str "other.bddl" ]} !! "bddl_file_name"
     = Some (Str "other.bddl")
  /\ env_args_for "/data/./bddl_files/libero_90/open_the_cabinet.bddl"
       {[ "bddl_file_name" := Str "other.bddl" ]} !! "camera_heights"
     = Some (Int 128).
Proof.
  assert (Hcall :
    get_env_from_task Files.disk Files.no_benchmark Files.config_file
      "open_the_cabinet" None None {[ "bddl_file_name" := Str "other.bddl" ]}
    = Ok (env_args_for "/data/./bddl_files/libero_90/open_the_cabinet.bddl"
                {[ "bddl_file_name" := Str "other.bddl" ]}))
    by reflexivity.
  split; [exact Hcall |].
  destruct (env_from_task_kwargs_override Files.disk Files.no_benchmark
              Files.config_file "open_the_cabinet" None None _ _ Hcall)
    as (Hkw & Hheight & _).
  split; [apply Hkw | apply Hheight]; reflexivity.
Defined.

(** A benchmark task is passed on although its file is not on the disk. *)
Lemma env_from_benchmark_skips_the_search_witness :
  Files.disk "/data/./bddl_files/libero_10/task_0.bddl" = false
  /\ get_env_from_task Files.disk Files.one_benchmark Files.config_file
       "open_the_cabinet" (Some 0%Z) (Some "libero_10") ∅
     = Ok (env_args_for "/data/./bddl_files/libero_10/task_0.bddl" ∅).
Proof.
  split; [reflexivity |].
  exact (env_from_benchmark_skips_the_search Files.disk Files.one_benchmark
           (get_default_path_dict "/opt/libero" (Some "/data"))
           "/data/./bddl_files" "open_the_cabinet" 0 "libero_10" "libero_10"
           "task_0.bddl" ∅ eq_refl eq_refl).
Defined.
